(** * FPL assistant: feature engineering, dataset synthesis, tiered loading

    A shallow embedding of the feature-engineering / dataset-synthesis /
    training-orchestration core of the FPL assistant, with the properties its
    specification states about it.

    Python values are embedded as follows.
    - [float] is Rocq's primitive binary64 float, the same IEEE 754 format and
      round-to-nearest-even arithmetic as a Python [float] or a numpy
      [float64].
    - [int] is [Z].
    - A [str] is the list of the bytes of its UTF-8 encoding.
    - A [dict] is an insertion-ordered association list with unique keys.
    - Code that can raise returns a [result]. *)

From Stdlib Require Import ZArith Lia Ascii String.
From stdpp Require Import base option list strings pretty sorting gmap.
From Stdlib Require Import Floats.

Set Warnings "-inexact-float,-register-all".
Local Open Scope Z_scope.

(** ** Exceptions and results *)

Inductive exn : Type :=
| ValueError
| TypeError
| KeyError
| AttributeError
| OverflowError
| ZeroDivisionError
| FileNotFoundError
| AssertionError
| RequestError (msg : string)
| HTTPStatusError
| Exception (msg : string).

Inductive result (A : Type) : Type :=
| Ok (a : A)
| Raise (e : exn).
Arguments Ok {A} a.
Arguments Raise {A} e.

Definition bind {A B : Type} (m : result A) (k : A -> result B) : result B :=
  match m with
  | Ok a => k a
  | Raise e => Raise e
  end.

Notation "'let*' x ':=' m 'in' k" := (bind m (fun x => k))
  (at level 10, x name, m at level 200, k at level 200, only parsing).
Notation "'let*' ' p ':=' m 'in' k" := (bind m (fun p => k))
  (at level 10, p strict pattern, m at level 200, k at level 200, only parsing).

(** [try: m except E: h] for a handler selected by the predicate [catches]. *)
Definition try_except {A : Type} (m : result A) (catches : exn -> bool)
    (h : exn -> result A) : result A :=
  match m with
  | Ok a => Ok a
  | Raise e => if catches e then h e else Raise e
  end.

(** ** Python floats *)

Module PyFloat.

(** Round the dyadic number [m * 2^e] to the nearest binary64, ties to even. *)
Definition round_dyadic (m e : Z) : spec_float :=
  binary_normalize prec emax m e false.

(** Round the rational [n / d] (with [0 <= n] and [0 < d]) to the nearest
    binary64, ties to even, and give it the sign [neg].  The quotient is
    computed with at least 64 significant bits and a sticky bit for the
    remainder, which decides every rounding case. *)
Definition round_ratio (neg : bool) (n d : Z) : spec_float :=
  let s := Z.max 0 (Z.log2 d + 66 - Z.log2 n) in
  let q := (n * 2 ^ s) / d in
  let r := (n * 2 ^ s) mod d in
  let m := 2 * q + (if r =? 0 then 0 else 1) in
  let x := round_dyadic m (- s - 1) in
  if neg then SFopp x else x.

(** [float(n)] for an [int]: the nearest float, [OverflowError] beyond the
    finite range. *)
Definition of_int (n : Z) : result float :=
  match round_dyadic n 0 with
  | S754_infinity _ => Raise OverflowError
  | x => Ok (SF2Prim x)
  end.

(** [a / b] for two [int]s: the correctly rounded quotient. *)
Definition int_truediv (a b : Z) : result float :=
  if b =? 0 then Raise ZeroDivisionError
  else
    match round_ratio (xorb (a <? 0) (b <? 0)) (Z.abs a) (Z.abs b) with
    | S754_infinity _ => Raise OverflowError
    | x => Ok (SF2Prim x)
    end.

(** [int(x)] for a float: truncation toward zero. *)
Definition trunc (x : float) : result Z :=
  match Prim2SF x with
  | S754_zero _ => Ok 0
  | S754_finite s m e =>
      let v := if 0 <=? e then Z.pos m * 2 ^ e else Z.pos m / 2 ^ (- e) in
      Ok (if s then - v else v)
  | S754_infinity _ => Raise OverflowError
  | S754_nan => Raise ValueError
  end.

Definition isnan (x : float) : bool := PrimFloat.is_nan x.
Definition isinf (x : float) : bool := PrimFloat.is_infinity x.
Definition isfinite (x : float) : bool := negb (isnan x) && negb (isinf x).

(** C's [fmod]: the exact remainder of [x / y], with the sign of [x]. *)
Definition fmod (x y : float) : float :=
  match Prim2SF x, Prim2SF y with
  | S754_nan, _ | _, S754_nan => nan
  | S754_infinity _, _ => nan
  | _, S754_zero _ => nan
  | S754_zero _, _ => x
  | S754_finite _ _ _, S754_infinity _ => x
  | S754_finite sx mx ex, S754_finite _ my ey =>
      let e := Z.min ex ey in
      let r := (Z.pos mx * 2 ^ (ex - e)) mod (Z.pos my * 2 ^ (ey - e)) in
      if r =? 0 then (if sx then neg_zero else zero)
      else SF2Prim (round_dyadic (if sx then - r else r) e)
  end.

(** C's [floor]. *)
Definition floor (x : float) : float :=
  match Prim2SF x with
  | S754_finite s m e =>
      if 0 <=? e then x
      else
        let q := Z.pos m / 2 ^ (- e) in
        let exact := Z.pos m mod 2 ^ (- e) =? 0 in
        let v := if s then - (if exact then q else q + 1) else q in
        if v =? 0 then zero else SF2Prim (round_dyadic v 0)
  | _ => x
  end.

(** [x // y] on floats, as CPython's [float_floor_div] computes it. *)
Definition floordiv (x y : float) : result float :=
  if PrimFloat.eqb y 0 then Raise ZeroDivisionError
  else
    let mod0 := fmod x y in
    let div0 := ((x - mod0) / y)%float in
    let adjust :=
      negb (PrimFloat.eqb mod0 0)
      && negb (Bool.eqb (PrimFloat.ltb y 0) (PrimFloat.ltb mod0 0)) in
    let div1 := if adjust then (div0 - 1)%float else div0 in
    if negb (PrimFloat.eqb div1 0) then
      let fl := floor div1 in
      Ok (if PrimFloat.ltb 0.5 (div1 - fl) then (fl + 1)%float else fl)
    else
      Ok (if get_sign (x / y) then neg_zero else zero).

(** [round(x, 1)]: the exact value of [x] rounded half-even to one decimal
    place, then to the nearest float. *)
Definition round1 (x : float) : float :=
  match Prim2SF x with
  | S754_finite s m e =>
      if 0 <=? e then x
      else
        let num := Z.pos m * 10 in
        let den := 2 ^ (- e) in
        let q := num / den in
        let r := num mod den in
        let q' :=
          match 2 * r ?= den with
          | Lt => q
          | Eq => if Z.even q then q else q + 1
          | Gt => q + 1
          end in
        SF2Prim (round_ratio s q' 10)
  | _ => x
  end.

(** The builtin [max(0, x)]: [x] when [x > 0], else the first argument. *)
Definition max0 (x : float) : float :=
  if PrimFloat.ltb 0 x then x else 0%float.

End PyFloat.

(** ** Strings to floats: the builtin [float(s)] *)

Module PyStr.

(** [s.replace(old, new)] for single characters. *)
Fixpoint replace_char (old new : ascii) (s : string) : string :=
  match s with
  | EmptyString => EmptyString
  | String c s' =>
      String (if Ascii.eqb c old then new else c) (replace_char old new s')
  end.

Definition code (c : ascii) : Z := Z.of_nat (nat_of_ascii c).

(** The blanks [float()] strips from both ends of the ASCII text: C's
    [isspace] in the C locale ([Py_ISSPACE]), which leaves out the
    separators 28 to 31 that [str.isspace] accepts. *)
Definition is_space (c : ascii) : bool :=
  let n := code c in
  (9 <=? n) && (n <=? 13) || (n =? 32).

Definition char_of (n : Z) : ascii := ascii_of_nat (Z.to_nat n).

(** The payload of a UTF-8 continuation byte. *)
Definition continuation (c : ascii) : option Z :=
  let n := code c in
  if (128 <=? n) && (n <=? 191) then Some (n - 128) else None.

(** The code points of a [str] held as UTF-8 bytes.  [-1] stands for a byte
    that starts no well-formed sequence (overlong forms and surrogates
    included); no [str] has such an encoding. *)
Fixpoint code_points (l : list ascii) : list Z :=
  match l with
  | [] => []
  | c :: l1 =>
      let n := code c in
      if n <? 128 then n :: code_points l1
      else
        match l1 with
        | [] => [-1]
        | c1 :: l2 =>
            match continuation c1 with
            | None => -1 :: code_points l1
            | Some a =>
                if (194 <=? n) && (n <=? 223) then
                  ((n - 192) * 64 + a) :: code_points l2
                else
                  match l2 with
                  | [] => -1 :: code_points l1
                  | c2 :: l3 =>
                      match continuation c2 with
                      | None => -1 :: code_points l1
                      | Some b =>
                          if (224 <=? n) && (n <=? 239) then
                            let ch := (n - 224) * 4096 + a * 64 + b in
                            if (2048 <=? ch) && negb ((55296 <=? ch) && (ch <=? 57343))
                            then ch :: code_points l3
                            else -1 :: code_points l1
                          else
                            match l3 with
                            | [] => -1 :: code_points l1
                            | c3 :: l4 =>
                                match continuation c3 with
                                | None => -1 :: code_points l1
                                | Some d =>
                                    let ch := (n - 240) * 262144 + a * 4096
                                              + b * 64 + d in
                                    if (240 <=? n) && (n <=? 244)
                                       && (65536 <=? ch) && (ch <=? 1114111)
                                    then ch :: code_points l4
                                    else -1 :: code_points l1
                                end
                            end
                      end
                  end
            end
        end
  end.

(** The characters beyond ASCII that [str.isspace] accepts
    ([Py_UNICODE_ISSPACE]). *)
Definition unicode_spaces : list Z :=
  [ 133; 160; 5760; 8192; 8193; 8194; 8195; 8196; 8197; 8198; 8199; 8200;
    8201; 8202; 8232; 8233; 8239; 8287; 12288 ].

Definition is_unicode_space (ch : Z) : bool := existsb (Z.eqb ch) unicode_spaces.

(** The first code point of every run of ten decimal digits 0 to 9 beyond
    ASCII, as the Unicode 14.0 tables of CPython 3.11 list them
    ([Py_UNICODE_TODECIMAL]); the mathematical digits from 120782 on are
    five such runs. *)
Definition decimal_runs : list Z :=
  [ 1632; 1776; 1984; 2406; 2534; 2662; 2790; 2918; 3046; 3174; 3302; 3430;
    3558; 3664; 3792; 3872; 4160; 4240; 6112; 6160; 6470; 6608; 6784; 6800;
    6992; 7088; 7232; 7248; 42528; 43216; 43264; 43472; 43504; 43600;
    44016; 65296; 66720; 68912; 69734; 69872; 69942; 70096; 70384; 70736;
    70864; 71248; 71360; 71472; 71904; 72016; 72784; 73040; 73120; 92768;
    92864; 93008; 120782; 120792; 120802; 120812; 120822; 123200; 123632;
    125264; 130032 ].

Definition unicode_decimal (ch : Z) : option Z :=
  match List.find (fun start => (start <=? ch) && (ch <? start + 10)) decimal_runs with
  | Some start => Some (ch - start)
  | None => None
  end.

(** [_PyUnicode_TransformDecimalAndSpaceToASCII] on the code points of a
    [str] that is not pure ASCII: a blank becomes a space, a decimal digit
    its ASCII digit, and the text ends in ["?"] at the first other character
    from 127 on. *)
Fixpoint transform_decimal_and_space (chars : list Z) : list ascii :=
  match chars with
  | [] => []
  | ch :: chars' =>
      if (0 <=? ch) && (ch <? 127) then char_of ch :: transform_decimal_and_space chars'
      else if is_unicode_space ch then " "%char :: transform_decimal_and_space chars'
      else
        match unicode_decimal ch with
        | Some d => char_of (48 + d) :: transform_decimal_and_space chars'
        | None => ["?"%char]
        end
  end.

(** The ASCII text [float()] parses: the [str] itself when it is pure
    ASCII, else its transform. *)
Definition ascii_text (s : string) : list ascii :=
  let l := list_ascii_of_string s in
  if forallb (fun c => code c <? 128) l then l
  else transform_decimal_and_space (code_points l).

Definition digit_of (c : ascii) : option Z :=
  let n := code c in
  if (48 <=? n) && (n <=? 57) then Some (n - 48) else None.

Definition is_digit (c : ascii) : bool :=
  match digit_of c with Some _ => true | None => false end.

Definition lower (c : ascii) : ascii :=
  let n := code c in
  if (65 <=? n) && (n <=? 90) then ascii_of_nat (Z.to_nat (n + 32)) else c.

Definition upper (c : ascii) : ascii :=
  let n := code c in
  if (97 <=? n) && (n <=? 122) then ascii_of_nat (Z.to_nat (n - 32)) else c.

Fixpoint map_chars (f : ascii -> ascii) (s : string) : string :=
  match s with
  | EmptyString => EmptyString
  | String c s' => String (f c) (map_chars f s')
  end.

(** [s.lower()] and [s.upper()] on ASCII text. *)
Definition str_lower (s : string) : string := map_chars lower s.
Definition str_upper (s : string) : string := map_chars upper s.

Fixpoint lstrip (l : list ascii) : list ascii :=
  match l with
  | c :: l' => if is_space c then lstrip l' else l
  | [] => []
  end.

Definition strip (l : list ascii) : list ascii :=
  rev (lstrip (rev (lstrip l))).

(** Underscores may only separate two digits; they are then dropped.
    [prev] tells whether the previous character was a digit. *)
Fixpoint drop_underscores (prev : bool) (l : list ascii)
    : option (list ascii) :=
  match l with
  | [] => Some []
  | c :: l' =>
      if Ascii.eqb c "_"%char then
        match l' with
        | d :: _ => if prev && is_digit d then drop_underscores false l' else None
        | [] => None
        end
      else
        rest ← drop_underscores (is_digit c) l';
        Some (c :: rest)
  end.

(** The longest prefix of digits: its value continuing [acc], the number of
    digits read, and what follows. *)
Fixpoint digits (acc : Z) (cnt : Z) (l : list ascii) : Z * Z * list ascii :=
  match l with
  | c :: l' =>
      match digit_of c with
      | Some d => digits (acc * 10 + d) (cnt + 1) l'
      | None => (acc, cnt, l)
      end
  | [] => (acc, cnt, [])
  end.

Definition sign (l : list ascii) : bool * list ascii :=
  match l with
  | c :: l' =>
      if Ascii.eqb c "-"%char then (true, l')
      else if Ascii.eqb c "+"%char then (false, l')
      else (false, l)
  | [] => (false, [])
  end.

(** An optional exponent part [e[+-]digits] that must end the literal. *)
Definition exponent (l : list ascii) : option Z :=
  match l with
  | [] => Some 0
  | c :: l' =>
      if Ascii.eqb (lower c) "e"%char then
        let '(neg, l'') := sign l' in
        match digits 0 0 l'' with
        | (v, cnt, []) => if 0 <? cnt then Some (if neg then - v else v) else None
        | _ => None
        end
      else None
  end.

(** The decimal number [m * 10^e], correctly rounded. *)
Definition decimal (neg : bool) (m e : Z) : float :=
  SF2Prim
    (if 0 <=? e then PyFloat.round_ratio neg (m * 10 ^ e) 1
     else PyFloat.round_ratio neg m (10 ^ (- e))).

(** [float(s)]: [None] stands for [ValueError]. *)
Definition parse_float (s : string) : option float :=
  l ← drop_underscores false (strip (ascii_text s));
  let '(neg, body) := sign l in
  let word := string_of_list_ascii (map lower body) in
  if String.eqb word "inf" || String.eqb word "infinity" then
    Some (if neg then neg_infinity else infinity)
  else if String.eqb word "nan" then Some nan
  else
    let '(ip, icnt, after_int) := digits 0 0 body in
    let '(m, fcnt, after_frac) :=
      match after_int with
      | c :: l' => if Ascii.eqb c "."%char then digits ip 0 l' else (ip, 0, after_int)
      | [] => (ip, 0, [])
      end in
    if 0 <? icnt + fcnt then
      e ← exponent after_frac;
      Some (decimal neg m (e - fcnt))
    else None.

End PyStr.

(** ** Python values and dicts *)

Inductive pyval : Type :=
| VNone
| VBool (b : bool)
| VInt (n : Z)
| VFloat (x : float)
| VStr (s : string)
| VList (l : list pyval)
| VDict (d : list (string * pyval)).

(** A [dict] with string keys: insertion-ordered, keys unique. *)
Definition dict (V : Type) : Type := list (string * V).

Fixpoint dict_get {V : Type} (d : dict V) (k : string) : option V :=
  match d with
  | [] => None
  | (k', v) :: d' => if String.eqb k k' then Some v else dict_get d' k
  end.

(** [d.get(k, dflt)] *)
Definition dict_get_default {V : Type} (d : dict V) (k : string) (dflt : V) : V :=
  match dict_get d k with
  | Some v => v
  | None => dflt
  end.

(** [d[k]] *)
Definition dict_item {V : Type} (d : dict V) (k : string) : result V :=
  match dict_get d k with
  | Some v => Ok v
  | None => Raise KeyError
  end.

(** [d[k] = v]: overwrite in place, or append a new key. *)
Fixpoint dict_set {V : Type} (d : dict V) (k : string) (v : V) : dict V :=
  match d with
  | [] => [(k, v)]
  | (k', v') :: d' =>
      if String.eqb k k' then (k', v) :: d' else (k', v') :: dict_set d' k v
  end.

Definition dict_keys {V : Type} (d : dict V) : list string := d.*1.

(** Truth value of an object. *)
Definition py_truthy (v : pyval) : bool :=
  match v with
  | VNone => false
  | VBool b => b
  | VInt n => negb (n =? 0)
  | VFloat x => negb (PrimFloat.eqb x 0)
  | VStr s => negb (String.eqb s "")
  | VList l => match l with [] => false | _ => true end
  | VDict d => match d with [] => false | _ => true end
  end.

(** ** Numbers: the [int] / [float] tower *)

Module PyNum.

Inductive num : Type :=
| NInt (n : Z)
| NFloat (x : float).

(** Operand of an arithmetic operator or an ordering; [bool] is an [int]. *)
Definition as_num (v : pyval) : result num :=
  match v with
  | VBool b => Ok (NInt (if b then 1 else 0))
  | VInt n => Ok (NInt n)
  | VFloat x => Ok (NFloat x)
  | _ => Raise TypeError
  end.

Definition to_pyval (a : num) : pyval :=
  match a with
  | NInt n => VInt n
  | NFloat x => VFloat x
  end.

(** [float(a)] *)
Definition to_float (a : num) : result float :=
  match a with
  | NInt n => PyFloat.of_int n
  | NFloat x => Ok x
  end.

(** Exact comparison of an [int] with a [float]; [None] when unordered. *)
Definition compare_int_float (n : Z) (x : float) : option comparison :=
  match Prim2SF x with
  | S754_nan => None
  | S754_infinity s => Some (if s then Gt else Lt)
  | S754_zero _ => Some (n ?= 0)
  | S754_finite s m e =>
      let v := if s then Z.neg m else Z.pos m in
      Some (if 0 <=? e then n ?= v * 2 ^ e else n * 2 ^ (- e) ?= v)
  end.

(** [a > b] *)
Definition gt (a b : num) : bool :=
  match a, b with
  | NInt m, NInt n => n <? m
  | NFloat x, NFloat y => PrimFloat.ltb y x
  | NInt m, NFloat y =>
      match compare_int_float m y with Some Gt => true | _ => false end
  | NFloat x, NInt n =>
      match compare_int_float n x with Some Lt => true | _ => false end
  end.

(** [a == b] *)
Definition eq (a b : num) : bool :=
  match a, b with
  | NInt m, NInt n => m =? n
  | NFloat x, NFloat y => PrimFloat.eqb x y
  | NInt m, NFloat y | NFloat y, NInt m =>
      match compare_int_float m y with Some Eq => true | _ => false end
  end.

(** [a >= b] and [a < b] *)
Definition ge (a b : num) : bool := gt a b || eq a b.
Definition lt (a b : num) : bool := gt b a.

(** The builtin [max(1, a)]: [a] when [a > 1], else the first argument. *)
Definition max1 (a : num) : num := if gt a (NInt 1) then a else NInt 1.

(** [a + b] *)
Definition add (a b : num) : result num :=
  match a, b with
  | NInt m, NInt n => Ok (NInt (m + n))
  | _, _ =>
      let* x := to_float a in
      let* y := to_float b in
      Ok (NFloat (x + y)%float)
  end.

(** [a / b] *)
Definition truediv (a b : num) : result float :=
  match a, b with
  | NInt m, NInt n => PyFloat.int_truediv m n
  | _, _ =>
      let* x := to_float a in
      let* y := to_float b in
      if PrimFloat.eqb y 0 then Raise ZeroDivisionError else Ok (x / y)%float
  end.

(** [a // b] *)
Definition floordiv (a b : num) : result num :=
  match a, b with
  | NInt m, NInt n =>
      if n =? 0 then Raise ZeroDivisionError else Ok (NInt (m / n))
  | _, _ =>
      let* x := to_float a in
      let* y := to_float b in
      let* q := PyFloat.floordiv x y in
      Ok (NFloat q)
  end.

End PyNum.

(** [float(v)] *)
Definition py_float (v : pyval) : result float :=
  match v with
  | VBool b => Ok (if b then 1 else 0)%float
  | VInt n => PyFloat.of_int n
  | VFloat x => Ok x
  | VStr s =>
      match PyStr.parse_float s with
      | Some x => Ok x
      | None => Raise ValueError
      end
  | VNone | VList _ | VDict _ => Raise TypeError
  end.

Definition is_ValueError (e : exn) : bool :=
  match e with ValueError => true | _ => false end.

(** ** Feature standardizer ([app/utils/feature_standardizer.py]) *)

Module FeatureStandardizer.

Import PyNum.

Definition TRAINING_FEATURE_NAMES : list string :=
  [ "price"; "form"; "recent_form"; "points_per_game"; "points_per_90";
    "minutes"; "goals_scored"; "assists"; "clean_sheets"; "goals_conceded";
    "own_goals"; "penalties_saved"; "penalties_missed"; "yellow_cards";
    "red_cards"; "saves"; "bonus"; "bps"; "influence"; "creativity";
    "threat"; "ict_index"; "xG"; "xA"; "ownership_percentage";
    "avg_fixture_difficulty"; "team_strength"; "team_strength_attack_home";
    "team_strength_attack_away"; "team_strength_defence_home";
    "team_strength_defence_away" ]%string.

(** [games_played = max(1, minutes // 60)] *)
Definition games_played (minutes : num) : result num :=
  let* q := floordiv minutes (NInt 60) in
  Ok (max1 q).

(** [x / max(1, games_played) if games_played > 0 else 0] *)
Definition per_game (x : pyval) (games_played : num) : result num :=
  if gt games_played (NInt 0) then
    let* n := as_num x in
    let* r := truediv n (max1 games_played) in
    Ok (NFloat r)
  else Ok (NInt 0).

(** [(total_points / max(1, minutes)) * 90 if minutes > 0 else 0] *)
Definition per_90 (total_points : pyval) (minutes : num) : result num :=
  if gt minutes (NInt 0) then
    let* n := as_num total_points in
    let* r := truediv n (max1 minutes) in
    Ok (NFloat (r * 90)%float)
  else Ok (NInt 0).

(** The [form] block: strings are parsed, with 0.0 for the empty string and
    for a [ValueError]; [None] is 0.0; anything else goes through [float]. *)
Definition form_of (form_raw : pyval) : result float :=
  match form_raw with
  | VStr s =>
      try_except
        (if py_truthy form_raw then py_float form_raw else Ok 0%float)
        is_ValueError (fun _ => Ok 0%float)
  | VNone => Ok 0%float
  | _ => py_float form_raw
  end.

(** The [ownership_percentage] block. *)
Definition ownership_of (ownership_raw : pyval) : result float :=
  match ownership_raw with
  | VStr s =>
      try_except
        (py_float (VStr (PyStr.replace_char "," "." s)))
        is_ValueError (fun _ => Ok 0%float)
  | VNone => Ok 0%float
  | _ => py_float ownership_raw
  end.

(** The [price] block: [now_cost], when present, overrides [price]. *)
Definition price_of (player_data : dict pyval) : result pyval :=
  let price := dict_get_default player_data "price" (VInt 0) in
  let price := match price with VNone => VInt 0 | _ => price end in
  match dict_get player_data "now_cost" with
  | Some c =>
      let* n := as_num c in
      let* x := truediv n (NFloat 10) in
      Ok (VFloat x)
  | None => Ok price
  end.

Definition convert_player_to_features (player_data : dict pyval)
    : result (dict float) :=
  let stat k := py_float (dict_get_default player_data k (VInt 0)) in
  let total_points := dict_get_default player_data "total_points" (VInt 0) in
  let minutes := dict_get_default player_data "minutes" (VInt 0) in
  let* minutes_n := as_num minutes in
  let* games := games_played minutes_n in
  let* ppg := per_game total_points games in
  let* points_per_90 := per_90 total_points minutes_n in
  let* form := form_of (dict_get_default player_data "form" (VInt 0)) in
  let recent_form := form in
  let* price := price_of player_data in
  let* ownership_percentage :=
    ownership_of (dict_get_default player_data "selected_by_percent" (VStr "0.0")) in
  let team_strength := dict_get_default player_data "team_strength" (VFloat 100) in
  let avg_fixture_difficulty :=
    dict_get_default player_data "avg_fixture_difficulty" (VFloat 3) in
  let goals := dict_get_default player_data "goals_scored" (VInt 0) in
  let assists := dict_get_default player_data "assists" (VInt 0) in
  let* xG := per_game goals games in
  let* xA := per_game assists games in
  let* f_price := py_float price in
  let* f_ppg := to_float ppg in
  let* f_p90 := to_float points_per_90 in
  let* f_minutes := stat "minutes" in
  let* f_goals_scored := stat "goals_scored" in
  let* f_assists := stat "assists" in
  let* f_clean_sheets := stat "clean_sheets" in
  let* f_goals_conceded := stat "goals_conceded" in
  let* f_own_goals := stat "own_goals" in
  let* f_penalties_saved := stat "penalties_saved" in
  let* f_penalties_missed := stat "penalties_missed" in
  let* f_yellow_cards := stat "yellow_cards" in
  let* f_red_cards := stat "red_cards" in
  let* f_saves := stat "saves" in
  let* f_bonus := stat "bonus" in
  let* f_bps := stat "bps" in
  let* f_influence := stat "influence" in
  let* f_creativity := stat "creativity" in
  let* f_threat := stat "threat" in
  let* f_ict_index := stat "ict_index" in
  let* f_xG := to_float xG in
  let* f_xA := to_float xA in
  let* f_avg_fixture_difficulty := py_float avg_fixture_difficulty in
  let* f_team_strength := py_float team_strength in
  let* f_tsah := stat "team_strength_attack_home" in
  let* f_tsaa := stat "team_strength_attack_away" in
  let* f_tsdh := stat "team_strength_defence_home" in
  let* f_tsda := stat "team_strength_defence_away" in
  Ok [ ("price", f_price); ("form", form); ("recent_form", recent_form);
       ("points_per_game", f_ppg); ("points_per_90", f_p90);
       ("minutes", f_minutes); ("goals_scored", f_goals_scored);
       ("assists", f_assists); ("clean_sheets", f_clean_sheets);
       ("goals_conceded", f_goals_conceded); ("own_goals", f_own_goals);
       ("penalties_saved", f_penalties_saved);
       ("penalties_missed", f_penalties_missed);
       ("yellow_cards", f_yellow_cards); ("red_cards", f_red_cards);
       ("saves", f_saves); ("bonus", f_bonus); ("bps", f_bps);
       ("influence", f_influence); ("creativity", f_creativity);
       ("threat", f_threat); ("ict_index", f_ict_index);
       ("xG", f_xG); ("xA", f_xA);
       ("ownership_percentage", ownership_percentage);
       ("avg_fixture_difficulty", f_avg_fixture_difficulty);
       ("team_strength", f_team_strength);
       ("team_strength_attack_home", f_tsah);
       ("team_strength_attack_away", f_tsaa);
       ("team_strength_defence_home", f_tsdh);
       ("team_strength_defence_away", f_tsda) ]%string.

(** A [pandas.DataFrame] of floats: column labels and aligned rows. *)
Record DataFrame : Type := mkDataFrame {
  columns : list string;
  rows : list (list float)
}.

(** Append a label unless it is already a column. *)
Definition add_column (cs : list string) (k : string) : list string :=
  if bool_decide (k ∈ cs) then cs else cs ++ [k].

(** The columns of [pd.DataFrame(records)]: the keys in order of first
    appearance. *)
Definition record_columns (records : list (dict float)) : list string :=
  foldl (fun cols d => foldl add_column cols (dict_keys d)) [] records.

(** [pd.DataFrame(features_list)]: a key missing from a record reads NaN. *)
Definition frame_of_records (records : list (dict float)) : DataFrame :=
  let cols := record_columns records in
  mkDataFrame cols
    (map (fun d => map (fun c => dict_get_default d c nan) cols) records).

(** The cell of [row] under the column labelled [name], if there is one. *)
Definition cell (cols : list string) (row : list float) (name : string)
    : option float :=
  dict_get (zip cols row) name.

(** [df.reindex(columns=names, fill_value=0.0)] *)
Definition reindex_columns (df : DataFrame) (names : list string) : DataFrame :=
  mkDataFrame names
    (map (fun row => map (fun n => default 0%float (cell (columns df) row n)) names)
         (rows df)).

(** The single-record filter loop of [prepare_features_for_model]. *)
Definition filter_features (features : dict float) (names : list string)
    : dict float :=
  foldl (fun filtered n => dict_set filtered n (dict_get_default features n 0%float))
        [] names.

(** The conformed form of a record: one cell per target name, in target
    order, 0.0 where the record has no such name. *)
Definition conformed (names : list string) (f : dict float) : list float :=
  map (fun n => dict_get_default f n 0%float) names.

Inductive player_input : Type :=
| Single (player : dict pyval)
| Many (players : list (dict pyval)).

Inductive model_input : Type :=
| FeatureDict (features : dict float)
| FeatureFrame (df : DataFrame).

Fixpoint convert_all (players : list (dict pyval)) : result (list (dict float)) :=
  match players with
  | [] => Ok []
  | p :: ps =>
      let* f := convert_player_to_features p in
      let* fs := convert_all ps in
      Ok (f :: fs)
  end.

(** Truth value of an [Optional[List[str]]] argument. *)
Definition names_given (model_feature_names : option (list string)) : bool :=
  match model_feature_names with
  | Some (_ :: _) => true
  | _ => false
  end.

Definition prepare_features_for_model (player_data : player_input)
    (model_feature_names : option (list string)) : result model_input :=
  match player_data with
  | Many players =>
      let* features_list := convert_all players in
      let df := frame_of_records features_list in
      let df :=
        if names_given model_feature_names
        then reindex_columns df (default [] model_feature_names)
        else df in
      Ok (FeatureFrame df)
  | Single player =>
      let* features := convert_player_to_features player in
      if names_given model_feature_names
      then Ok (FeatureDict (filter_features features (default [] model_feature_names)))
      else Ok (FeatureDict features)
  end.

(** [{name: 0.0 for name in TRAINING_FEATURE_NAMES}] *)
Definition default_features : dict float :=
  foldl (fun d n => dict_set d n 0%float) [] TRAINING_FEATURE_NAMES.

(** Every exception of the model is an [Exception]. *)
Definition is_Exception (e : exn) : bool := true.

(** What the loop of [standardize_player_features_for_prediction] appends
    for one player. *)
Definition features_or_default (player : dict pyval) : dict float :=
  match convert_player_to_features player with
  | Ok f => f
  | Raise _ => default_features
  end.

Fixpoint convert_all_or_default (players : list (dict pyval))
    : result (list (dict float)) :=
  match players with
  | [] => Ok []
  | p :: ps =>
      let* f := try_except (convert_player_to_features p) is_Exception
                  (fun _ => Ok default_features) in
      let* fs := convert_all_or_default ps in
      Ok (f :: fs)
  end.

Definition standardize_player_features_for_prediction
    (players : list (dict pyval)) (model_feature_names : list string)
    : result DataFrame :=
  let* features_list := convert_all_or_default players in
  let df := frame_of_records features_list in
  Ok (reindex_columns df model_feature_names).

Definition get_training_feature_names : list string := TRAINING_FEATURE_NAMES.

Definition is_ValueError_or_TypeError (e : exn) : bool :=
  match e with ValueError | TypeError => true | _ => false end.

(** The body of the [validate_features] loop for one value. *)
Definition clean_value (value : pyval) : result float :=
  try_except
    (let* float_val :=
       match value with VNone => Ok 0%float | _ => py_float value end in
     Ok (if PyFloat.isnan float_val || PyFloat.isinf float_val
         then 0%float else float_val))
    is_ValueError_or_TypeError (fun _ => Ok 0%float).

Fixpoint validate_loop (items : list (string * pyval)) (cleaned : dict float)
    : result (dict float) :=
  match items with
  | [] => Ok cleaned
  | (key, value) :: items' =>
      let* x := clean_value value in
      validate_loop items' (dict_set cleaned key x)
  end.

Definition validate_features (features : dict pyval) : result (dict float) :=
  validate_loop features [].

(** A cleaned dictionary read back as Python objects. *)
Definition as_objects (features : dict float) : dict pyval :=
  map (fun kv => (kv.1, VFloat kv.2)) features.

(** Every value is a finite float. *)
Definition all_finite (d : dict float) : Prop :=
  Forall (fun kv => PyFloat.isfinite kv.2 = true) d.

(** [validate_features(validate_features(features))] *)
Definition validate_twice (features : dict pyval) : result (dict float) :=
  let* cleaned := validate_features features in
  validate_features (as_objects cleaned).

End FeatureStandardizer.

(** ** Training features ([app/data_processing/training_data.py]) *)

Module TrainingData.

Import PyNum.

(** Iterating over an object: lists yield their items, strings their
    characters, dicts their keys. *)
Definition py_iter (v : pyval) : result (list pyval) :=
  match v with
  | VList l => Ok l
  | VStr s => Ok (map (fun c => VStr (String c EmptyString)) (list_ascii_of_string s))
  | VDict d => Ok (map (fun kv => VStr kv.1) d)
  | _ => Raise TypeError
  end.

(** [game.get(k, dflt)] *)
Definition py_get (game : pyval) (k : string) (dflt : pyval) : result pyval :=
  match game with
  | VDict d => Ok (dict_get_default d k dflt)
  | _ => Raise AttributeError
  end.

(** [game.get("minutes", 0) > 0] *)
Definition played (game : pyval) : result bool :=
  let* m := py_get game "minutes" (VInt 0) in
  let* n := as_num m in
  Ok (gt n (NInt 0)).

(** An entry that counts as a game played: its minutes exceed 0. *)
Definition has_minutes (game : pyval) : bool :=
  match played game with
  | Ok true => true
  | _ => false
  end.

(** [[game for game in history if game.get("minutes", 0) > 0]] *)
Fixpoint games_with_minutes (history : list pyval) : result (list pyval) :=
  match history with
  | [] => Ok []
  | game :: history' =>
      let* b := played game in
      let* rest := games_with_minutes history' in
      Ok (if b then game :: rest else rest)
  end.

(** [sum(game.get("total_points", 0) for game in games)] continuing [acc]. *)
Fixpoint sum_total_points (games : list pyval) (acc : num) : result num :=
  match games with
  | [] => Ok acc
  | game :: games' =>
      let* v := py_get game "total_points" (VInt 0) in
      let* n := as_num v in
      let* acc' := add acc n in
      sum_total_points games' acc'
  end.

(** [history[-3:] if len(history) >= 3 else history] *)
Definition last_three (history : list pyval) : list pyval :=
  if (3 <=? length history)%nat then drop (length history - 3) history else history.

Definition positions : list (Z * string) :=
  [(1, "GK"); (2, "DEF"); (3, "MID"); (4, "FWD")]%string.

(** The entry of [positions] whose key equals [n], else ["Unknown"]. *)
Fixpoint positions_get (n : num) (table : list (Z * string)) : string :=
  match table with
  | [] => "Unknown"%string
  | (k, v) :: table' => if eq n (NInt k) then v else positions_get n table'
  end.

(** [positions.get(position_id, "Unknown")]: numeric keys compare by value,
    lists and dicts are unhashable. *)
Definition get_position_name (position_id : pyval) : result string :=
  match position_id with
  | VList _ | VDict _ => Raise TypeError
  | VNone | VStr _ => Ok "Unknown"%string
  | VBool _ | VInt _ | VFloat _ =>
      let* n := as_num position_id in
      Ok (positions_get n positions)
  end.

(** [!=] between an object and the empty string. *)
Definition differs_from_empty (v : pyval) : bool :=
  match v with
  | VStr s => negb (String.eqb s "")
  | _ => true
  end.

(** [float(player_data.get("selected_by_percent", "0.0").replace(',', '.'))] *)
Definition selected_by_percent_of (player_data : dict pyval) : result float :=
  match dict_get_default player_data "selected_by_percent" (VStr "0.0") with
  | VStr s => py_float (VStr (PyStr.replace_char "," "." s))
  | _ => Raise AttributeError
  end.

Section Formatting.

(** [str(v)] inside an f-string, supplied by the runtime. *)
Variable py_str : pyval -> string.

Definition process_player_features (player_data : dict pyval)
    : result (dict pyval) :=
  let get k dflt := dict_get_default player_data k dflt in
  let* minutes := dict_item player_data "minutes" in
  let* total_points := dict_item player_data "total_points" in
  let* history := py_iter (get "history" (VList [])) in
  let* played_games := games_with_minutes history in
  let games_played := NInt (Z.of_nat (length played_games)) in
  let* ppg := FeatureStandardizer.per_game total_points games_played in
  let* minutes_n := as_num minutes in
  let* points_per_90 := FeatureStandardizer.per_90 total_points minutes_n in
  let raw_form := get "form" (VStr "0.0") in
  let* form :=
    if py_truthy raw_form && differs_from_empty raw_form
    then py_float raw_form else Ok 0%float in
  let recent_history := last_three history in
  let* recent_points := sum_total_points recent_history (NInt 0) in
  let* recent_form :=
    match recent_history with
    | [] => Ok 0%float
    | _ => truediv recent_points (NInt (Z.of_nat (length recent_history)))
    end in
  let* xG_approx := FeatureStandardizer.per_game (get "goals_scored" (VInt 0)) games_played in
  let* xA_approx := FeatureStandardizer.per_game (get "assists" (VInt 0)) games_played in
  let* selected_by_percent := selected_by_percent_of player_data in
  let* ts := as_num (get "team_strength" (VInt 1000)) in
  let* rel := truediv ts (NInt 1000) in
  let relative_team_strength := (rel * 100)%float in
  let* player_id := dict_item player_data "id" in
  let name :=
    (py_str (get "first_name" (VStr "")) ++ " " ++ py_str (get "second_name" (VStr "")))%string in
  let* position := get_position_name (get "element_type" (VInt 0)) in
  let* cost := as_num (get "now_cost" (VInt 0)) in
  let* price := truediv cost (NFloat 10) in
  let* influence := py_float (get "influence" (VInt 0)) in
  let* creativity := py_float (get "creativity" (VInt 0)) in
  let* threat := py_float (get "threat" (VInt 0)) in
  let* ict_index := py_float (get "ict_index" (VInt 0)) in
  Ok [ ("player_id", player_id); ("name", VStr name);
       ("team", get "team_name" (VStr "Unknown"));
       ("position", VStr position); ("price", VFloat price);
       ("form", VFloat form); ("recent_form", VFloat recent_form);
       ("points_per_game", to_pyval ppg);
       ("points_per_90", to_pyval points_per_90);
       ("minutes", get "minutes" (VInt 0));
       ("goals_scored", get "goals_scored" (VInt 0));
       ("assists", get "assists" (VInt 0));
       ("clean_sheets", get "clean_sheets" (VInt 0));
       ("goals_conceded", get "goals_conceded" (VInt 0));
       ("own_goals", get "own_goals" (VInt 0));
       ("penalties_saved", get "penalties_saved" (VInt 0));
       ("penalties_missed", get "penalties_missed" (VInt 0));
       ("yellow_cards", get "yellow_cards" (VInt 0));
       ("red_cards", get "red_cards" (VInt 0));
       ("saves", get "saves" (VInt 0)); ("bonus", get "bonus" (VInt 0));
       ("bps", get "bps" (VInt 0));
       ("influence", VFloat influence); ("creativity", VFloat creativity);
       ("threat", VFloat threat); ("ict_index", VFloat ict_index);
       ("xG", to_pyval xG_approx); ("xA", to_pyval xA_approx);
       ("ownership_percentage", VFloat selected_by_percent);
       ("avg_fixture_difficulty", get "avg_fixture_difficulty" (VFloat 3));
       ("team_strength", VFloat relative_team_strength);
       ("team_strength_attack_home", get "team_strength_attack_home" (VInt 0));
       ("team_strength_attack_away", get "team_strength_attack_away" (VInt 0));
       ("team_strength_defence_home", get "team_strength_defence_home" (VInt 0));
       ("team_strength_defence_away", get "team_strength_defence_away" (VInt 0))
     ]%string.

End Formatting.

End TrainingData.

(** ** Prediction dataset ([app/training/train_models.py]) *)

Module PredictionDataset.

(** The columns of the base table that [prepare_prediction_dataset] reads. *)
Record Row : Type := mkRow {
  points_per_game : float;
  form : float;
  avg_fixture_difficulty : float
}.

Record TargetRow : Type := mkTargetRow {
  features : Row;
  next_gw_points : float;
  captain_points : float
}.

Definition form_factor : float := 0.2%float.
Definition fixture_factor : float := 0.15%float.

(** The column assignments of [prepare_prediction_dataset], row by row.
    [z] is the row's draw of [np.random.normal(0, 1, size=len(df))] under the
    fixed seed 42. *)
Definition prepare_row (r : Row) (z : float) : TargetRow :=
  let next0 := points_per_game r in
  let next1 := (next0 + (form r - points_per_game r) * form_factor)%float in
  let next2 := (next1 - (avg_fixture_difficulty r - 2.5) * fixture_factor)%float in
  let next3 := PyFloat.max0 next2 in
  let captain0 := (next3 * 2)%float in
  let variance := (z * (next3 * 0.3))%float in
  let captain1 := (captain0 + variance)%float in
  let captain2 := PyFloat.max0 captain1 in
  mkTargetRow r next3 captain2.

(** [noise i] is the [i]-th standard normal draw of the seeded generator. *)
Definition prepare_prediction_dataset (df : list Row) (noise : nat -> float)
    : list TargetRow :=
  imap (fun i r => prepare_row r (noise i)) df.

End PredictionDataset.

(** ** Transfer-pair dataset ([app/training/train_models.py]) *)

Module TransferDataset.

(** A row of the base table.  The optional columns are the ones the source
    reads with [.get(name, 0)]. *)
Record Row : Type := mkRow {
  player_id : Z;
  name : string;
  position : string;
  form : float;
  points_per_game : float;
  minutes : float;
  avg_fixture_difficulty : float;
  price : float;
  next_gw_points : float;
  goals_scored : option float;
  assists : option float;
  clean_sheets : option float;
  ict_index : option float;
  bonus : option float;
  team_strength : option float
}.

Record TransferPairExample : Type := mkExample {
  player_in_id : Z;
  player_out_id : Z;
  player_in_name : string;
  player_out_name : string;
  pair_position : string;
  player_in_form : float;
  player_in_points_per_game : float;
  player_in_minutes : float;
  player_in_goals : float;
  player_in_assists : float;
  player_in_clean_sheets : float;
  player_in_fixture_difficulty : float;
  player_in_ict : float;
  player_in_bonus : float;
  player_in_price : float;
  player_out_form : float;
  player_out_points_per_game : float;
  player_out_minutes : float;
  player_out_goals : float;
  player_out_assists : float;
  player_out_clean_sheets : float;
  player_out_fixture_difficulty : float;
  player_out_ict : float;
  player_out_bonus : float;
  player_out_price : float;
  form_diff : float;
  price_diff : float;
  fixture_diff : float;
  team_strength_diff : float;
  points_delta : float
}.

Definition position_weights : dict float :=
  [("GK", 0.1); ("DEF", 0.35); ("MID", 0.35); ("FWD", 0.2)]%float%string.

(** [int(num_pairs * position_weights.get(str(position), 0.25))] *)
Definition position_pairs (num_pairs : Z) (position : string) : result Z :=
  let* n := PyFloat.of_int num_pairs in
  PyFloat.trunc (n * dict_get_default position_weights position 0.25)%float.

(** The order of [str]: lexicographic on character codes. *)
Definition str_le (a b : string) : Prop := String.leb a b = true.

#[global] Instance str_le_dec : RelDecision str_le :=
  fun a b => decide (String.leb a b = true).

(** The keys of [df.groupby('position')], in sorted order. *)
Definition group_keys (df : list Row) : list string :=
  merge_sort str_le (remove_dups (map position df)).

Definition group_of (df : list Row) (key : string) : list Row :=
  filter (fun r => position r = key) df.

(** The dict literal [transfer_data]. *)
Definition transfer_data (key : string) (player_out player_in : Row)
    (point_impact : float) : TransferPairExample :=
  let opt (x : option float) := default 0%float x in
  {| player_in_id := player_id player_in;
     player_out_id := player_id player_out;
     player_in_name := name player_in;
     player_out_name := name player_out;
     pair_position := key;
     player_in_form := form player_in;
     player_in_points_per_game := points_per_game player_in;
     player_in_minutes := minutes player_in;
     player_in_goals := opt (goals_scored player_in);
     player_in_assists := opt (assists player_in);
     player_in_clean_sheets := opt (clean_sheets player_in);
     player_in_fixture_difficulty := avg_fixture_difficulty player_in;
     player_in_ict := opt (ict_index player_in);
     player_in_bonus := opt (bonus player_in);
     player_in_price := price player_in;
     player_out_form := form player_out;
     player_out_points_per_game := points_per_game player_out;
     player_out_minutes := minutes player_out;
     player_out_goals := opt (goals_scored player_out);
     player_out_assists := opt (assists player_out);
     player_out_clean_sheets := opt (clean_sheets player_out);
     player_out_fixture_difficulty := avg_fixture_difficulty player_out;
     player_out_ict := opt (ict_index player_out);
     player_out_bonus := opt (bonus player_out);
     player_out_price := price player_out;
     form_diff := (form player_in - form player_out)%float;
     price_diff := (price player_in - price player_out)%float;
     fixture_diff :=
       (avg_fixture_difficulty player_out - avg_fixture_difficulty player_in)%float;
     team_strength_diff :=
       (opt (team_strength player_in) - opt (team_strength player_out))%float;
     points_delta := point_impact |}.

(** What an emitted example owes to the two rows of [rows] it is built
    from, both in the position group [key]. *)
Definition built_from (key : string) (rows : list Row) (e : TransferPairExample)
    : Prop :=
  player_in_id e <> player_out_id e
  /\ pair_position e = key
  /\ exists row_in row_out : Row,
       row_in ∈ rows /\ row_out ∈ rows
       /\ player_id row_in = player_in_id e
       /\ player_id row_out = player_out_id e.

Section Randomness.

(** [picks key] lists the row positions that
    [group.sample(n=..., replace=True)] draws from the group of [key];
    [normal k] is the [k]-th draw of [np.random.normal(0, 1)]. *)
Variable picks : string -> list nat.
Variable normal : nat -> float.

(** The pair loop [for i in range(0, count)] from index [i] on: the rows
    emitted and the number of normal draws consumed so far. *)
Fixpoint pair_loop (key : string) (players : list Row) (count : nat)
    (drawn : nat) : list TransferPairExample * nat :=
  match count, players with
  | S count', player_out :: ((player_in :: _) as players') =>
      if player_id player_out =? player_id player_in then
        pair_loop key players' count' drawn
      else
        let raw_point_diff :=
          (next_gw_points player_in - next_gw_points player_out)%float in
        let variance := (normal drawn * 2)%float in
        let point_impact := (raw_point_diff + variance)%float in
        let '(rest, drawn') := pair_loop key players' count' (S drawn) in
        (transfer_data key player_out player_in point_impact :: rest, drawn')
  | _, _ => ([], drawn)
  end.

(** The body of [for position, group in grouped]. *)
Definition pairs_of_group (num_pairs : Z) (df : list Row) (key : string)
    (drawn : nat) : result (list TransferPairExample * nat) :=
  let group := group_of df key in
  let* quota := position_pairs num_pairs key in
  let n := Z.min (Z.of_nat (length group)) (quota * 2) in
  if n <? 0 then Raise ValueError
  else
    let players := omap (fun i => group !! i) (take (Z.to_nat n) (picks key)) in
    let count := Z.min (Z.of_nat (length players) - 1) quota in
    Ok (pair_loop key players (Z.to_nat count) drawn).

Fixpoint groups_loop (num_pairs : Z) (df : list Row) (keys : list string)
    (drawn : nat) : result (list TransferPairExample) :=
  match keys with
  | [] => Ok []
  | key :: keys' =>
      let* '(emitted, drawn') := pairs_of_group num_pairs df key drawn in
      let* rest := groups_loop num_pairs df keys' drawn' in
      Ok (emitted ++ rest)
  end.

Definition prepare_transfer_dataset (df : list Row) (num_pairs : Z)
    : result (list TransferPairExample) :=
  groups_loop num_pairs df (group_keys df) 0%nat.

End Randomness.

End TransferDataset.

(** ** Ingestion cache ([app/utils/fpl_data.py]) *)

Module FplData.

Definition BASE_URL : string := "https://fantasy.premierleague.com/api".
Definition BOOTSTRAP_URL : string := (BASE_URL ++ "/bootstrap-static/")%string.
Definition FIXTURES_URL : string := (BASE_URL ++ "/fixtures/")%string.
Definition PLAYER_DETAIL_URL : string := (BASE_URL ++ "/element-summary")%string.
Definition player_detail_url (player_id : Z) : string :=
  (PLAYER_DETAIL_URL ++ "/" ++ pretty player_id ++ "/")%string.

(** Cache expiration time, in seconds. *)
Definition CACHE_EXPIRY : Z := 3600.

(** A [datetime] is its number of microseconds since the epoch, and the
    difference of two is a [timedelta] in microseconds.
    [timedelta.total_seconds()] divides the microseconds by [10^6]; the
    quotient of a [timedelta] is far inside the float range. *)
Definition total_seconds (microseconds : Z) : float :=
  match PyFloat.int_truediv microseconds 1000000 with
  | Ok secs => secs
  | Raise _ => infinity
  end.

(** [(datetime.now() - stamp).total_seconds() > CACHE_EXPIRY] *)
Definition older_than_expiry (now stamp : Z) : bool :=
  PyNum.gt (PyNum.NFloat (total_seconds (now - stamp))) (PyNum.NInt CACHE_EXPIRY).

Record FPLDataCache : Type := mkCache {
  bootstrap_data : option pyval;
  bootstrap_timestamp : option Z;
  fixtures_data : option pyval;
  fixtures_timestamp : option Z;
  player_details_cache : gmap Z pyval;
  player_details_timestamp : gmap Z Z
}.

(** [FPLDataCache.__init__] *)
Definition empty_cache : FPLDataCache := mkCache None None None None ∅ ∅.

Definition is_bootstrap_expired (c : FPLDataCache) (now : Z) : bool :=
  match bootstrap_timestamp c with
  | None => true
  | Some stamp => older_than_expiry now stamp
  end.

Definition is_fixtures_expired (c : FPLDataCache) (now : Z) : bool :=
  match fixtures_timestamp c with
  | None => true
  | Some stamp => older_than_expiry now stamp
  end.

Definition is_player_details_expired (c : FPLDataCache) (player_id : Z)
    (now : Z) : bool :=
  match player_details_timestamp c !! player_id with
  | None => true
  | Some stamp => older_than_expiry now stamp
  end.

(** The process state: the module-level cache and the requests sent to the
    upstream provider so far. *)
Record World : Type := mkWorld {
  data_cache : FPLDataCache;
  requests : list string
}.

(** What one call meets: the clock at the expiry check, the provider's
    answer should it be asked ([client.get], [raise_for_status], [json]),
    and the clock when the answer is stored. *)
Record Call : Type := mkCall {
  now : Z;
  response : result pyval;
  received : Z
}.

(** [except httpx.RequestError as e: raise Exception(f"{msg}: {str(e)}")] *)
Definition wrap_request_error (msg : string) (e : exn) : exn :=
  match e with
  | RequestError text => Exception (msg ++ ": " ++ text)
  | _ => e
  end.

(** [assert payload is not None; return payload] *)
Definition assert_not_None (payload : pyval) : result pyval :=
  match payload with
  | VNone => Raise AssertionError
  | _ => Ok payload
  end.

Definition get_bootstrap_data (call : Call) (w : World) : result pyval * World :=
  let c := data_cache w in
  let fetch :=
    let sent := requests w ++ [BOOTSTRAP_URL] in
    match response call with
    | Ok payload =>
        let c' := mkCache (Some payload) (Some (received call))
                    (fixtures_data c) (fixtures_timestamp c)
                    (player_details_cache c) (player_details_timestamp c) in
        (assert_not_None payload, mkWorld c' sent)
    | Raise e =>
        (Raise (wrap_request_error "Failed to fetch FPL bootstrap data" e),
         mkWorld c sent)
    end in
  match bootstrap_data c with
  | Some v =>
      if py_truthy v && negb (is_bootstrap_expired c (now call))
      then (Ok v, w) else fetch
  | None => fetch
  end.

Definition get_fixtures_data (call : Call) (w : World) : result pyval * World :=
  let c := data_cache w in
  let fetch :=
    let sent := requests w ++ [FIXTURES_URL] in
    match response call with
    | Ok payload =>
        let c' := mkCache (bootstrap_data c) (bootstrap_timestamp c)
                    (Some payload) (Some (received call))
                    (player_details_cache c) (player_details_timestamp c) in
        (assert_not_None payload, mkWorld c' sent)
    | Raise e =>
        (Raise (wrap_request_error "Failed to fetch FPL fixtures data" e),
         mkWorld c sent)
    end in
  match fixtures_data c with
  | Some v =>
      if py_truthy v && negb (is_fixtures_expired c (now call))
      then (Ok v, w) else fetch
  | None => fetch
  end.

Definition get_player_detail_data (player_id : Z) (call : Call) (w : World)
    : result pyval * World :=
  let c := data_cache w in
  let fetch :=
    let sent := requests w ++ [player_detail_url player_id] in
    match response call with
    | Ok payload =>
        let c' := mkCache (bootstrap_data c) (bootstrap_timestamp c)
                    (fixtures_data c) (fixtures_timestamp c)
                    (<[player_id := payload]> (player_details_cache c))
                    (<[player_id := received call]> (player_details_timestamp c)) in
        (Ok payload, mkWorld c' sent)
    | Raise e =>
        (Raise (wrap_request_error "Failed to fetch player detail data" e),
         mkWorld c sent)
    end in
  match player_details_cache c !! player_id with
  | Some v =>
      if negb (is_player_details_expired c player_id (now call))
      then (Ok v, w) else fetch
  | None => fetch
  end.

End FplData.

(** ** Team rating ([app/services/team_rating_service.py]) *)

Module TeamRating.

Import PyNum.

(** [Player] of [app/schemas/fpl.py] with the fields the rating reads;
    [status] is the attribute read with [getattr(p, "status", "a")]. *)
Record Player : Type := mkPlayer {
  id : Z;
  name : string;
  team : string;
  position : string;
  price : float;
  total_points : Z;
  status : option string
}.

Record Team : Type := mkTeam {
  players : list Player;
  total_value : float;
  remaining_budget : float
}.

(** How a block of statements ends: it falls through with its local
    variables, returns a value, or raises. *)
Inductive flow (L A : Type) : Type :=
| Next (locals : L)
| Return (value : A)
| Throw (e : exn).
Arguments Next {L A} locals.
Arguments Return {L A} value.
Arguments Throw {L A} e.

(** [first; rest]: [rest] runs only when [first] falls through. *)
Definition then_ {L A : Type} (first : flow L A) (rest : L -> flow L A)
    : flow L A :=
  match first with
  | Next l => rest l
  | Return v => Return v
  | Throw e => Throw e
  end.

(** [try: body except Exception: handler] *)
Definition try_catch {L A : Type} (body : flow L A) (handler : exn -> flow L A)
    : flow L A :=
  match body with
  | Throw e => handler e
  | _ => body
  end.

(** A computation inside a block: its exception leaves the block. *)
Definition lift {L A B : Type} (m : result B) (k : B -> flow L A) : flow L A :=
  match m with
  | Ok b => k b
  | Raise e => Throw e
  end.

(** The local variables of [rate_team] that outlive the [try] statement. *)
Record Locals : Type := mkLocals {
  score : Z;
  suggestions : list string;
  hard_fixture_count : Z
}.

Definition str_list (l : list string) : pyval := VList (map VStr l).

Section Environment.

(** [await get_player_fixture_difficulty(player_id, next_n=1)] *)
Variable get_player_fixture_difficulty : Z -> result (list (dict pyval)).
(** The builtin [sum] over floats. *)
Variable float_sum : list float -> float.

(** [pos_counts] after the counting loop. *)
Definition count_positions (ps : list Player) : dict Z :=
  foldl (fun counts p =>
           dict_set counts (position p) (dict_get_default counts (position p) 0 + 1))
        [("GK", 0); ("DEF", 0); ("MID", 0); ("FWD", 0)]%string ps.

Definition penalise_below (counts : dict Z) (key : string) (least : Z)
    (tip : string) (l : Locals) : Locals :=
  if dict_get_default counts key 0 <? least
  then mkLocals (score l - 10) (suggestions l ++ [tip]) (hard_fixture_count l)
  else l.

Definition balance (ps : list Player) (l : Locals) : Locals :=
  let counts := count_positions ps in
  let l := penalise_below counts "GK" 2 "Add a backup goalkeeper." l in
  let l := penalise_below counts "DEF" 4 "Increase defensive depth." l in
  let l := penalise_below counts "MID" 4 "Increase midfield depth." l in
  penalise_below counts "FWD" 2 "Increase forward depth." l.

Definition available (p : Player) : bool :=
  let st := default "a"%string (status p) in
  String.eqb st "a" || String.eqb st "d".

Definition injuries (ps : list Player) (l : Locals) : Locals :=
  foldl (fun l p =>
           if available p then l
           else mkLocals (score l - 5)
                  (suggestions l ++ [("Replace injured/unavailable player: " ++ name p)%string])
                  (hard_fixture_count l))
        l ps.

(** The inner [try] with its bare [except]: the next fixture's difficulty,
    3.0 when there is none or anything fails. *)
Definition avg_diff_of (p : Player) : pyval :=
  match
    (let* fixtures := get_player_fixture_difficulty (id p) in
     match fixtures with
     | first :: _ => dict_item first "difficulty"
     | [] => Ok (VFloat 3)
     end)
  with
  | Ok v => v
  | Raise _ => VFloat 3
  end.

(** The fixtures loop: [avg_diff >= 4] is evaluated outside the inner [try]. *)
Fixpoint count_hard_fixtures (ps : list Player) (count : Z) : result Z :=
  match ps with
  | [] => Ok count
  | p :: ps' =>
      let* d := as_num (avg_diff_of p) in
      count_hard_fixtures ps' (if ge d (NInt 4) then count + 1 else count)
  end.

Definition rating_label (score : Z) : string :=
  if 90 <=? score then "Excellent"
  else if 70 <=? score then "Good" else "Needs Improvement".

(** The body of the outer [try]; it always ends in [return]. *)
Definition try_body (t : Team) : flow Locals (dict pyval) :=
  let ps := players t in
  let l := mkLocals 100 [] 0 in
  let l := balance ps l in
  let l := injuries ps l in
  lift (count_hard_fixtures ps 0) (fun hard =>
    let l := mkLocals (score l) (suggestions l) hard in
    let l :=
      if 6 <? hard
      then mkLocals (score l - 15)
             (suggestions l ++ ["Too many players with difficult fixtures."%string]) hard
      else l in
    let total := float_sum (map price ps) in
    let l :=
      if PrimFloat.ltb total 90
      then mkLocals (score l - 10)
             (suggestions l ++ ["Consider upgrading to higher-value players."%string]) hard
      else l in
    Return [ ("score", VInt (Z.max 0 (score l)));
             ("suggestions", str_list (suggestions l));
             ("rating", VStr (rating_label (score l))) ]%string).

(** [mock_team_rating] of [app/services/mock_service.py]. *)
Definition mock_team_rating (t : Team) (gameweek : Z) : dict pyval :=
  let attempt : result (dict pyval) :=
    let total := foldl Z.add 0 (map total_points (players t)) in
    let* avg_points :=
      match players t with
      | [] => Ok (NInt 0)
      | _ =>
          let* a := PyFloat.int_truediv total (Z.of_nat (length (players t))) in
          Ok (NFloat a)
      end in
    let doubled :=
      match avg_points with
      | NInt n => NInt (n * 2)
      | NFloat a => NFloat (a * 2)%float
      end in
    let floored := if gt doubled (NInt 0) then doubled else NInt 0 in
    let sc := if lt floored (NInt 100) then floored else NInt 100 in
    let tips :=
      if lt sc (NInt 70)
      then ["Consider upgrading your lowest-scoring players";
            "Look for players with better fixtures"]%string
      else [] in
    let rounded :=
      match sc with
      | NInt n => VInt n
      | NFloat a => VFloat (PyFloat.round1 a)
      end in
    Ok [ ("score", rounded); ("suggestions", str_list tips);
         ("rating", VStr (if ge sc (NInt 70) then "Good" else "Needs Improvement")) ]%string in
  match attempt with
  | Ok d => d
  | Raise _ =>
      [ ("score", VInt 50); ("suggestions", str_list ["Unable to analyze team"]%string);
        ("rating", VStr "Unknown") ]%string
  end.

(** [team_counts] after its counting loop. *)
Definition count_teams (ps : list Player) : dict Z :=
  foldl (fun counts p =>
           dict_set counts (team p) (dict_get_default counts (team p) 0 + 1))
        [] ps.

(** The statements that follow the [try] statement in the source. *)
Definition after_try (t : Team) (l : Locals) : flow Locals (dict pyval) :=
  let l :=
    if 4 <? hard_fixture_count l
    then mkLocals (score l - 10)
           (suggestions l ++ ["Too many players with tough upcoming fixtures."%string])
           (hard_fixture_count l)
    else l in
  let l :=
    foldl (fun l tc =>
             if 3 <? tc.2
             then mkLocals (score l - 5)
                    (suggestions l
                     ++ [("Too many players from " ++ tc.1 ++ " (>" ++ pretty tc.2 ++ ").")%string])
                    (hard_fixture_count l)
             else l)
          l (count_teams (players t)) in
  let sc := Z.max 0 (Z.min 100 (score l)) in
  let res := [("score", VInt sc)]%string in
  Return (if sc <? 70 then dict_set res "suggestions" (str_list (suggestions l)) else res).

(** Closed forms of the penalties: the number of players in a position or
    unavailable, and the penalty for fewer than [least] players. *)
Definition players_at (key : string) (ps : list Player) : Z :=
  Z.of_nat (length (filter (fun p => position p = key) ps)).

Definition unavailable (ps : list Player) : Z :=
  Z.of_nat (length (filter (fun p => available p = false) ps)).

Definition shortfall (n least : Z) : Z := if n <? least then 10 else 0.

(** The function body: the [try] statement, then the trailing statements. *)
Definition rate_team_body (trailing : Team -> Locals -> flow Locals (dict pyval))
    (t : Team) (gameweek : Z) : flow Locals (dict pyval) :=
  then_
    (try_catch (try_body t) (fun _ => Return (mock_team_rating t gameweek)))
    (trailing t).

Definition rate_team (t : Team) (gameweek : Z) : flow Locals (dict pyval) :=
  rate_team_body after_try t gameweek.

End Environment.

End TeamRating.

(** ** Training orchestrator ([train_ml_models.py]) *)

Module Orchestrator.

(** The file system: path to contents. *)
Abbreviation FS := (gmap string string).

Inductive level : Type := INFO | WARNING | ERROR.

(** [os.path.join(dir, name)] for a relative [name]. *)
Definition path_join (dir name : string) : string := (dir ++ "/" ++ name)%string.

(** *** Tiered model loading *)

Definition tier_priority : list string :=
  ["stacking"; "elite"; "premium"; "basic"]%string.
Definition positions : list string := ["gk"; "def"; "mid"; "fwd"]%string.

(** Modelled from the spec: [PointsPredictor] of [app/models/ml_models.py],
    which is not among the sources.  The spec gives the backend contract
    [load() -> bool]; a predictor object is its constructor arguments and
    whether [load] has succeeded on it. *)
Record Predictor : Type := mkPredictor {
  model_type : string;
  position : string;
  is_loaded : bool
}.

Record LoaderState : Type := mkLoaderState {
  predictors : dict Predictor;
  attempts : list (string * string);
  log : list (level * string)
}.

Section Loader.

(** [os.path.exists] on the model directory. *)
Variable path_exists : string -> bool.
(** The outcome of [PointsPredictor(model_type, position).load()]. *)
Variable load : string -> string -> bool.
Variable model_dir_str : string.

(** Whether the artifact files of [tier] for [pos] are present. *)
Definition artifact_exists (pos tier : string) : bool :=
  if String.eqb tier "stacking" then
    path_exists (path_join model_dir_str
                   ("points_predictor_" ++ pos ++ "_stacking_stacking.joblib"))
  else
    path_exists (path_join model_dir_str
                   ("points_predictor_" ++ pos ++ "_" ++ tier ++ ".joblib"))
    && path_exists (path_join model_dir_str
                      ("points_predictor_" ++ pos ++ "_" ++ tier ++ "_scaler.joblib")).

(** A tier is usable when its artifact is present and [load] succeeds. *)
Definition usable (pos tier : string) : bool :=
  artifact_exists pos tier && load tier (PyStr.str_upper pos).

(** The inner [for tier in tier_priority] loop: the predictor is stored under
    [pos] before [load] is called on it, and a successful [load] breaks. *)
Fixpoint try_tiers (pos : string) (tiers : list string) (st : LoaderState)
    : LoaderState :=
  match tiers with
  | [] => st
  | tier :: tiers' =>
      if artifact_exists pos tier then
        let ok := load tier (PyStr.str_upper pos) in
        let p := mkPredictor tier (PyStr.str_upper pos) ok in
        let st' := mkLoaderState (dict_set (predictors st) pos p)
                     (attempts st ++ [(pos, tier)]) (log st) in
        if ok then st' else try_tiers pos tiers' st'
      else try_tiers pos tiers' st
  end.

Definition no_model_warning (pos : string) : level * string :=
  (WARNING,
   ("No points predictor model found for position " ++ PyStr.str_upper pos
    ++ ". Will fallback to points_per_game.")%string).

(** The body of [for pos in positions]. *)
Definition resolve_position (st : LoaderState) (pos : string) : LoaderState :=
  let st' := try_tiers pos tier_priority st in
  match dict_get (predictors st') pos with
  | Some _ => st'
  | None => mkLoaderState (predictors st') (attempts st') (log st' ++ [no_model_warning pos])
  end.

Definition resolve_predictors : LoaderState :=
  foldl resolve_position (mkLoaderState [] [] []) positions.

End Loader.

(** *** Injecting predictions *)

Section Predict.

(** [predictor.feature_names] and [predictor.predict(features)] of the
    predictor class, [str()] on a cell and on an exception, and pandas'
    [Series.infer_objects()] on the cells of a row: the cells with the types
    pandas settles on for them, or what pandas raises. *)
Variable feature_names : Predictor -> list string.
Variable predict : Predictor -> dict pyval -> result pyval.
Variable py_str : pyval -> string.
Variable exn_str : exn -> string.
Variable infer_objects : dict pyval -> result (dict pyval).

(** [fillna(0)] on one cell. *)
Definition fillna0 (v : pyval) : pyval :=
  match v with
  | VFloat x => if PyFloat.isnan x then VInt 0 else v
  | VNone => VInt 0
  | _ => v
  end.

Definition id_columns : list string := ["player_id"; "name"; "team"; "position"]%string.

(** [row.drop(['player_id', 'name', 'team', 'position'],
     errors='ignore').fillna(0)] *)
Definition row_features (row : dict pyval) : dict pyval :=
  map (fun kv => (kv.1, fillna0 kv.2))
      (filter (fun kv => kv.1 ∉ id_columns) row).

(** [{fname: 0 for fname in names}], then
    [for k, v in cells.items(): if k in features: features[k] = v]. *)
Definition fill_features (names : list string) (cells : dict pyval) : dict pyval :=
  let zeros := foldl (fun d n => dict_set d n (VInt 0)) [] names in
  foldl (fun d kv =>
           match dict_get d kv.1 with
           | Some _ => dict_set d kv.1 kv.2
           | None => d
           end) zeros cells.

(** The feature dict handed to [predict]: zeros for the model's names,
    overwritten by the cells of the same name that
    [row_features.infer_objects().to_dict()] gives. *)
Definition model_features (names : list string) (row : dict pyval)
    : result (dict pyval) :=
  let* cells := infer_objects (row_features row) in
  Ok (fill_features names cells).

(** The record of [logger.error] in the handler of the loop body. *)
Definition failure_record (row : dict pyval) (e : exn) : level * string :=
  (ERROR,
   ("Prediction failed for player "
    ++ py_str (dict_get_default row "name" (VStr "unknown"))
    ++ " (ID: " ++ py_str (dict_get_default row "player_id" (VStr "N/A"))
    ++ "): " ++ exn_str e)%string).

(** The [try] body of one iteration, for the predictor found for the row. *)
Definition attempt (found : option Predictor) (row : dict pyval) : result pyval :=
  match found with
  | Some predictor =>
      match feature_names predictor with
      | _ :: _ =>
          let* features := model_features (feature_names predictor) row in
          predict predictor features
      | [] => Ok (dict_get_default row "points_per_game" (VInt 0))
      end
  | None => Ok (dict_get_default row "points_per_game" (VInt 0))
  end.

(** One iteration of the prediction loop: the value appended to
    [pred_points] and the error records written. *)
Definition predict_row (predictors : dict Predictor) (row : dict pyval)
    : result (pyval * list (level * string)) :=
  let* position := dict_item row "position" in
  let pos := PyStr.str_lower (py_str position) in
  match attempt (dict_get predictors pos) row with
  | Ok pred => Ok (pred, [])
  | Raise e =>
      Ok (dict_get_default row "points_per_game" (VInt 0), [failure_record row e])
  end.

(** The prediction loop over the rows of the table: the list [pred_points]
    and the error records written. *)
Fixpoint predict_loop (predictors : dict Predictor) (rows : list (dict pyval))
    : result (list pyval * list (level * string)) :=
  match rows with
  | [] => Ok ([], [])
  | row :: rows' =>
      let* '(pred, records) := predict_row predictors row in
      let* '(pred_points, log) := predict_loop predictors rows' in
      Ok (pred :: pred_points, records ++ log)
  end.

End Predict.

(** *** Transfer-model training on the augmented dataset *)

(** [shutil.copy2(src, dst)] *)
Definition copy2 (src dst : string) (fs : FS) : FS * result unit :=
  match fs !! src with
  | Some content => (<[dst := content]> fs, Ok tt)
  | None => (fs, Raise FileNotFoundError)
  end.

(** [shutil.move(src, dst)] *)
Definition move (src dst : string) (fs : FS) : FS * result unit :=
  match fs !! src with
  | Some content => (delete src (<[dst := content]> fs), Ok tt)
  | None => (fs, Raise FileNotFoundError)
  end.

(** [df.to_csv(path, index=False)] with [csv] the serialised table. *)
Definition to_csv (csv path : string) (fs : FS) : FS := <[path := csv]> fs.

(** [try: body finally: cleanup]: the cleanup runs after the body on every
    exit; its own exception replaces the body's outcome. *)
Definition try_finally {A : Type} (body : FS -> FS * result A)
    (cleanup : FS -> FS * result unit) (fs : FS) : FS * result A :=
  let '(fs1, r) := body fs in
  let '(fs2, c) := cleanup fs1 in
  match c with
  | Ok _ => (fs2, r)
  | Raise e => (fs2, Raise e)
  end.

Definition backup_path (main_csv unique_id : string) : string :=
  (main_csv ++ ".bak_" ++ unique_id)%string.

Section TransferStep.

Context {Metrics : Type}.
(** [train_transfer_models(...)]: its effect on the files and its outcome. *)
Variable train_transfer_models : FS -> FS * result Metrics.

(** Lines "Overwrite the latest main CSV ..." to the end of the [finally]. *)
Definition transfer_step (main_csv unique_id augmented_csv : string) (fs : FS)
    : FS * result Metrics :=
  let backup_csv := backup_path main_csv unique_id in
  match copy2 main_csv backup_csv fs with
  | (fs1, Raise e) => (fs1, Raise e)
  | (fs1, Ok _) =>
      let fs2 := to_csv augmented_csv main_csv fs1 in
      try_finally train_transfer_models (move backup_csv main_csv) fs2
  end.

End TransferStep.

End Orchestrator.

(** ** Choosing the dataset file ([train_ml_models.py],
       [app/training/train_models.py]) *)

Module Datasets.

(** [s.endswith(suffix)] *)
Definition endswith (s suffix : string) : bool :=
  let n := String.length s in
  let m := String.length suffix in
  (m <=? n)%nat && String.eqb (String.substring (n - m) m s) suffix.

(** The order of [list.sort(reverse=True)] on [str]. *)
Definition str_ge (a b : string) : Prop := String.leb b a = true.

#[global] Instance str_ge_dec : RelDecision str_ge :=
  fun a b => decide (String.leb b a = true).

(** [datasets.sort(reverse=True)] *)
Definition sort_reverse (l : list string) : list string := merge_sort str_ge l.

(** [[f for f in os.listdir(d) if f.endswith('.csv')]], sorted in reverse,
    then [datasets[0]]: [None] stands for the empty list, on which every
    caller gives up before indexing. *)
Definition latest_csv (listing : list string) : option string :=
  head (sort_reverse (filter (fun f => endswith f ".csv" = true) listing)).

(** The last character of a string, if it has one. *)
Fixpoint last_char (s : string) : option ascii :=
  match s with
  | EmptyString => None
  | String c EmptyString => Some c
  | String _ s' => last_char s'
  end.

(** [f"{os.getpid()}_{int(time.time())}"] *)
Definition unique_id (pid now : Z) : string :=
  (pretty pid ++ "_" ++ pretty now)%string.

End Datasets.

(** ** Mock captain pick ([app/services/mock_service.py]) *)

Module CaptainPicker.

Import TeamRating.

(** [max(players, key=lambda x: x.total_points)] continued from [best]: a
    later player replaces [best] only with a strictly greater total. *)
Fixpoint max_by_total_points (best : Player) (ps : list Player) : Player :=
  match ps with
  | [] => best
  | p :: ps' =>
      max_by_total_points
        (if total_points best <? total_points p then p else best) ps'
  end.

(** [mock_captain_pick]: [None] for a team without players and, through the
    handler, when anything raises. *)
Definition mock_captain_pick (t : Team) (gameweek : Z) (subscription_tier : string)
    : option (dict pyval) :=
  match players t with
  | [] => None
  | p :: ps =>
      let best_player := max_by_total_points p ps in
      match PyFloat.int_truediv (total_points best_player) 10 with
      | Ok expected =>
          Some [ ("name", VStr (name best_player));
                 ("player_id", VInt (id best_player));
                 ("expected_points", VFloat expected);
                 ("reasoning",
                  VStr ("Highest total points (" ++ pretty (total_points best_player)
                        ++ ") and consistent performer")) ]%string
      | Raise _ => None
      end
  end.

End CaptainPicker.

(** ** The team endpoint ([app/routers/team.py]) *)

Module TeamRouter.

(** What the handler body can raise: an exception of the application, or
    FastAPI's [HTTPException], itself an [Exception]. *)
Inductive raised : Type :=
| App (e : exn)
| HTTPException (status_code : Z) (detail : string).

Section Handler.

(** [await get_team_players(team_id)] of [app/utils/fpl_data.py]. *)
Variable get_team_players : Z -> result (list pyval).
(** [str(e)] *)
Variable exn_str : raised -> string.

(** The [try] body. *)
Definition get_team_body (team_id : Z) : list pyval + raised :=
  match get_team_players team_id with
  | Ok players =>
      match players with
      | [] => inr (HTTPException 404 "Team not found")
      | _ => inl players
      end
  | Raise e => inr (App e)
  end.

(** [except Exception as e: raise HTTPException(status_code=500, detail=str(e))] *)
Definition get_team (team_id : Z) : list pyval + raised :=
  match get_team_body team_id with
  | inl players => inl players
  | inr e => inr (HTTPException 500 (exn_str e))
  end.

End Handler.

End TeamRouter.

(** ** Queries over the cached snapshots ([app/utils/fpl_data.py]) *)

Module FplQueries.

Import PyNum FplData.

(** [v[k]] for a string key. *)
Definition py_item (v : pyval) (k : string) : result pyval :=
  match v with
  | VDict d => dict_item d k
  | _ => Raise TypeError
  end.

(** [v[k] = x] for a string key. *)
Definition py_setitem (v : pyval) (k : string) (x : pyval) : result pyval :=
  match v with
  | VDict d => Ok (VDict (dict_set d k x))
  | _ => Raise TypeError
  end.

(** [v == n] for an [int] [n]. *)
Definition eq_int (v : pyval) (n : Z) : bool :=
  match as_num v with
  | Ok a => PyNum.eq a (NInt n)
  | Raise _ => false
  end.

(** [bootstrap_data.get(key, [])] after [await get_bootstrap_data()]. *)
Definition bootstrap_list (key : string) (call : Call) (w : World)
    : result pyval * World :=
  let '(r, w') := get_bootstrap_data call w in
  (let* bootstrap_data := r in TrainingData.py_get bootstrap_data key (VList []), w').

Definition get_players : Call -> World -> result pyval * World :=
  bootstrap_list "elements".

Definition get_all_players : Call -> World -> result pyval * World := get_players.

Definition get_teams : Call -> World -> result pyval * World :=
  bootstrap_list "teams".

(** [for item in items: if item["id"] == wanted: return item], then [None]. *)
Fixpoint find_by_id (items : list pyval) (wanted : Z) : result (option pyval) :=
  match items with
  | [] => Ok None
  | item :: items' =>
      let* v := py_item item "id" in
      if eq_int v wanted then Ok (Some item) else find_by_id items' wanted
  end.

Definition get_player_by_id (player_id : Z) (call : Call) (w : World)
    : result (option pyval) * World :=
  let '(r, w') := get_players call w in
  (let* players := r in
   let* items := TrainingData.py_iter players in
   find_by_id items player_id, w').

Definition get_team_by_id (team_id : Z) (call : Call) (w : World)
    : result (option pyval) * World :=
  let '(r, w') := get_teams call w in
  (let* teams := r in
   let* items := TrainingData.py_iter teams in
   find_by_id items team_id, w').

(** [Exception(f"Player with ID {player_id} not found")] *)
Definition player_not_found (player_id : Z) : exn :=
  Exception ("Player with ID " ++ pretty player_id ++ " not found").

(** [{**player, k1: v1, k2: v2}] *)
Definition spread (player : pyval) (more : dict pyval) : result pyval :=
  match player with
  | VDict d => Ok (VDict (foldl (fun d kv => dict_set d kv.1 kv.2) d more))
  | _ => Raise TypeError
  end.

(** [boot] is what the player lookup meets, [detail] what the request for
    the player's details meets. *)
Definition get_player_with_history (player_id : Z) (boot detail : Call) (w : World)
    : result pyval * World :=
  let '(r, w1) := get_player_by_id player_id boot w in
  match r with
  | Raise e => (Raise e, w1)
  | Ok found =>
      match found with
      | Some player =>
          if py_truthy player then
            let '(r2, w2) := get_player_detail_data player_id detail w1 in
            (let* player_details := r2 in
             let* history := TrainingData.py_get player_details "history" (VList []) in
             let* fixtures := TrainingData.py_get player_details "fixtures" (VList []) in
             spread player [("history", history); ("fixtures", fixtures)]%string, w2)
          else (Raise (player_not_found player_id), w1)
      | None => (Raise (player_not_found player_id), w1)
      end
  end.

(** [for event in events: if event[flag]: return event] *)
Fixpoint first_flagged (flag : string) (events : list pyval) : result (option pyval) :=
  match events with
  | [] => Ok None
  | event :: events' =>
      let* v := py_item event flag in
      if py_truthy v then Ok (Some event) else first_flagged flag events'
  end.

(** [events[0] if events else {}] *)
Definition first_or_empty (events : pyval) : result pyval :=
  if py_truthy events then
    match events with
    | VList (x :: _) => Ok x
    | VStr (String c _) => Ok (VStr (String c EmptyString))
    | VDict _ => Raise KeyError
    | _ => Raise TypeError
    end
  else Ok (VDict []).

Definition get_current_gameweek (call : Call) (w : World) : result pyval * World :=
  let '(r, w') := get_bootstrap_data call w in
  (let* bootstrap_data := r in
   let* events := TrainingData.py_get bootstrap_data "events" (VList []) in
   let* items := TrainingData.py_iter events in
   let* current := first_flagged "is_current" items in
   match current with
   | Some event => Ok event
   | None =>
       let* next := first_flagged "is_next" items in
       match next with
       | Some event => Ok event
       | None => first_or_empty events
       end
   end, w').

(** [fixture["team_a"] == team_id or fixture["team_h"] == team_id] *)
Definition involves (team_id : Z) (fixture : pyval) : result bool :=
  let* a := py_item fixture "team_a" in
  if eq_int a team_id then Ok true
  else
    let* h := py_item fixture "team_h" in
    Ok (eq_int h team_id).

(** [fixture["finished"] == False] *)
Definition unfinished (fixture : pyval) : result bool :=
  let* f := py_item fixture "finished" in
  Ok (eq_int f 0).

(** A list comprehension with a condition, over objects paired with their
    position in the list of all fixtures: the pairs whose object passes. *)
Fixpoint keep (test : pyval -> result bool) (objects : list (nat * pyval))
    : result (list (nat * pyval)) :=
  match objects with
  | [] => Ok []
  | (i, fixture) :: objects' =>
      let* b := test fixture in
      let* rest := keep test objects' in
      Ok (if b then (i, fixture) :: rest else rest)
  end.

(** The body of the flagging loop on one fixture object: how it ends and the
    state it leaves the object in. *)
Definition flag (team_id : Z) (fixture : pyval) : result unit * pyval :=
  match py_item fixture "team_h" with
  | Raise e => (Raise e, fixture)
  | Ok h =>
      match py_setitem fixture "is_home" (VBool (eq_int h team_id)) with
      | Raise e => (Raise e, fixture)
      | Ok fixture1 =>
          match
            (let* is_home := py_item fixture1 "is_home" in
             if py_truthy is_home then py_item fixture1 "team_a"
             else py_item fixture1 "team_h")
          with
          | Raise e => (Raise e, fixture1)
          | Ok opponent =>
              match py_setitem fixture1 "opponent" opponent with
              | Raise e => (Raise e, fixture1)
              | Ok fixture2 => (Ok tt, fixture2)
              end
          end
      end
  end.

(** The flagging loop over the selected fixtures: each is an object of the
    list [store] of all fixtures and is updated in place. *)
Fixpoint flag_loop (team_id : Z) (selected : list (nat * pyval)) (store : list pyval)
    : result unit * list pyval :=
  match selected with
  | [] => (Ok tt, store)
  | (i, fixture) :: selected' =>
      match flag team_id fixture with
      | (Ok _, fixture') => flag_loop team_id selected' (<[i := fixture']> store)
      | (Raise e, fixture') => (Raise e, <[i := fixture']> store)
      end
  end.

Definition set_fixtures (payload : pyval) (w : World) : World :=
  let c := data_cache w in
  mkWorld (mkCache (bootstrap_data c) (bootstrap_timestamp c) (Some payload)
             (fixtures_timestamp c) (player_details_cache c)
             (player_details_timestamp c))
    (requests w).

(** [get_team_fixtures]: the list it returns holds objects of the cached
    list of all fixtures; it is given here by their positions in that list. *)
Definition get_team_fixtures (team_id : Z) (include_finished : bool) (call : Call)
    (w : World) : result (list nat) * World :=
  let '(r, w1) := get_fixtures_data call w in
  match r with
  | Raise e => (Raise e, w1)
  | Ok all_fixtures =>
      match
        (let* items := TrainingData.py_iter all_fixtures in
         let* team_fixtures := keep (involves team_id) (imap pair items) in
         if include_finished then Ok team_fixtures else keep unfinished team_fixtures)
      with
      | Raise e => (Raise e, w1)
      | Ok team_fixtures =>
          match all_fixtures with
          | VList store =>
              let '(r', store') := flag_loop team_id team_fixtures store in
              (let* _ := r' in Ok team_fixtures.*1, set_fixtures (VList store') w1)
          | _ => (Ok team_fixtures.*1, w1)
          end
      end
  end.

End FplQueries.

(** ** List slices *)

(** [l[:k]] for an [int] [k]: a negative [k] counts from the end. *)
Definition slice_upto {A : Type} (k : Z) (l : list A) : list A :=
  if 0 <=? k then take (Z.to_nat k) l
  else take (Z.to_nat (Z.of_nat (length l) + k)) l.

(** ** Mock transfer suggestions ([app/services/mock_service.py]) *)

Module MockTransfers.

Import PyNum TeamRating.

Definition positions : list string := ["DEF"; "MID"; "FWD"]%string.

(** [{"DEF": 2, "MID": 3, "FWD": 4}.get(pos, 3)] *)
Definition position_id (pos : string) : Z :=
  dict_get_default [("DEF", 2); ("MID", 3); ("FWD", 4)]%string pos 3.

(** [v in current_ids] for a set of [int]s: the object is hashed, then
    compared by value. *)
Definition in_ids (v : pyval) (current_ids : list Z) : result bool :=
  match v with
  | VList _ | VDict _ => Raise TypeError
  | _ => Ok (existsb (FplQueries.eq_int v) current_ids)
  end.

(** [min(players, key=lambda x: x.total_points)] continued from [best]: a
    later player replaces [best] only with a strictly smaller total. *)
Fixpoint min_by_total_points (best : Player) (ps : list Player) : Player :=
  match ps with
  | [] => best
  | p :: ps' =>
      min_by_total_points
        (if total_points p <? total_points best then p else best) ps'
  end.

(** [player_data["id"] not in current_ids and
     player_data["now_cost"] / 10.0 <= budget] *)
Definition is_candidate (current_ids : list Z) (budget : float)
    (player_data : pyval) : result bool :=
  let* player_id := FplQueries.py_item player_data "id" in
  let* known := in_ids player_id current_ids in
  if known then Ok false
  else
    let* now_cost := FplQueries.py_item player_data "now_cost" in
    let* cost := as_num now_cost in
    let* price := truediv cost (NFloat 10) in
    Ok (PrimFloat.leb price budget).

Section Mock.

(** [await get_players_by_form(position=position_id, limit=5)] of
    [app/utils/fpl_data.py]: the list it returns or what it raises; each
    position is asked at most once. *)
Variable get_players_by_form : Z -> Z -> result (list pyval).
(** [player.dict()] of the schema class. *)
Variable player_dict : Player -> dict pyval.
(** [str(v)] inside an f-string. *)
Variable py_str : pyval -> string.
(** The successive draws of [random.uniform(1.0, 5.0)]. *)
Variable uniform : nat -> float.

(** The dict appended to [suggestions]: the dict literal [player_in] built
    from the candidate, then the suggestion around it. *)
Definition new_suggestion (player_out : Player) (player_data : pyval) (draw : nat)
    : result (dict pyval) :=
  let* player_id := FplQueries.py_item player_data "id" in
  let* first_name := FplQueries.py_item player_data "first_name" in
  let* second_name := FplQueries.py_item player_data "second_name" in
  let* now_cost := FplQueries.py_item player_data "now_cost" in
  let* cost := as_num now_cost in
  let* price := truediv cost (NFloat 10) in
  let* raw_form := FplQueries.py_item player_data "form" in
  let* form := if py_truthy raw_form then py_float raw_form else Ok 0%float in
  let* total_points := FplQueries.py_item player_data "total_points" in
  let name := (py_str first_name ++ " " ++ py_str second_name)%string in
  let player_in :=
    [ ("id", player_id); ("name", VStr name); ("price", VFloat price);
      ("form", VFloat form); ("total_points", total_points) ]%string in
  Ok [ ("player_out", VDict (player_dict player_out));
       ("player_in", VDict player_in);
       ("predicted_impact", VFloat (uniform draw));
       ("reasoning", VStr ("Better form and fixtures for " ++ name)) ]%string.

(** The loop over the candidates of one position: the suggestion it appends
    before [break], if any.  A candidate met while the team has no player of
    the position is passed over without [break]. *)
Fixpoint first_suggestion (t : Team) (budget : float) (pos : string) (draw : nat)
    (top_players : list pyval) : result (option (dict pyval)) :=
  match top_players with
  | [] => Ok None
  | player_data :: rest =>
      let* candidate := is_candidate (map id (players t)) budget player_data in
      if candidate then
        match filter (fun p => String.eqb (position p) pos = true) (players t) with
        | p :: ps =>
            let player_out := min_by_total_points p ps in
            let* suggestion := new_suggestion player_out player_data draw in
            Ok (Some suggestion)
        | [] => first_suggestion t budget pos draw rest
        end
      else first_suggestion t budget pos draw rest
  end.

(** The loop over [positions[:max_suggestions]]. *)
Fixpoint suggest_loop (t : Team) (budget : float) (todo : list string)
    (suggestions : list (dict pyval)) : result (list (dict pyval)) :=
  match todo with
  | [] => Ok suggestions
  | pos :: todo' =>
      let* top_players := get_players_by_form (position_id pos) 5 in
      let* found :=
        first_suggestion t budget pos (length suggestions) top_players in
      suggest_loop t budget todo'
        (match found with
         | Some suggestion => suggestions ++ [suggestion]
         | None => suggestions
         end)
  end.

(** [mock_transfer_suggestions]: the empty list when anything raises. *)
Definition mock_transfer_suggestions (t : Team) (budget : float) (gameweek : Z)
    (subscription_tier : string) (max_suggestions : Z) : list (dict pyval) :=
  match suggest_loop t budget (slice_upto max_suggestions positions) [] with
  | Ok suggestions => slice_upto max_suggestions suggestions
  | Raise _ => []
  end.

(** What a suggestion appended for [pos] is made of: the player leaving is a
    player of the team at [pos] with the fewest total points; the player
    coming in is one of the candidates for [pos], with an [id] no player of
    the team has and a price within the budget. *)
Definition made_for (t : Team) (budget : float) (suggestion : dict pyval)
    (pos : string) : Prop :=
  exists (player_out : Player) (candidates : list pyval) (player_data player_id : pyval)
         (price : float) (player_in : dict pyval),
    get_players_by_form (position_id pos) 5 = Ok candidates
    /\ player_data ∈ candidates
    /\ FplQueries.py_item player_data "id" = Ok player_id
    /\ player_out ∈ players t
    /\ position player_out = pos
    /\ (forall q : Player,
          q ∈ players t -> position q = pos ->
          total_points player_out <= total_points q)
    /\ dict_get suggestion "player_out" = Some (VDict (player_dict player_out))
    /\ dict_get suggestion "player_in" = Some (VDict player_in)
    /\ dict_get player_in "id" = Some player_id
    /\ (forall q : Player, q ∈ players t -> FplQueries.eq_int player_id (id q) = false)
    /\ dict_get player_in "price" = Some (VFloat price)
    /\ PrimFloat.leb price budget = true.

End Mock.

End MockTransfers.

(** ** Captain recommendations ([app/services/captain_service.py]) *)

Module CaptainService.

Import PyNum FplData TeamRating.

(** [SUBSCRIPTION_TIERS] as [Settings] of [app/utils/config.py] declares it. *)
Definition SUBSCRIPTION_TIERS : dict (dict pyval) :=
  [ ("basic", [ ("model_version", VStr "basic-v1");
                ("recommendations_limit", VInt 3);
                ("captain_picks_limit", VInt 2) ]);
    ("premium", [ ("model_version", VStr "premium-v1");
                  ("recommendations_limit", VInt 5);
                  ("captain_picks_limit", VInt 3) ]);
    ("elite", [ ("model_version", VStr "elite-v1");
                ("recommendations_limit", VInt 10);
                ("captain_picks_limit", VInt 5) ]) ]%string.

(** [CaptainPick] of [app/schemas/fpl.py]. *)
Record CaptainPick : Type := mkCaptainPick {
  player : Player;
  reasoning : string;
  expected_points : float
}.

(** [subscription_tier or "basic"] *)
Definition tier_or_basic (subscription_tier : option string) : string :=
  match subscription_tier with
  | Some s => if String.eqb s "" then "basic"%string else s
  | None => "basic"%string
  end.

(** [tiers.get(tier, tiers["basic"])]: the default is evaluated before the
    lookup. *)
Definition tier_config (tiers : dict (dict pyval)) (tier : string)
    : result (dict pyval) :=
  let* basic := dict_item tiers "basic" in
  Ok (dict_get_default tiers tier basic).

(** [l[:stop]] on a list, for any object [stop]. *)
Definition slice_to {A : Type} (stop : pyval) (l : list A) : result (list A) :=
  match stop with
  | VNone => Ok l
  | VBool b => Ok (slice_upto (if b then 1 else 0) l)
  | VInt k => Ok (slice_upto k l)
  | _ => Raise TypeError
  end.

(** [p.name == player_name] *)
Definition name_is (player_name : pyval) (p : Player) : bool :=
  match player_name with
  | VStr s => String.eqb (name p) s
  | _ => false
  end.

(** [next((p for p in players if p.name == player_name), None)] *)
Definition find_by_name (players : list Player) (player_name : pyval)
    : option Player :=
  List.find (name_is player_name) players.

(** The team player one entry of the ranking names, if any:
    [pick_data.get("player", "")] looked up among the players. *)
Definition named_player (players : list Player) (pick_data : pyval) : option Player :=
  match pick_data with
  | VDict d => find_by_name players (dict_get_default d "player" (VStr ""))
  | _ => None
  end.

Section Service.

(** The model object of [app/models/prediction.py], which is not among the
    sources: [get_model_for_tier(tier)] and
    [await model.recommend_captain(players, gameweek)], the list it returns
    or what it raises, and what it leaves of the cache and the requests. *)
Context {Model : Type}.
Variable get_model_for_tier : string -> result Model.
Variable recommend_captain :
  Model -> list Player -> pyval -> World -> result (list pyval) * World.
(** Validation of the fields [reasoning: str] and [expected_points: float]
    by the schema class. *)
Variable validate_str : pyval -> result string.
Variable validate_float : pyval -> result float.

(** [CaptainPick(player=..., reasoning=..., expected_points=...)] *)
Definition new_CaptainPick (p : Player) (reasoning expected_points : pyval)
    : result CaptainPick :=
  let* r := validate_str reasoning in
  let* x := validate_float expected_points in
  Ok (mkCaptainPick p r x).

(** The formatting loop over the picks kept by the limit. *)
Fixpoint format_picks (players : list Player) (picks : list pyval)
    : result (list CaptainPick) :=
  match picks with
  | [] => Ok []
  | pick_data :: picks' =>
      let* player_name := TrainingData.py_get pick_data "player" (VStr "") in
      match find_by_name players player_name with
      | Some p =>
          let* reasoning :=
            TrainingData.py_get pick_data "reasoning"
              (VStr "Strong candidate for returns.") in
          let* expected :=
            TrainingData.py_get pick_data "expected_points" (VFloat 0) in
          let* pick := new_CaptainPick p reasoning expected in
          let* recommendations := format_picks players picks' in
          Ok (pick :: recommendations)
      | None => format_picks players picks'
      end
  end.

(** The gameweek handed to the model: the argument when positive, else the
    [id] of the current gameweek. *)
Definition resolve_gameweek (gameweek : Z) (call : Call) (w : World)
    : result pyval * World :=
  if gameweek <=? 0 then
    let '(r, w') := FplQueries.get_current_gameweek call w in
    (let* current_gw := r in FplQueries.py_item current_gw "id", w')
  else (Ok (VInt gameweek), w).

Definition get_custom_captain_recommendations (tiers : dict (dict pyval))
    (team : Team) (gameweek : Z) (subscription_tier : option string)
    (call : Call) (w : World) : result (list CaptainPick) * World :=
  match get_model_for_tier (tier_or_basic subscription_tier) with
  | Raise e => (Raise e, w)
  | Ok model =>
      match resolve_gameweek gameweek call w with
      | (Raise e, w1) => (Raise e, w1)
      | (Ok gw, w1) =>
          match tier_config tiers (tier_or_basic subscription_tier) with
          | Raise e => (Raise e, w1)
          | Ok config =>
              let captain_picks_limit :=
                dict_get_default config "captain_picks_limit" (VInt 2) in
              let '(ranked, w2) := recommend_captain model (players team) gw w1 in
              let body :=
                let* captain_picks_data := ranked in
                let* kept := slice_to captain_picks_limit captain_picks_data in
                format_picks (players team) kept in
              match body with
              | Ok recommendations => (Ok recommendations, w2)
              | Raise _ => (Ok [], w2)
              end
          end
      end
  end.

End Service.

End CaptainService.

(** ** The formulas as the specification words them *)

Module Spec.

(** "games_played: floor(minutes/60) when full history is unavailable" *)
Definition games_played_approx (minutes : Z) : Z := minutes / 60.

(** "points_per_game = total_points / max(1, games_played); 0 if
    games_played is 0" *)
Definition points_per_game (total_points games_played : Z) : result float :=
  if games_played =? 0 then Ok 0%float
  else PyFloat.int_truediv total_points (Z.max 1 games_played).

End Spec.

(** * Properties *)

(** ** The Python layer, checked on values the interpreter gives *)

Example int_truediv_examples :
  PyFloat.int_truediv 1 3 = Ok 0.3333333333333333%float
  /\ PyFloat.int_truediv 2 (-3) = Ok (-0.6666666666666666)%float
  /\ PyFloat.int_truediv 1 10 = Ok 0.1%float
  /\ PyFloat.int_truediv 7 2 = Ok 3.5%float
  /\ PyFloat.int_truediv 0 (-5) = Ok (-0)%float
  /\ PyFloat.int_truediv (-1) (10 ^ 400) = Ok (-0)%float
  /\ PyFloat.int_truediv (10 ^ 400) (10 ^ 399) = Ok 10%float
  /\ PyFloat.int_truediv (2 ^ 1024) 2 = Ok 8.9884656743115795e307%float
  /\ PyFloat.int_truediv (10 ^ 400) 1 = Raise OverflowError
  /\ PyFloat.int_truediv 1 0 = Raise ZeroDivisionError.
Proof. vm_compute. repeat split. Qed.

Example of_int_examples :
  PyFloat.of_int (2 ^ 53 + 1) = Ok 9007199254740992%float
  /\ PyFloat.of_int (2 ^ 53 + 3) = Ok 9007199254740996%float
  /\ PyFloat.of_int (- 7) = Ok (-7)%float
  /\ PyFloat.of_int (2 ^ 1024) = Raise OverflowError.
Proof. vm_compute. repeat split. Qed.

Example trunc_examples :
  PyFloat.trunc (1000 * 0.35)%float = Ok 350
  /\ PyFloat.trunc (1000 * 0.1)%float = Ok 100
  /\ PyFloat.trunc (-2.7)%float = Ok (-2)
  /\ PyFloat.trunc nan = Raise ValueError.
Proof. vm_compute. repeat split. Qed.

Example floordiv_examples :
  PyFloat.floordiv 125.5 60 = Ok 2%float
  /\ PyFloat.floordiv (-125.5) 60 = Ok (-3)%float
  /\ PyFloat.floordiv 59.9 60 = Ok 0%float
  /\ PyFloat.floordiv 1e300 60 = Ok 1.6666666666666668e298%float
  /\ PyFloat.floordiv 7.5 (-2) = Ok (-4)%float
  /\ PyFloat.floordiv 5 (-0.3) = Ok (-17)%float
  /\ PyFloat.floordiv (-0) 1 = Ok (-0)%float
  /\ PyFloat.floordiv infinity 60 = Ok nan
  /\ PyFloat.floordiv 1 0 = Raise ZeroDivisionError.
Proof. vm_compute. repeat split. Qed.

Example round1_examples :
  map PyFloat.round1 [0.25; 0.35; 2.675; -0.04; 0.05; 0.15; 99.95; 0.45; -1.25]%float
  = [0.2; 0.3; 2.7; -0; 0.1; 0.1; 100; 0.5; -1.2]%float.
Proof. vm_compute. reflexivity. Qed.

Example parse_float_accepts :
  PyStr.parse_float "12.5" = Some 12.5%float
  /\ PyStr.parse_float "  -1_000.25e-2 " = Some (-10.0025)%float
  /\ PyStr.parse_float "0.1" = Some 0.1%float
  /\ PyStr.parse_float ".5" = Some 0.5%float
  /\ PyStr.parse_float "5." = Some 5%float
  /\ PyStr.parse_float "+.5E+1" = Some 5%float
  /\ PyStr.parse_float "-Infinity" = Some neg_infinity
  /\ PyStr.parse_float "NaN" = Some nan
  /\ PyStr.parse_float "0.30000000000000004" = Some (0.1 + 0.2)%float.
Proof. vm_compute. repeat split. Qed.

Example parse_float_rejects :
  Forall (fun s => PyStr.parse_float s = None)
    [""; "12,5"; "n/a"; "."; "1__0"; "_1"; "1_"; "1e"; "1 2"; "1._5"; "0x10"]%string.
Proof. repeat constructor. Qed.

(** Text beyond ASCII, given by its UTF-8 bytes: Arabic-Indic, fullwidth
    and mathematical digits and the blanks of [str.isspace] are read; the
    separators 28 to 31, a fullwidth full stop, a superscript or circled
    digit and a zero-width space are not. *)
Example parse_float_unicode :
  let text (bytes : list Z) := string_of_list_ascii (map PyStr.char_of bytes) in
  PyStr.parse_float (text [217; 161; 217; 162]) = Some 12%float
  /\ PyStr.parse_float (text [194; 160; 49; 50; 226; 128; 131]) = Some 12%float
  /\ PyStr.parse_float (text [217; 163; 46; 217; 165; 101; 217; 161]) = Some 35%float
  /\ PyStr.parse_float (text [239; 188; 145; 239; 188; 146]) = Some 12%float
  /\ PyStr.parse_float (text [240; 157; 159; 142; 240; 157; 159; 153]) = Some 1%float
  /\ PyStr.parse_float (text [217; 161; 95; 217; 162]) = Some 12%float
  /\ PyStr.parse_float (text [194; 133; 49; 194; 133]) = Some 1%float
  /\ PyStr.parse_float (text [11; 49; 12]) = Some 1%float
  /\ Forall (fun bytes => PyStr.parse_float (text bytes) = None)
       [ [28; 49]; [49; 31]; [32; 49; 127]; [49; 50; 195; 169]; [195; 169; 49; 50];
         [239; 188; 145; 239; 188; 146; 239; 188; 142; 239; 188; 149];
         [49; 226; 128; 139]; [194; 178]; [226; 145; 160]; [224; 188; 179] ].
Proof.
  intros text.
  do 8 (split; [vm_compute; reflexivity|]).
  repeat (constructor; [vm_compute; reflexivity|]). constructor.
Qed.

Example parse_float_rounds :
  PyStr.parse_float "9007199254740993" = Some 9007199254740992%float
  /\ PyStr.parse_float "1.7976931348623157e308" = Some 1.7976931348623157e308%float
  /\ PyStr.parse_float "1.7976931348623159e308" = Some infinity
  /\ PyStr.parse_float "1e400" = Some infinity
  /\ PyStr.parse_float "4.9e-324" = Some 4.9406564584124654e-324%float
  /\ PyStr.parse_float "2.4703282292062327e-324" = Some 0%float
  /\ PyStr.parse_float "2.4703282292062328e-324" = Some 4.9406564584124654e-324%float.
Proof. vm_compute. repeat split. Qed.

(** ** The result monad *)

Lemma bind_Ok {A B : Type} (m : result A) (k : A -> result B) (v : B) :
  bind m k = Ok v -> exists a, m = Ok a /\ k a = Ok v.
Proof. destruct m as [a|e]; cbn; [eauto | discriminate]. Qed.

Ltac bind_inv H :=
  let a := fresh "a" in
  let E := fresh "E" in
  apply bind_Ok in H as (a & E & H).

(** ** Dicts *)

Lemma dict_get_set {V : Type} (d : dict V) (k k' : string) (v : V) :
  dict_get (dict_set d k v) k' = if String.eqb k' k then Some v else dict_get d k'.
Proof.
  induction d as [|[k0 v0] d IH]; cbn; [reflexivity|].
  destruct (String.eqb k k0) eqn:E; cbn.
  - apply String.eqb_eq in E as ->. destruct (String.eqb k' k0); reflexivity.
  - rewrite IH. destruct (String.eqb k' k0) eqn:E0; [|reflexivity].
    apply String.eqb_eq in E0 as ->. now rewrite String.eqb_sym, E.
Qed.

Lemma dict_get_None {V : Type} (d : dict V) (k : string) :
  dict_get d k = None <-> k ∉ dict_keys d.
Proof.
  unfold dict_keys. induction d as [|[k0 v0] d IH]; cbn.
  - split; [intros _; apply not_elem_of_nil | reflexivity].
  - rewrite not_elem_of_cons. destruct (String.eqb k k0) eqn:E.
    + apply String.eqb_eq in E as ->. split; [discriminate | intros [[] _]; reflexivity].
    + apply String.eqb_neq in E. rewrite IH. tauto.
Qed.

Lemma dict_keys_set_new {V : Type} (d : dict V) (k : string) (v : V) :
  k ∉ dict_keys d -> dict_set d k v = d ++ [(k, v)].
Proof.
  unfold dict_keys. induction d as [|[k0 v0] d IH]; cbn; [reflexivity|].
  rewrite not_elem_of_cons. intros [Hne Hnot].
  apply String.eqb_neq in Hne. rewrite Hne. now rewrite IH.
Qed.

(** A loop that stores [f n] under every name [n] of [names]. *)
Lemma foldl_dict_set_get {V : Type} (f : string -> V) (names : list string)
    (acc : dict V) (n : string) :
  dict_get (foldl (fun d n => dict_set d n (f n)) acc names) n
  = if bool_decide (n ∈ names) then Some (f n) else dict_get acc n.
Proof.
  revert acc. induction names as [|m names IH]; intros acc; cbn; [reflexivity|].
  rewrite IH, dict_get_set.
  destruct (bool_decide (n ∈ names)) eqn:E.
  - apply bool_decide_eq_true in E.
    rewrite bool_decide_eq_true_2 by now apply list_elem_of_further. reflexivity.
  - apply bool_decide_eq_false in E.
    destruct (String.eqb n m) eqn:E0.
    + apply String.eqb_eq in E0 as ->.
      rewrite bool_decide_eq_true_2 by apply list_elem_of_here. reflexivity.
    + apply String.eqb_neq in E0.
      rewrite bool_decide_eq_false_2; [reflexivity|].
      rewrite elem_of_cons. tauto.
Qed.

Lemma foldl_dict_set_keys {V : Type} (f : string -> V) (names : list string)
    (acc : dict V) :
  NoDup (dict_keys acc ++ names) ->
  foldl (fun d n => dict_set d n (f n)) acc names
  = acc ++ map (fun n => (n, f n)) names.
Proof.
  revert acc. induction names as [|m names IH]; intros acc Hnd; cbn.
  - now rewrite app_nil_r.
  - apply NoDup_app in Hnd as (Hacc & Hdisj & Hnames).
    apply NoDup_cons in Hnames as [Hm Hnames].
    rewrite dict_keys_set_new by (intros Hin; apply (Hdisj m Hin), list_elem_of_here).
    rewrite IH.
    + now rewrite <- app_assoc.
    + unfold dict_keys in *. rewrite fmap_app. cbn. rewrite <- app_assoc. cbn.
      apply NoDup_app. split; [exact Hacc|]. split.
      * intros x Hx Hx'. apply elem_of_cons in Hx' as [-> | Hx'].
        -- apply (Hdisj m Hx), list_elem_of_here.
        -- apply (Hdisj x Hx). now apply list_elem_of_further.
      * now apply NoDup_cons.
Qed.

(** ** Ingestion cache *)

Section CacheFacts.

Import FplData.

(** The expiry test at the one-hour boundary, for a cache stamped on
    2026-01-01 00:00:00 UTC. *)
Example expiry_boundary :
  let stamp := 1767225600000000 in
  older_than_expiry (stamp + 3600000000) stamp = false
  /\ older_than_expiry (stamp + 3600000001) stamp = true
  /\ older_than_expiry (stamp + 3599999999) stamp = false
  /\ older_than_expiry (stamp - 5) stamp = false.
Proof. vm_compute. repeat split. Qed.

(** A fresh, non-empty bootstrap snapshot is served from the cache. *)
Lemma bootstrap_hit (w : World) (call : Call) (payload : pyval) (stamp : Z) :
  bootstrap_data (data_cache w) = Some payload ->
  py_truthy payload = true ->
  bootstrap_timestamp (data_cache w) = Some stamp ->
  older_than_expiry (now call) stamp = false ->
  get_bootstrap_data call w = (Ok payload, w).
Proof.
  intros Hdata Htruthy Hstamp Hfresh.
  unfold get_bootstrap_data, is_bootstrap_expired.
  rewrite Hdata, Hstamp, Htruthy, Hfresh.
  reflexivity.
Qed.

(** An expired (or absent) bootstrap snapshot costs exactly one request; the
    answer is stored before the assertion on it is made. *)
Lemma bootstrap_refresh (w : World) (call : Call) (payload : pyval) :
  is_bootstrap_expired (data_cache w) (now call) = true ->
  response call = Ok payload ->
  get_bootstrap_data call w
  = (assert_not_None payload,
     mkWorld (mkCache (Some payload) (Some (received call))
                (fixtures_data (data_cache w)) (fixtures_timestamp (data_cache w))
                (player_details_cache (data_cache w))
                (player_details_timestamp (data_cache w)))
       (requests w ++ [BOOTSTRAP_URL])).
Proof.
  intros Hexp Hresp. unfold get_bootstrap_data.
  rewrite Hexp, Hresp.
  destruct (bootstrap_data (data_cache w)); [rewrite andb_false_r|]; reflexivity.
Qed.

Lemma fixtures_hit (w : World) (call : Call) (payload : pyval) (stamp : Z) :
  fixtures_data (data_cache w) = Some payload ->
  py_truthy payload = true ->
  fixtures_timestamp (data_cache w) = Some stamp ->
  older_than_expiry (now call) stamp = false ->
  get_fixtures_data call w = (Ok payload, w).
Proof.
  intros Hdata Htruthy Hstamp Hfresh.
  unfold get_fixtures_data, is_fixtures_expired.
  rewrite Hdata, Hstamp, Htruthy, Hfresh.
  reflexivity.
Qed.

Lemma fixtures_refresh (w : World) (call : Call) (payload : pyval) :
  is_fixtures_expired (data_cache w) (now call) = true ->
  response call = Ok payload ->
  get_fixtures_data call w
  = (assert_not_None payload,
     mkWorld (mkCache (bootstrap_data (data_cache w))
                (bootstrap_timestamp (data_cache w))
                (Some payload) (Some (received call))
                (player_details_cache (data_cache w))
                (player_details_timestamp (data_cache w)))
       (requests w ++ [FIXTURES_URL])).
Proof.
  intros Hexp Hresp. unfold get_fixtures_data.
  rewrite Hexp, Hresp.
  destruct (fixtures_data (data_cache w)); [rewrite andb_false_r|]; reflexivity.
Qed.

Lemma player_hit (w : World) (call : Call) (player_id : Z) (payload : pyval)
    (stamp : Z) :
  player_details_cache (data_cache w) !! player_id = Some payload ->
  player_details_timestamp (data_cache w) !! player_id = Some stamp ->
  older_than_expiry (now call) stamp = false ->
  get_player_detail_data player_id call w = (Ok payload, w).
Proof.
  intros Hdata Hstamp Hfresh.
  unfold get_player_detail_data, is_player_details_expired.
  rewrite Hdata, Hstamp, Hfresh.
  reflexivity.
Qed.

Lemma player_refresh (w : World) (call : Call) (player_id : Z) (payload : pyval) :
  is_player_details_expired (data_cache w) player_id (now call) = true ->
  response call = Ok payload ->
  get_player_detail_data player_id call w
  = (Ok payload,
     mkWorld (mkCache (bootstrap_data (data_cache w))
                (bootstrap_timestamp (data_cache w))
                (fixtures_data (data_cache w)) (fixtures_timestamp (data_cache w))
                (<[player_id := payload]> (player_details_cache (data_cache w)))
                (<[player_id := received call]>
                   (player_details_timestamp (data_cache w))))
       (requests w ++ [player_detail_url player_id])).
Proof.
  intros Hexp Hresp. unfold get_player_detail_data.
  rewrite Hexp, Hresp. cbn [negb].
  destruct (player_details_cache (data_cache w) !! player_id); reflexivity.
Qed.

(** The assertion lets every payload through but [None]. *)
Lemma assert_not_None_cases (payload : pyval) :
  (payload <> VNone -> assert_not_None payload = Ok payload)
  /\ (payload = VNone -> assert_not_None payload = Raise AssertionError).
Proof.
  split; [|intros ->; reflexivity].
  destruct payload; intros H; try reflexivity. now destruct H.
Qed.

(** What a call for the bootstrap snapshot can leave of the cache. *)
Lemma bootstrap_call_cache (w : World) (call : Call) :
  let c := data_cache w in
  let c' := data_cache (get_bootstrap_data call w).2 in
  c' = c
  \/ exists payload,
       c' = mkCache (Some payload) (Some (received call))
              (fixtures_data c) (fixtures_timestamp c)
              (player_details_cache c) (player_details_timestamp c).
Proof.
  intros c c'. unfold c', c, get_bootstrap_data.
  destruct (bootstrap_data (data_cache w)) as [v|];
    [destruct (py_truthy v && negb _)|]; cbn; try (left; reflexivity);
    destruct (response call); cbn; eauto.
Qed.

Lemma fixtures_call_cache (w : World) (call : Call) :
  let c := data_cache w in
  let c' := data_cache (get_fixtures_data call w).2 in
  c' = c
  \/ exists payload,
       c' = mkCache (bootstrap_data c) (bootstrap_timestamp c)
              (Some payload) (Some (received call))
              (player_details_cache c) (player_details_timestamp c).
Proof.
  intros c c'. unfold c', c, get_fixtures_data.
  destruct (fixtures_data (data_cache w)) as [v|];
    [destruct (py_truthy v && negb _)|]; cbn; try (left; reflexivity);
    destruct (response call); cbn; eauto.
Qed.

Lemma player_call_cache (w : World) (call : Call) (player_id : Z) :
  let c := data_cache w in
  let c' := data_cache (get_player_detail_data player_id call w).2 in
  c' = c
  \/ exists payload,
       c' = mkCache (bootstrap_data c) (bootstrap_timestamp c)
              (fixtures_data c) (fixtures_timestamp c)
              (<[player_id := payload]> (player_details_cache c))
              (<[player_id := received call]> (player_details_timestamp c)).
Proof.
  intros c c'. unfold c', c, get_player_detail_data.
  destruct (player_details_cache (data_cache w) !! player_id);
    [destruct (negb _)|]; cbn; try (left; reflexivity);
    destruct (response call); cbn; eauto.
Qed.

(** A snapshot whose cached payload is empty is asked for again, whatever
    its age. *)
Lemma bootstrap_empty_refetch (w : World) (call : Call) (v : pyval) :
  bootstrap_data (data_cache w) = Some v ->
  py_truthy v = false ->
  requests (get_bootstrap_data call w).2 = requests w ++ [BOOTSTRAP_URL].
Proof.
  intros Hdata Hfalsy. unfold get_bootstrap_data. rewrite Hdata, Hfalsy.
  cbn [andb]. destruct (response call); reflexivity.
Qed.

Lemma fixtures_empty_refetch (w : World) (call : Call) (v : pyval) :
  fixtures_data (data_cache w) = Some v ->
  py_truthy v = false ->
  requests (get_fixtures_data call w).2 = requests w ++ [FIXTURES_URL].
Proof.
  intros Hdata Hfalsy. unfold get_fixtures_data. rewrite Hdata, Hfalsy.
  cbn [andb]. destruct (response call); reflexivity.
Qed.

(** A call that finds its entry expired or absent sends one request
    whatever the provider answers, and a failed request leaves the cache as
    it was. *)
Lemma expired_sends_one_request (w : World) (call : Call) (player_id : Z) :
  (is_bootstrap_expired (data_cache w) (now call) = true ->
   requests (get_bootstrap_data call w).2 = requests w ++ [BOOTSTRAP_URL])
  /\ (is_fixtures_expired (data_cache w) (now call) = true ->
      requests (get_fixtures_data call w).2 = requests w ++ [FIXTURES_URL])
  /\ (is_player_details_expired (data_cache w) player_id (now call) = true ->
      requests (get_player_detail_data player_id call w).2
      = requests w ++ [player_detail_url player_id]).
Proof.
  split; [|split]; intros Hexp.
  - unfold get_bootstrap_data. rewrite Hexp.
    destruct (bootstrap_data (data_cache w)); [rewrite andb_false_r|];
      destruct (response call); reflexivity.
  - unfold get_fixtures_data. rewrite Hexp.
    destruct (fixtures_data (data_cache w)); [rewrite andb_false_r|];
      destruct (response call); reflexivity.
  - unfold get_player_detail_data. rewrite Hexp. cbn [negb].
    destruct (player_details_cache (data_cache w) !! player_id);
      destruct (response call); reflexivity.
Qed.

Lemma failed_request_keeps_cache (w : World) (call : Call) (player_id : Z) (e : exn) :
  response call = Raise e ->
  data_cache (get_bootstrap_data call w).2 = data_cache w
  /\ data_cache (get_fixtures_data call w).2 = data_cache w
  /\ data_cache (get_player_detail_data player_id call w).2 = data_cache w.
Proof.
  intros Hresp. unfold get_bootstrap_data, get_fixtures_data, get_player_detail_data.
  rewrite Hresp. split; [|split].
  - destruct (bootstrap_data (data_cache w)) as [v|];
      [destruct (py_truthy v && negb _)|]; reflexivity.
  - destruct (fixtures_data (data_cache w)) as [v|];
      [destruct (py_truthy v && negb _)|]; reflexivity.
  - destruct (player_details_cache (data_cache w) !! player_id);
      [destruct (negb _)|]; reflexivity.
Qed.

End CacheFacts.

(** C8 (as amended).  A player-detail entry, and a bootstrap or fixtures
    snapshot whose payload is not empty, is returned from the cache without
    a request to the provider while its age does not exceed the one-hour
    expiry.  Once it does, or when there is no entry, a call sends exactly
    one request and stores the new payload with the time of its arrival; the
    payload is returned, except that a [None] snapshot, once stored, fails
    the function's assertion.  The one request is sent whatever the provider
    answers, and a failed request leaves the cache as it was.  Expiry is
    independent per resource: a call for
    the bootstrap snapshot, for the fixtures snapshot or for one player
    leaves the entry and the expiry of every other resource as they were.
    A snapshot whose cached payload is empty is asked for again on every
    call, whatever its age. *)
Theorem cache_hit_and_refresh :
  (forall (w : FplData.World) (call : FplData.Call) (payload : pyval) (stamp : Z),
      FplData.bootstrap_data (FplData.data_cache w) = Some payload ->
      py_truthy payload = true ->
      FplData.bootstrap_timestamp (FplData.data_cache w) = Some stamp ->
      FplData.older_than_expiry (FplData.now call) stamp = false ->
      FplData.get_bootstrap_data call w = (Ok payload, w))
  /\ (forall (w : FplData.World) (call : FplData.Call) (payload : pyval),
         FplData.is_bootstrap_expired (FplData.data_cache w) (FplData.now call) = true ->
         FplData.response call = Ok payload ->
         let out := FplData.get_bootstrap_data call w in
         (payload <> VNone -> out.1 = Ok payload)
         /\ (payload = VNone -> out.1 = Raise AssertionError)
         /\ FplData.requests out.2 = FplData.requests w ++ [FplData.BOOTSTRAP_URL]
         /\ FplData.bootstrap_data (FplData.data_cache out.2) = Some payload
         /\ FplData.bootstrap_timestamp (FplData.data_cache out.2)
            = Some (FplData.received call))
  /\ (forall (w : FplData.World) (call : FplData.Call) (payload : pyval) (stamp : Z),
         FplData.fixtures_data (FplData.data_cache w) = Some payload ->
         py_truthy payload = true ->
         FplData.fixtures_timestamp (FplData.data_cache w) = Some stamp ->
         FplData.older_than_expiry (FplData.now call) stamp = false ->
         FplData.get_fixtures_data call w = (Ok payload, w))
  /\ (forall (w : FplData.World) (call : FplData.Call) (payload : pyval),
         FplData.is_fixtures_expired (FplData.data_cache w) (FplData.now call) = true ->
         FplData.response call = Ok payload ->
         let out := FplData.get_fixtures_data call w in
         (payload <> VNone -> out.1 = Ok payload)
         /\ (payload = VNone -> out.1 = Raise AssertionError)
         /\ FplData.requests out.2 = FplData.requests w ++ [FplData.FIXTURES_URL]
         /\ FplData.fixtures_data (FplData.data_cache out.2) = Some payload
         /\ FplData.fixtures_timestamp (FplData.data_cache out.2)
            = Some (FplData.received call))
  /\ (forall (w : FplData.World) (call : FplData.Call) (player_id : Z)
             (payload : pyval) (stamp : Z),
         FplData.player_details_cache (FplData.data_cache w) !! player_id = Some payload ->
         FplData.player_details_timestamp (FplData.data_cache w) !! player_id = Some stamp ->
         FplData.older_than_expiry (FplData.now call) stamp = false ->
         FplData.get_player_detail_data player_id call w = (Ok payload, w))
  /\ (forall (w : FplData.World) (call : FplData.Call) (player_id : Z)
             (payload : pyval),
         FplData.is_player_details_expired (FplData.data_cache w) player_id
           (FplData.now call) = true ->
         FplData.response call = Ok payload ->
         let out := FplData.get_player_detail_data player_id call w in
         out.1 = Ok payload
         /\ FplData.requests out.2
            = FplData.requests w ++ [FplData.player_detail_url player_id]
         /\ FplData.player_details_cache (FplData.data_cache out.2) !! player_id
            = Some payload
         /\ FplData.player_details_timestamp (FplData.data_cache out.2) !! player_id
            = Some (FplData.received call))
  /\ (forall (w : FplData.World) (call again : FplData.Call) (payload : pyval),
         FplData.is_bootstrap_expired (FplData.data_cache w) (FplData.now call) = true ->
         FplData.response call = Ok payload ->
         py_truthy payload = true ->
         FplData.older_than_expiry (FplData.now again) (FplData.received call) = false ->
         let first := FplData.get_bootstrap_data call w in
         let second := FplData.get_bootstrap_data again first.2 in
         first.1 = Ok payload
         /\ second.1 = Ok payload
         /\ FplData.requests second.2 = FplData.requests w ++ [FplData.BOOTSTRAP_URL])
  /\ (forall (w : FplData.World) (call again : FplData.Call) (payload : pyval),
         FplData.is_fixtures_expired (FplData.data_cache w) (FplData.now call) = true ->
         FplData.response call = Ok payload ->
         py_truthy payload = true ->
         FplData.older_than_expiry (FplData.now again) (FplData.received call) = false ->
         let first := FplData.get_fixtures_data call w in
         let second := FplData.get_fixtures_data again first.2 in
         first.1 = Ok payload
         /\ second.1 = Ok payload
         /\ FplData.requests second.2 = FplData.requests w ++ [FplData.FIXTURES_URL])
  /\ (forall (w : FplData.World) (call again : FplData.Call) (player_id : Z)
             (payload : pyval),
         FplData.is_player_details_expired (FplData.data_cache w) player_id
           (FplData.now call) = true ->
         FplData.response call = Ok payload ->
         FplData.older_than_expiry (FplData.now again) (FplData.received call) = false ->
         let first := FplData.get_player_detail_data player_id call w in
         let second := FplData.get_player_detail_data player_id again first.2 in
         second.1 = Ok payload
         /\ FplData.requests second.2
            = FplData.requests w ++ [FplData.player_detail_url player_id])
  /\ (forall (w : FplData.World) (call : FplData.Call) (player_id other : Z),
         other <> player_id ->
         let c := FplData.data_cache w in
         let c' := FplData.data_cache (FplData.get_player_detail_data player_id call w).2 in
         FplData.player_details_cache c' !! other = FplData.player_details_cache c !! other
         /\ FplData.player_details_timestamp c' !! other
            = FplData.player_details_timestamp c !! other
         /\ (forall t : Z, FplData.is_player_details_expired c' other t
                           = FplData.is_player_details_expired c other t)
         /\ FplData.bootstrap_data c' = FplData.bootstrap_data c
         /\ FplData.bootstrap_timestamp c' = FplData.bootstrap_timestamp c
         /\ FplData.fixtures_data c' = FplData.fixtures_data c
         /\ FplData.fixtures_timestamp c' = FplData.fixtures_timestamp c)
  /\ (forall (w : FplData.World) (call : FplData.Call),
         let c := FplData.data_cache w in
         let c' := FplData.data_cache (FplData.get_bootstrap_data call w).2 in
         FplData.fixtures_data c' = FplData.fixtures_data c
         /\ FplData.fixtures_timestamp c' = FplData.fixtures_timestamp c
         /\ (forall t : Z, FplData.is_fixtures_expired c' t
                           = FplData.is_fixtures_expired c t)
         /\ FplData.player_details_cache c' = FplData.player_details_cache c
         /\ FplData.player_details_timestamp c' = FplData.player_details_timestamp c
         /\ (forall (p t : Z), FplData.is_player_details_expired c' p t
                               = FplData.is_player_details_expired c p t))
  /\ (forall (w : FplData.World) (call : FplData.Call),
         let c := FplData.data_cache w in
         let c' := FplData.data_cache (FplData.get_fixtures_data call w).2 in
         FplData.bootstrap_data c' = FplData.bootstrap_data c
         /\ FplData.bootstrap_timestamp c' = FplData.bootstrap_timestamp c
         /\ (forall t : Z, FplData.is_bootstrap_expired c' t
                           = FplData.is_bootstrap_expired c t)
         /\ FplData.player_details_cache c' = FplData.player_details_cache c
         /\ FplData.player_details_timestamp c' = FplData.player_details_timestamp c
         /\ (forall (p t : Z), FplData.is_player_details_expired c' p t
                               = FplData.is_player_details_expired c p t))
  /\ (forall (w : FplData.World) (call : FplData.Call) (v : pyval),
         FplData.bootstrap_data (FplData.data_cache w) = Some v ->
         py_truthy v = false ->
         FplData.requests (FplData.get_bootstrap_data call w).2
         = FplData.requests w ++ [FplData.BOOTSTRAP_URL])
  /\ (forall (w : FplData.World) (call : FplData.Call) (v : pyval),
         FplData.fixtures_data (FplData.data_cache w) = Some v ->
         py_truthy v = false ->
         FplData.requests (FplData.get_fixtures_data call w).2
         = FplData.requests w ++ [FplData.FIXTURES_URL])
  /\ (forall (w : FplData.World) (call : FplData.Call) (player_id : Z),
         (FplData.is_bootstrap_expired (FplData.data_cache w) (FplData.now call) = true ->
          FplData.requests (FplData.get_bootstrap_data call w).2
          = FplData.requests w ++ [FplData.BOOTSTRAP_URL])
         /\ (FplData.is_fixtures_expired (FplData.data_cache w) (FplData.now call) = true ->
             FplData.requests (FplData.get_fixtures_data call w).2
             = FplData.requests w ++ [FplData.FIXTURES_URL])
         /\ (FplData.is_player_details_expired (FplData.data_cache w) player_id
               (FplData.now call) = true ->
             FplData.requests (FplData.get_player_detail_data player_id call w).2
             = FplData.requests w ++ [FplData.player_detail_url player_id]))
  /\ (forall (w : FplData.World) (call : FplData.Call) (player_id : Z) (e : exn),
         FplData.response call = Raise e ->
         FplData.data_cache (FplData.get_bootstrap_data call w).2 = FplData.data_cache w
         /\ FplData.data_cache (FplData.get_fixtures_data call w).2 = FplData.data_cache w
         /\ FplData.data_cache (FplData.get_player_detail_data player_id call w).2
            = FplData.data_cache w).
Proof.
  assert (Htruthy : forall payload, py_truthy payload = true -> payload <> VNone)
    by (intros payload H ->; discriminate).
  split; [exact bootstrap_hit|].
  split. { intros w call payload He Hr. rewrite (bootstrap_refresh w call payload He Hr).
           cbn [fst snd FplData.requests FplData.data_cache FplData.bootstrap_data
                FplData.bootstrap_timestamp].
           pose proof (assert_not_None_cases payload) as [Hok Hnone]. auto. }
  split; [exact fixtures_hit|].
  split. { intros w call payload He Hr. rewrite (fixtures_refresh w call payload He Hr).
           cbn [fst snd FplData.requests FplData.data_cache FplData.fixtures_data
                FplData.fixtures_timestamp].
           pose proof (assert_not_None_cases payload) as [Hok Hnone]. auto. }
  split; [exact player_hit|].
  split. { intros w call player_id payload He Hr.
           rewrite (player_refresh w call player_id payload He Hr). cbn.
           rewrite !lookup_insert_eq. auto. }
  split. { intros w call again payload He Hr Ht Hfresh first second.
           unfold second, first. rewrite (bootstrap_refresh w call payload He Hr).
           cbn [fst snd].
           destruct (assert_not_None_cases payload) as [Hok _].
           split; [now apply Hok, Htruthy|].
           erewrite bootstrap_hit; [split; reflexivity | | | |];
             cbn; try reflexivity; assumption. }
  split. { intros w call again payload He Hr Ht Hfresh first second.
           unfold second, first. rewrite (fixtures_refresh w call payload He Hr).
           cbn [fst snd].
           destruct (assert_not_None_cases payload) as [Hok _].
           split; [now apply Hok, Htruthy|].
           erewrite fixtures_hit; [split; reflexivity | | | |];
             cbn; try reflexivity; assumption. }
  split. { intros w call again player_id payload He Hr Hfresh first second.
           unfold second, first. rewrite (player_refresh w call player_id payload He Hr).
           cbn [snd]. erewrite player_hit; [split; reflexivity | | |];
             cbn; rewrite ?lookup_insert_eq; try reflexivity; assumption. }
  split. { intros w call player_id other Hne c c'.
           destruct (player_call_cache w call player_id) as [Hc | [payload Hc]];
             fold c c' in Hc; rewrite Hc; [repeat split; reflexivity|].
           cbn. unfold FplData.is_player_details_expired. cbn.
           rewrite !lookup_insert_ne by congruence. repeat split; reflexivity. }
  split. { intros w call c c'.
           destruct (bootstrap_call_cache w call) as [Hc | [payload Hc]];
             fold c c' in Hc; rewrite Hc; repeat split; reflexivity. }
  split. { intros w call c c'.
           destruct (fixtures_call_cache w call) as [Hc | [payload Hc]];
             fold c c' in Hc; rewrite Hc; repeat split; reflexivity. }
  split; [exact bootstrap_empty_refetch|].
  split; [exact fixtures_empty_refetch|].
  split; [exact expired_sends_one_request | exact failed_request_keeps_cache].
Qed.

Lemma cache_hit_and_refresh_witness :
  let snapshot := VDict [("events", VList [])]%string in
  let newer := VDict [("events", VList [VInt 1])]%string in
  let w0 := FplData.mkWorld FplData.empty_cache [] in
  let w1 := (FplData.get_bootstrap_data (FplData.mkCall 0 (Ok snapshot) 5) w0).2 in
  FplData.requests w1 = [FplData.BOOTSTRAP_URL]
  /\ FplData.get_bootstrap_data (FplData.mkCall 3600000005 (Ok newer) 3600000009) w1
     = (Ok snapshot, w1)
  /\ (FplData.get_bootstrap_data (FplData.mkCall 3600000006 (Ok newer) 3600000009) w1).1
     = Ok newer
  /\ FplData.requests
       (FplData.get_bootstrap_data (FplData.mkCall 3600000006 (Ok newer) 3600000009) w1).2
     = [FplData.BOOTSTRAP_URL; FplData.BOOTSTRAP_URL]
  /\ (FplData.get_fixtures_data (FplData.mkCall 7 (Ok VNone) 8) w1).1
     = Raise AssertionError
  /\ FplData.bootstrap_data
       (FplData.data_cache (FplData.get_fixtures_data (FplData.mkCall 7 (Ok VNone) 8) w1).2)
     = Some snapshot.
Proof.
  intros snapshot newer w0 w1.
  destruct cache_hit_and_refresh
    as (Hhit & Hrefresh & _ & Hfixtures & _ & _ & _ & _ & _ & _ & _ & Hframe & _).
  destruct (Hrefresh w0 (FplData.mkCall 0 (Ok snapshot) 5) snapshot eq_refl eq_refl)
    as (_ & _ & Hreq1 & Hdata1 & Hstamp1).
  fold w1 in Hreq1, Hdata1, Hstamp1.
  split; [exact Hreq1|]. split.
  { apply (Hhit w1 _ snapshot 5 Hdata1 eq_refl Hstamp1). vm_compute. reflexivity. }
  destruct (Hrefresh w1 (FplData.mkCall 3600000006 (Ok newer) 3600000009) newer)
    as (Hres & _ & Hreq & _).
  { unfold FplData.is_bootstrap_expired. rewrite Hstamp1. vm_compute. reflexivity. }
  { reflexivity. }
  split; [apply Hres; discriminate|].
  split; [rewrite Hreq, Hreq1; reflexivity|].
  destruct (Hfixtures w1 (FplData.mkCall 7 (Ok VNone) 8) VNone eq_refl eq_refl)
    as (_ & Hnone & _).
  split; [exact (Hnone eq_refl)|].
  destruct (Hframe w1 (FplData.mkCall 7 (Ok VNone) 8)) as (Hboot & _).
  rewrite Hboot. exact Hdata1.
Defined.

(** C8 fails as stated for an empty payload: an empty bootstrap object, four
    microseconds old, is fetched again. *)
Lemma cache_empty_payload_counterexample :
  let w0 := FplData.mkWorld FplData.empty_cache [] in
  let first := FplData.get_bootstrap_data (FplData.mkCall 0 (Ok (VDict [])) 1) w0 in
  let second := FplData.get_bootstrap_data (FplData.mkCall 5 (Ok (VDict [])) 6) first.2 in
  first.1 = Ok (VDict [])
  /\ FplData.bootstrap_timestamp (FplData.data_cache first.2) = Some 1
  /\ FplData.older_than_expiry 5 1 = false
  /\ second.1 = Ok (VDict [])
  /\ FplData.requests second.2 = [FplData.BOOTSTRAP_URL; FplData.BOOTSTRAP_URL].
Proof. vm_compute. repeat split. Qed.

(** ** Feature extraction: points per game *)

Lemma max1_int (n : Z) : PyNum.max1 (PyNum.NInt n) = PyNum.NInt (Z.max 1 n).
Proof.
  unfold PyNum.max1. cbn. destruct (1 <? n) eqn:E; f_equal; lia.
Qed.

Lemma per_game_int (x g : Z) :
  FeatureStandardizer.per_game (VInt x) (PyNum.NInt g)
  = if 0 <? g
    then (let* r := PyFloat.int_truediv x (Z.max 1 g) in Ok (PyNum.NFloat r))
    else Ok (PyNum.NInt 0).
Proof.
  unfold FeatureStandardizer.per_game. cbn [PyNum.gt].
  destruct (0 <? g); [|reflexivity].
  rewrite max1_int. reflexivity.
Qed.

Lemma dict_item_default {V : Type} (d : dict V) (k : string) (v dflt : V) :
  dict_item d k = Ok v -> dict_get_default d k dflt = v.
Proof.
  unfold dict_item, dict_get_default. destruct (dict_get d k); congruence.
Qed.

(** The entries that [games_with_minutes] keeps are the entries whose
    minutes exceed 0. *)
Lemma games_with_minutes_count (history kept : list pyval) :
  TrainingData.games_with_minutes history = Ok kept ->
  length kept
  = length (filter (fun g => TrainingData.has_minutes g = true) history).
Proof.
  revert kept. induction history as [|g history IH]; intros kept H; cbn in H.
  - injection H as <-. reflexivity.
  - bind_inv H. bind_inv H. injection H as <-.
    destruct a.
    + rewrite filter_cons_True by (unfold TrainingData.has_minutes; now rewrite E).
      cbn. f_equal. now apply IH.
    + rewrite filter_cons_False
        by (unfold TrainingData.has_minutes; rewrite E; discriminate).
      now apply IH.
Qed.
Lemma convert_points_per_game (player_data : dict pyval)
    (minutes total_points : Z) (features : dict float) :
  dict_get_default player_data "minutes" (VInt 0) = VInt minutes ->
  dict_get_default player_data "total_points" (VInt 0) = VInt total_points ->
  FeatureStandardizer.convert_player_to_features player_data = Ok features ->
  exists ppg : float,
    PyFloat.int_truediv total_points (Z.max 1 (minutes / 60)) = Ok ppg
    /\ dict_get features "points_per_game" = Some ppg.
Proof.
  intros Hm Htp H.
  unfold FeatureStandardizer.convert_player_to_features in H.
  rewrite Hm, Htp in H. cbn [PyNum.as_num bind] in H.
  unfold FeatureStandardizer.games_played in H.
  cbn [PyNum.floordiv Z.eqb bind] in H.
  rewrite max1_int, per_game_int in H.
  replace (0 <? Z.max 1 (minutes / 60)) with true in H by lia.
  replace (Z.max 1 (Z.max 1 (minutes / 60))) with (Z.max 1 (minutes / 60)) in H by lia.
  destruct (PyFloat.int_truediv total_points (Z.max 1 (minutes / 60)))
    as [ppg|] eqn:Hppg; cbn [bind] in H; [|discriminate H].
  exists ppg. split; [reflexivity|].
  repeat bind_inv H.
  injection H as <-. cbn [PyNum.to_float] in *.
  match goal with E : Ok ppg = Ok _ |- _ => injection E as <- end.
  reflexivity.
Qed.

Lemma process_points_per_game (py_str : pyval -> string)
    (player_data : dict pyval) (total_points : Z) (history : list pyval)
    (features : dict pyval) :
  dict_get_default player_data "total_points" (VInt 0) = VInt total_points ->
  dict_get_default player_data "history" (VList []) = VList history ->
  TrainingData.process_player_features py_str player_data = Ok features ->
  let games_played :=
    Z.of_nat (length (filter (fun g => TrainingData.has_minutes g = true) history)) in
  if games_played =? 0
  then dict_get features "points_per_game" = Some (VInt 0)
  else exists ppg : float,
      PyFloat.int_truediv total_points (Z.max 1 games_played) = Ok ppg
      /\ dict_get features "points_per_game" = Some (VFloat ppg).
Proof.
  intros Htp Hh H gp.
  unfold TrainingData.process_player_features in H.
  bind_inv H. bind_inv H.
  apply (dict_item_default _ _ _ (VInt 0)) in E0. rewrite Htp in E0. subst a0.
  rewrite Hh in H. cbn [TrainingData.py_iter bind] in H.
  bind_inv H.
  apply games_with_minutes_count in E0. rewrite E0 in H. fold gp in H.
  rewrite per_game_int in H.
  destruct (gp =? 0) eqn:Egp.
  - replace (0 <? gp) with false in H by lia. cbn [bind] in H.
    repeat bind_inv H. injection H as <-. reflexivity.
  - replace (0 <? gp) with true in H by lia.
    destruct (PyFloat.int_truediv total_points (Z.max 1 gp)) as [ppg|] eqn:Hppg;
      cbn [bind] in H; [|discriminate H].
    exists ppg. split; [reflexivity|].
    repeat bind_inv H. injection H as <-. reflexivity.
Qed.

(** C2 (as amended).  For a record whose [minutes] and [total_points] are
    integers: at inference time [games_played] is [max(1, minutes // 60)] and
    [points_per_game] is [total_points / games_played], never the 0 of the
    zero-games case; at training time [games_played] is the number of history
    entries with minutes above 0, and [points_per_game] is
    [total_points / max(1, games_played)], or 0 when [games_played] is 0. *)
Theorem points_per_game_by_path (player_data : dict pyval)
    (minutes total_points : Z) :
  dict_get_default player_data "minutes" (VInt 0) = VInt minutes ->
  dict_get_default player_data "total_points" (VInt 0) = VInt total_points ->
  (forall features : dict float,
      FeatureStandardizer.convert_player_to_features player_data = Ok features ->
      exists ppg : float,
        PyFloat.int_truediv total_points (Z.max 1 (minutes / 60)) = Ok ppg
        /\ dict_get features "points_per_game" = Some ppg)
  /\ (forall (py_str : pyval -> string) (history : list pyval)
             (features : dict pyval),
         dict_get_default player_data "history" (VList []) = VList history ->
         TrainingData.process_player_features py_str player_data = Ok features ->
         let games_played :=
           Z.of_nat (length (filter (fun g => TrainingData.has_minutes g = true)
                               history)) in
         if games_played =? 0
         then dict_get features "points_per_game" = Some (VInt 0)
         else exists ppg : float,
             PyFloat.int_truediv total_points (Z.max 1 games_played) = Ok ppg
             /\ dict_get features "points_per_game" = Some (VFloat ppg)).
Proof.
  intros Hm Htp. split.
  - intros features H.
    exact (convert_points_per_game player_data minutes total_points features Hm Htp H).
  - intros py_str history features Hh H.
    exact (process_points_per_game py_str player_data total_points history
             features Htp Hh H).
Qed.

Lemma points_per_game_by_path_witness :
  let player_data :=
    [ ("id", VInt 1); ("minutes", VInt 150); ("total_points", VInt 9);
      ("history", VList [ VDict [("minutes", VInt 90)]; VDict [("minutes", VInt 0)];
                          VDict [("minutes", VInt 60)] ]) ]%string in
  (exists features : dict float,
      FeatureStandardizer.convert_player_to_features player_data = Ok features
      /\ dict_get features "points_per_game" = Some 4.5%float)
  /\ (exists features : dict pyval,
         TrainingData.process_player_features (fun _ => EmptyString) player_data
         = Ok features
         /\ dict_get features "points_per_game" = Some (VFloat 4.5)).
Proof.
  intros player_data.
  destruct (points_per_game_by_path player_data 150 9 eq_refl eq_refl)
    as [Hinf Htrain].
  split.
  - destruct (FeatureStandardizer.convert_player_to_features player_data)
      as [features|] eqn:E; [|vm_compute in E; discriminate E].
    destruct (Hinf features eq_refl) as (ppg & Hppg & Hget).
    vm_compute in Hppg. injection Hppg as <-.
    exists features. split; [reflexivity | exact Hget].
  - destruct (TrainingData.process_player_features (fun _ => EmptyString) player_data)
      as [features|] eqn:E; [|vm_compute in E; discriminate E].
    specialize (Htrain (fun _ => EmptyString) _ features eq_refl E).
    vm_compute in Htrain. destruct Htrain as (ppg & Hppg & Hget).
    vm_compute in Hppg. injection Hppg as <-.
    exists features. split; [reflexivity | exact Hget].
Defined.

(** C2 fails as stated: with 30 minutes and 2 points the specification's
    [games_played] is [floor(30/60) = 0] and its [points_per_game] is 0, while
    the inference-time extractor returns 2.0. *)
Lemma points_per_game_counterexample :
  exists features : dict float,
    FeatureStandardizer.convert_player_to_features
      [("minutes", VInt 30); ("total_points", VInt 2)]%string = Ok features
    /\ dict_get features "points_per_game" = Some 2%float
    /\ Spec.points_per_game 2 (Spec.games_played_approx 30) = Ok 0%float
    /\ PrimFloat.eqb 2 0 = false.
Proof.
  eexists. split; [vm_compute; reflexivity|].
  vm_compute. repeat split.
Qed.

(** ** Feature extraction: ownership percentage *)

(** At inference time a string always yields a float: its value with [,] read
    as [.], or 0.0 when that does not parse. *)
Lemma ownership_of_string (s : string) :
  FeatureStandardizer.ownership_of (VStr s)
  = Ok (default 0%float (PyStr.parse_float (PyStr.replace_char "," "." s))).
Proof.
  unfold FeatureStandardizer.ownership_of, py_float.
  destruct (PyStr.parse_float _); reflexivity.
Qed.

(** At training time a string that does not parse raises [ValueError], and
    a value that is not a string raises [AttributeError]. *)
Lemma selected_by_percent_unhandled (player_data : dict pyval) :
  match dict_get_default player_data "selected_by_percent" (VStr "0.0") with
  | VStr s =>
      PyStr.parse_float (PyStr.replace_char "," "." s) = None ->
      TrainingData.selected_by_percent_of player_data = Raise ValueError
  | _ => TrainingData.selected_by_percent_of player_data = Raise AttributeError
  end.
Proof.
  unfold TrainingData.selected_by_percent_of.
  destruct (dict_get_default player_data "selected_by_percent" (VStr "0.0"));
    try reflexivity.
  intros Hparse. unfold py_float. now rewrite Hparse.
Qed.

Example ownership_comma_decimal :
  FeatureStandardizer.ownership_of (VStr "12,5") = Ok 12.5%float
  /\ TrainingData.selected_by_percent_of [("selected_by_percent", VStr "12,5")]%string
     = Ok 12.5%float.
Proof. vm_compute. split; reflexivity. Qed.

(** C7 (defect).  A record whose ownership string does not parse: the
    training-time extractor raises [ValueError] to its caller, where the
    inference-time extractor resolves the field to 0.0. *)
Theorem training_ownership_parse_failure_propagates :
  let player_data :=
    [ ("id", VInt 1); ("minutes", VInt 90); ("total_points", VInt 6);
      ("selected_by_percent", VStr "n/a") ]%string in
  (forall py_str : pyval -> string,
      TrainingData.process_player_features py_str player_data = Raise ValueError)
  /\ (exists features : dict float,
         FeatureStandardizer.convert_player_to_features player_data = Ok features
         /\ dict_get features "ownership_percentage" = Some 0%float).
Proof.
  split.
  - intros py_str. vm_compute. reflexivity.
  - eexists. split; vm_compute; reflexivity.
Qed.
(** ** Feature standardizer: reindexing *)

Section ReindexFacts.

Import FeatureStandardizer.

Lemma training_feature_names_NoDup : NoDup TRAINING_FEATURE_NAMES.
Proof. apply (bool_decide_unpack _). vm_compute. exact I. Qed.

Lemma convert_keys (player : dict pyval) (features : dict float) :
  convert_player_to_features player = Ok features ->
  dict_keys features = TRAINING_FEATURE_NAMES.
Proof.
  intros H. unfold convert_player_to_features in H.
  repeat bind_inv H. injection H as <-. reflexivity.
Qed.

Lemma default_features_keys : dict_keys default_features = TRAINING_FEATURE_NAMES.
Proof. vm_compute. reflexivity. Qed.

Lemma convert_all_keys (players : list (dict pyval)) (fl : list (dict float)) :
  convert_all players = Ok fl ->
  length fl = length players
  /\ Forall (fun f => dict_keys f = TRAINING_FEATURE_NAMES) fl.
Proof.
  revert fl. induction players as [|p ps IH]; intros fl H; cbn in H.
  - injection H as <-. split; [reflexivity | constructor].
  - bind_inv H. bind_inv H. injection H as <-.
    destruct (IH _ E0) as [Hlen Hall]. split; [cbn; now f_equal|].
    constructor; [eapply convert_keys; eassumption | exact Hall].
Qed.

Lemma add_columns_present (cols ks : list string) :
  (forall k, k ∈ ks -> k ∈ cols) -> foldl add_column cols ks = cols.
Proof.
  induction ks as [|k ks IH]; intros Hin; cbn; [reflexivity|].
  unfold add_column at 2.
  rewrite bool_decide_eq_true_2 by apply Hin, list_elem_of_here.
  apply IH. intros k' Hk'. now apply Hin, list_elem_of_further.
Qed.

Lemma add_columns_fresh (pre ks : list string) :
  NoDup (pre ++ ks) -> foldl add_column pre ks = pre ++ ks.
Proof.
  revert pre. induction ks as [|k ks IH]; intros pre Hnd; cbn.
  - now rewrite app_nil_r.
  - unfold add_column at 2.
    assert (Hk : k ∉ pre).
    { apply NoDup_app in Hnd as (_ & Hdisj & _).
      intros Hin. apply (Hdisj k Hin), list_elem_of_here. }
    rewrite bool_decide_eq_false_2 by exact Hk.
    rewrite IH; rewrite <- app_assoc; [reflexivity | exact Hnd].
Qed.

Lemma frame_columns (K : list string) (records : list (dict float)) :
  NoDup K -> Forall (fun f => dict_keys f = K) records ->
  record_columns records = match records with [] => [] | _ => K end.
Proof.
  intros HK Hall. unfold record_columns.
  destruct Hall as [|f records Hf Hall]; [reflexivity|].
  cbn. rewrite Hf, (add_columns_fresh [] K) by exact HK. cbn.
  induction Hall as [|g records Hg Hall IH]; [reflexivity|].
  cbn. rewrite Hg, add_columns_present by auto. exact IH.
Qed.

Lemma cell_map (g : string -> float) (cols : list string) (n : string) :
  cell cols (map g cols) n = if bool_decide (n ∈ cols) then Some (g n) else None.
Proof.
  unfold cell. induction cols as [|c cols IH]; cbn; [reflexivity|].
  destruct (String.eqb n c) eqn:E.
  - apply String.eqb_eq in E as ->.
    now rewrite bool_decide_eq_true_2 by apply list_elem_of_here.
  - apply String.eqb_neq in E. rewrite IH.
    destruct (bool_decide (n ∈ cols)) eqn:E0.
    + apply bool_decide_eq_true in E0.
      now rewrite bool_decide_eq_true_2 by now apply list_elem_of_further.
    + apply bool_decide_eq_false in E0.
      rewrite bool_decide_eq_false_2; [reflexivity|].
      rewrite elem_of_cons. tauto.
Qed.

Lemma reindexed_row (names : list string) (f : dict float) :
  map (fun n => default 0%float
                  (cell (dict_keys f)
                     (map (fun c => dict_get_default f c nan) (dict_keys f)) n))
      names
  = conformed names f.
Proof.
  unfold conformed. apply map_ext. intros n. rewrite cell_map.
  unfold dict_get_default.
  destruct (bool_decide (n ∈ dict_keys f)) eqn:E; cbn.
  - apply bool_decide_eq_true in E.
    destruct (dict_get f n) eqn:Hget; [reflexivity|].
    now apply dict_get_None in Hget.
  - apply bool_decide_eq_false in E. apply dict_get_None in E. now rewrite E.
Qed.

Lemma reindex_frame (names : list string) (records : list (dict float)) :
  Forall (fun f => dict_keys f = TRAINING_FEATURE_NAMES) records ->
  reindex_columns (frame_of_records records) names
  = mkDataFrame names (map (conformed names) records).
Proof.
  intros Hall. unfold reindex_columns, frame_of_records. cbn [columns rows].
  f_equal. rewrite map_map.
  rewrite (frame_columns TRAINING_FEATURE_NAMES _ training_feature_names_NoDup Hall).
  destruct records as [|f0 records0] eqn:Hrec; [reflexivity|].
  rewrite <- Hrec in *. clear Hrec f0 records0.
  induction Hall as [|f records Hf Hall IH]; [reflexivity|].
  cbn [map]. f_equal; [|exact IH].
  rewrite <- Hf. apply reindexed_row.
Qed.

Lemma convert_all_or_default_total (players : list (dict pyval)) :
  convert_all_or_default players = Ok (map features_or_default players).
Proof.
  induction players as [|p ps IH]; cbn; [reflexivity|].
  rewrite IH. unfold features_or_default, try_except.
  destruct (convert_player_to_features p); reflexivity.
Qed.

Lemma features_or_default_keys (p : dict pyval) :
  dict_keys (features_or_default p) = TRAINING_FEATURE_NAMES.
Proof.
  unfold features_or_default.
  destruct (convert_player_to_features p) eqn:E.
  - eapply convert_keys; eassumption.
  - apply default_features_keys.
Qed.

(** [prepare_features_for_model] fails exactly when feature conversion
    fails, whatever the schema. *)
Lemma prepare_single_raises (player : dict pyval)
    (names : option (list string)) (e : exn) :
  prepare_features_for_model (Single player) names = Raise e
  <-> convert_player_to_features player = Raise e.
Proof.
  unfold prepare_features_for_model.
  destruct (convert_player_to_features player) as [f|e']; cbn [bind].
  - destruct (names_given names); split; discriminate.
  - split; intros H; injection H as ->; reflexivity.
Qed.

(** The row of a record in the frame built from records that all have the
    canonical keys: the record's values, in order. *)
Lemma record_row_values (f : dict float) (x : float) :
  NoDup (dict_keys f) ->
  map (fun c => dict_get_default f c x) (dict_keys f) = map snd f.
Proof.
  induction f as [|[k v] f IH]; intros Hnd; [reflexivity|].
  apply NoDup_cons in Hnd as [Hk Hnd]. cbn [dict_keys fmap list_fmap map fst snd].
  unfold dict_get_default at 1. cbn [dict_get]. rewrite String.eqb_refl. f_equal.
  rewrite <- (IH Hnd). apply map_ext_in. intros c Hc.
  unfold dict_get_default. cbn [dict_get].
  destruct (String.eqb c k) eqn:E; [|reflexivity].
  apply String.eqb_eq in E as ->. exfalso. apply Hk.
  now apply list_elem_of_In.
Qed.

Lemma unindexed_frame (records : list (dict float)) :
  Forall (fun f => dict_keys f = TRAINING_FEATURE_NAMES) records ->
  frame_of_records records
  = mkDataFrame (match records with [] => [] | _ => TRAINING_FEATURE_NAMES end)
      (map (map snd) records).
Proof.
  intros Hall. unfold frame_of_records.
  rewrite (frame_columns TRAINING_FEATURE_NAMES _ training_feature_names_NoDup Hall).
  destruct records as [|f0 records0] eqn:Hrec; [reflexivity|].
  rewrite <- Hrec in *. clear Hrec f0 records0. f_equal.
  induction Hall as [|f records Hf Hall IH]; [reflexivity|].
  cbn [map]. f_equal; [|exact IH].
  rewrite <- Hf. apply record_row_values. rewrite Hf.
  apply training_feature_names_NoDup.
Qed.

End ReindexFacts.

(** C6 (as amended).  Given a non-empty target schema,
    [prepare_features_for_model] returns, whenever feature conversion of the
    input succeeds, exactly the target names: a single record becomes a dict
    that maps each target name to the record's feature or 0.0 and has no other
    key (in target order when the schema has no repeated name); a list becomes
    a frame whose columns are the schema and whose rows are conformed alike.
    With an empty or missing schema it returns every canonical feature
    unchanged: the record's own feature dict, or the frame of the records'
    values under the canonical names.
    [standardize_player_features_for_prediction] conforms to every schema,
    the empty one included, and never raises. *)
Theorem reindex_conforms (names : list string) :
  (forall (player : dict pyval) (features : dict float),
      names <> [] ->
      FeatureStandardizer.convert_player_to_features player = Ok features ->
      FeatureStandardizer.prepare_features_for_model
        (FeatureStandardizer.Single player) (Some names)
      = Ok (FeatureStandardizer.FeatureDict
              (FeatureStandardizer.filter_features features names))
      /\ (forall n : string,
             dict_get (FeatureStandardizer.filter_features features names) n
             = if bool_decide (n ∈ names)
               then Some (dict_get_default features n 0%float) else None)
      /\ (NoDup names ->
            FeatureStandardizer.filter_features features names
            = map (fun n => (n, dict_get_default features n 0%float)) names))
  /\ (forall (players : list (dict pyval)) (fl : list (dict float)),
         names <> [] ->
         FeatureStandardizer.convert_all players = Ok fl ->
         FeatureStandardizer.prepare_features_for_model
           (FeatureStandardizer.Many players) (Some names)
         = Ok (FeatureStandardizer.FeatureFrame
                 (FeatureStandardizer.mkDataFrame names
                    (map (FeatureStandardizer.conformed names) fl))))
  /\ (forall (schema : option (list string)) (player : dict pyval)
             (features : dict float),
         schema = None \/ schema = Some [] ->
         FeatureStandardizer.convert_player_to_features player = Ok features ->
         FeatureStandardizer.prepare_features_for_model
           (FeatureStandardizer.Single player) schema
         = Ok (FeatureStandardizer.FeatureDict features)
         /\ dict_keys features = FeatureStandardizer.TRAINING_FEATURE_NAMES)
  /\ (forall (schema : option (list string)) (players : list (dict pyval))
             (fl : list (dict float)),
         schema = None \/ schema = Some [] ->
         FeatureStandardizer.convert_all players = Ok fl ->
         FeatureStandardizer.prepare_features_for_model
           (FeatureStandardizer.Many players) schema
         = Ok (FeatureStandardizer.FeatureFrame
                 (FeatureStandardizer.mkDataFrame
                    (match fl with
                     | [] => []
                     | _ => FeatureStandardizer.TRAINING_FEATURE_NAMES
                     end)
                    (map (map snd) fl)))
         /\ Forall (fun f => dict_keys f = FeatureStandardizer.TRAINING_FEATURE_NAMES) fl)
  /\ (forall players : list (dict pyval),
         FeatureStandardizer.standardize_player_features_for_prediction players names
         = Ok (FeatureStandardizer.mkDataFrame names
                 (map (fun p => FeatureStandardizer.conformed names
                                  (FeatureStandardizer.features_or_default p))
                    players))).
Proof.
  split; [|split; [|split; [|split]]].
  - intros player features Hne Hconv.
    unfold FeatureStandardizer.prepare_features_for_model. rewrite Hconv. cbn [bind].
    destruct names as [|n0 names0] eqn:Hnames; [congruence|]. rewrite <- Hnames.
    assert (Hgiven : FeatureStandardizer.names_given (Some names) = true)
      by (rewrite Hnames; reflexivity).
    rewrite Hgiven. cbn [default].
    split; [reflexivity|]. split.
    + intros n. unfold FeatureStandardizer.filter_features.
      now rewrite (foldl_dict_set_get (fun n => dict_get_default features n 0%float)).
    + intros Hnd. unfold FeatureStandardizer.filter_features.
      now rewrite (foldl_dict_set_keys (fun n => dict_get_default features n 0%float)).
  - intros players fl Hne Hconv.
    unfold FeatureStandardizer.prepare_features_for_model. rewrite Hconv. cbn [bind].
    destruct names as [|n0 names0] eqn:Hnames; [congruence|]. rewrite <- Hnames.
    assert (Hgiven : FeatureStandardizer.names_given (Some names) = true)
      by (rewrite Hnames; reflexivity).
    rewrite Hgiven. cbn [default].
    apply convert_all_keys in Hconv as [_ Hkeys].
    now rewrite reindex_frame.
  - intros schema player features Hschema Hconv.
    unfold FeatureStandardizer.prepare_features_for_model. rewrite Hconv. cbn [bind].
    split; [|eapply convert_keys; eassumption].
    destruct Hschema as [-> | ->]; reflexivity.
  - intros schema players fl Hschema Hconv.
    unfold FeatureStandardizer.prepare_features_for_model. rewrite Hconv. cbn [bind].
    apply convert_all_keys in Hconv as [_ Hkeys]. split; [|exact Hkeys].
    rewrite (unindexed_frame fl Hkeys).
    destruct Hschema as [-> | ->]; reflexivity.
  - intros players.
    unfold FeatureStandardizer.standardize_player_features_for_prediction.
    rewrite convert_all_or_default_total. cbn [bind].
    rewrite reindex_frame, map_map; [reflexivity|].
    apply Forall_forall. intros f Hf.
    apply list_elem_of_fmap in Hf as (p & -> & _).
    apply features_or_default_keys.
Qed.

Lemma reindex_conforms_witness :
  let player := [("minutes", VInt 180); ("total_points", VInt 9);
                 ("form", VStr "4.5"); ("now_cost", VInt 55)]%string in
  FeatureStandardizer.prepare_features_for_model
    (FeatureStandardizer.Single player)
    (Some ["form"; "shots_on_target"; "price"]%string)
  = Ok (FeatureStandardizer.FeatureDict
          [("form", 4.5); ("shots_on_target", 0); ("price", 5.5)]%float%string)
  /\ FeatureStandardizer.standardize_player_features_for_prediction
       [player; [("minutes", VNone)]%string] ["points_per_game"; "unknown"]%string
     = Ok (FeatureStandardizer.mkDataFrame ["points_per_game"; "unknown"]%string
             [[3; 0]; [0; 0]]%float)
  /\ (exists features : dict float,
         FeatureStandardizer.prepare_features_for_model
           (FeatureStandardizer.Single player) None
         = Ok (FeatureStandardizer.FeatureDict features)
         /\ FeatureStandardizer.prepare_features_for_model
              (FeatureStandardizer.Single player) (Some [])
            = Ok (FeatureStandardizer.FeatureDict features)
         /\ length features = 31%nat
         /\ dict_get features "form" = Some 4.5%float).
Proof.
  intros player.
  destruct (reindex_conforms ["form"; "shots_on_target"; "price"]%string)
    as (Hsingle & _ & Hunindexed & _ & _).
  destruct (reindex_conforms ["points_per_game"; "unknown"]%string)
    as (_ & _ & _ & _ & Hstd).
  destruct (FeatureStandardizer.convert_player_to_features player)
    as [features|] eqn:E; [|vm_compute in E; discriminate E].
  split; [|split].
  - destruct (Hsingle player features ltac:(discriminate) E) as (Hprep & _ & Hlist).
    rewrite Hprep, Hlist by (apply (bool_decide_unpack _); vm_compute; exact I).
    vm_compute in E. injection E as <-. vm_compute. reflexivity.
  - rewrite Hstd. vm_compute. reflexivity.
  - exists features.
    destruct (Hunindexed None player features (or_introl eq_refl) E) as [Hnone Hkeys].
    destruct (Hunindexed (Some []) player features (or_intror eq_refl) E) as [Hempty _].
    split; [exact Hnone|]. split; [exact Hempty|]. split.
    + rewrite <- (length_map fst). change (map fst features) with (dict_keys features).
      rewrite Hkeys. reflexivity.
    + vm_compute in E. injection E as <-. reflexivity.
Defined.

(** C6 fails as stated for the empty schema: [prepare_features_for_model]
    treats an empty list like a missing one and returns every canonical
    feature instead of none. *)
Lemma reindex_empty_schema_counterexample :
  (exists out : dict float,
      FeatureStandardizer.prepare_features_for_model
        (FeatureStandardizer.Single []) (Some [])
      = Ok (FeatureStandardizer.FeatureDict out)
      /\ dict_keys out = FeatureStandardizer.TRAINING_FEATURE_NAMES
      /\ dict_keys out <> [])
  /\ (exists df : FeatureStandardizer.DataFrame,
         FeatureStandardizer.prepare_features_for_model
           (FeatureStandardizer.Many [[]]) (Some [])
         = Ok (FeatureStandardizer.FeatureFrame df)
         /\ FeatureStandardizer.columns df = FeatureStandardizer.TRAINING_FEATURE_NAMES
         /\ FeatureStandardizer.columns df <> []).
Proof.
  split; eexists; (split; [vm_compute; reflexivity|]);
    (split; [vm_compute; reflexivity | vm_compute; discriminate]).
Qed.
(** ** Feature standardizer: validation *)

Section ValidateFacts.

Import FeatureStandardizer.

Lemma clean_value_finite (v : pyval) (x : float) :
  clean_value v = Ok x -> PyFloat.isfinite x = true.
Proof.
  unfold clean_value, try_except. intros H.
  destruct (match v with VNone => Ok 0%float | _ => py_float v end) as [fv|e];
    cbn [bind] in H.
  - injection H as <-.
    destruct (PyFloat.isnan fv) eqn:Hnan; cbn [orb]; [reflexivity|].
    destruct (PyFloat.isinf fv) eqn:Hinf; [reflexivity|].
    unfold PyFloat.isfinite. now rewrite Hnan, Hinf.
  - destruct (is_ValueError_or_TypeError e); [|discriminate H].
    injection H as <-. reflexivity.
Qed.

Lemma clean_value_fixed (x : float) :
  PyFloat.isfinite x = true -> clean_value (VFloat x) = Ok x.
Proof.
  unfold PyFloat.isfinite, clean_value. cbn [py_float bind].
  intros H. apply andb_true_iff in H as [Hnan Hinf].
  apply negb_true_iff in Hnan, Hinf. now rewrite Hnan, Hinf.
Qed.

Lemma dict_set_keys_present {V : Type} (d : dict V) (k : string) (v : V) :
  k ∈ dict_keys d -> dict_keys (dict_set d k v) = dict_keys d.
Proof.
  unfold dict_keys. induction d as [|[k0 v0] d IH]; cbn; intros Hin.
  - inversion Hin.
  - destruct (String.eqb k k0) eqn:E; cbn; [reflexivity|].
    apply String.eqb_neq in E. apply elem_of_cons in Hin as [-> | Hin]; [congruence|].
    now rewrite IH.
Qed.

Lemma dict_set_NoDup {V : Type} (d : dict V) (k : string) (v : V) :
  NoDup (dict_keys d) -> NoDup (dict_keys (dict_set d k v)).
Proof.
  intros Hnd. destruct (decide (k ∈ dict_keys d)) as [Hin | Hnot].
  - now rewrite dict_set_keys_present.
  - rewrite dict_keys_set_new by exact Hnot. unfold dict_keys in *.
    rewrite fmap_app. cbn. apply NoDup_app. split; [exact Hnd|]. split.
    + intros x Hx Hx'. apply list_elem_of_singleton in Hx' as ->. contradiction.
    + apply NoDup_singleton.
Qed.

Lemma dict_set_all_finite (d : dict float) (k : string) (x : float) :
  all_finite d -> PyFloat.isfinite x = true -> all_finite (dict_set d k x).
Proof.
  unfold all_finite. intros Hd Hx.
  induction Hd as [|[k0 v0] d Hkv Hd IH]; cbn.
  - constructor; [exact Hx | constructor].
  - destruct (String.eqb k k0); constructor; assumption.
Qed.

Lemma validate_loop_clean (items : list (string * pyval)) (acc out : dict float) :
  validate_loop items acc = Ok out ->
  NoDup (dict_keys acc) -> all_finite acc ->
  NoDup (dict_keys out) /\ all_finite out.
Proof.
  revert acc. induction items as [|[k v] items IH]; intros acc H Hnd Hfin; cbn in H.
  - injection H as <-. now split.
  - bind_inv H. apply (IH _ H).
    + now apply dict_set_NoDup.
    + apply dict_set_all_finite; [exact Hfin|].
      eapply clean_value_finite; eassumption.
Qed.

Lemma validate_loop_fixed (c acc : dict float) :
  NoDup (dict_keys (acc ++ c)) -> all_finite c ->
  validate_loop (as_objects c) acc = Ok (acc ++ c).
Proof.
  revert acc. induction c as [|[k x] c IH]; intros acc Hnd Hfin.
  - cbn. now rewrite app_nil_r.
  - apply Forall_cons in Hfin as [Hx Hfin]. cbn [snd] in Hx.
    unfold as_objects in *. cbn [map validate_loop fst snd].
    rewrite clean_value_fixed by exact Hx. cbn [bind].
    assert (Hk : k ∉ dict_keys acc).
    { unfold dict_keys in *. rewrite fmap_app in Hnd.
      apply NoDup_app in Hnd as (_ & Hdisj & _).
      intros Hin. apply (Hdisj k Hin). cbn. apply list_elem_of_here. }
    rewrite dict_keys_set_new by exact Hk.
    rewrite IH.
    + now rewrite <- app_assoc.
    + now rewrite <- app_assoc.
    + exact Hfin.
Qed.

End ValidateFacts.

(** Validating a feature dictionary twice gives what validating it once
    gives, an escaping exception included; and every value of a validated
    dictionary is a finite float, which the cleaning step leaves as it is. *)
Lemma validate_features_idempotent (features : dict pyval) :
  FeatureStandardizer.validate_twice features
  = FeatureStandardizer.validate_features features
  /\ (forall cleaned : dict float,
        FeatureStandardizer.validate_features features = Ok cleaned ->
        Forall (fun kv => PyFloat.isfinite kv.2 = true) cleaned
        /\ Forall (fun kv => FeatureStandardizer.clean_value (VFloat kv.2) = Ok kv.2)
             cleaned).
Proof.
  assert (Hclean : forall cleaned,
             FeatureStandardizer.validate_features features = Ok cleaned ->
             NoDup (dict_keys cleaned) /\ FeatureStandardizer.all_finite cleaned).
  { intros cleaned H. apply (validate_loop_clean _ [] _ H); constructor. }
  split.
  - unfold FeatureStandardizer.validate_twice.
    destruct (FeatureStandardizer.validate_features features) as [cleaned|e] eqn:E;
      cbn [bind]; [|reflexivity].
    destruct (Hclean cleaned eq_refl) as [Hnd Hfin].
    apply (validate_loop_fixed cleaned []); assumption.
  - intros cleaned H. destruct (Hclean cleaned H) as [_ Hfin].
    split; [exact Hfin|].
    eapply Forall_impl; [exact Hfin|].
    intros kv Hkv. now apply clean_value_fixed.
Qed.

Example validate_features_idempotent_example :
  let features :=
    [ ("form", VStr "nan"); ("price", VFloat infinity); ("bonus", VNone);
      ("minutes", VInt 90); ("name", VStr "Salah"); ("xG", VFloat nan);
      ("threat", VStr " 7.5 ") ]%string in
  let cleaned :=
    [ ("form", 0); ("price", 0); ("bonus", 0); ("minutes", 90); ("name", 0);
      ("xG", 0); ("threat", 7.5) ]%float%string in
  FeatureStandardizer.validate_features features = Ok cleaned
  /\ FeatureStandardizer.validate_twice features = Ok cleaned.
Proof. vm_compute. split; reflexivity. Qed.

(** What the loop body makes of each kind of value: the conversion failures
    that raise [ValueError] or [TypeError] give 0.0, as do [None], NaN and
    the infinities. *)
Lemma clean_value_cases (v : pyval) :
  let finite_or_zero (y : float) :=
    if PyFloat.isnan y || PyFloat.isinf y then 0%float else y in
  match v with
  | VNone | VList _ | VDict _ => FeatureStandardizer.clean_value v = Ok 0%float
  | VBool b => FeatureStandardizer.clean_value v = Ok (if b then 1 else 0)%float
  | VInt n =>
      match PyFloat.of_int n with
      | Ok y => FeatureStandardizer.clean_value v = Ok (finite_or_zero y)
      | Raise _ => FeatureStandardizer.clean_value v = Raise OverflowError
      end
  | VFloat y => FeatureStandardizer.clean_value v = Ok (finite_or_zero y)
  | VStr s =>
      FeatureStandardizer.clean_value v
      = Ok match PyStr.parse_float s with
           | Some y => finite_or_zero y
           | None => 0%float
           end
  end.
Proof.
  intros finite_or_zero.
  destruct v as [|b|n|y|s|l|d]; try reflexivity.
  - destruct b; reflexivity.
  - unfold FeatureStandardizer.clean_value, py_float, PyFloat.of_int.
    destruct (PyFloat.round_dyadic n 0); reflexivity.
  - unfold FeatureStandardizer.clean_value. cbn [py_float].
    destruct (PyStr.parse_float s); reflexivity.
Qed.

Lemma validate_loop_app (items rest : list (string * pyval)) (acc : dict float) :
  FeatureStandardizer.validate_loop (items ++ rest) acc
  = bind (FeatureStandardizer.validate_loop items acc)
      (FeatureStandardizer.validate_loop rest).
Proof.
  revert acc. induction items as [|[k v] items IH]; intros acc; [reflexivity|].
  cbn [app FeatureStandardizer.validate_loop].
  destruct (FeatureStandardizer.clean_value v); cbn [bind]; [apply IH | reflexivity].
Qed.

(** C10 (defect).  The handler of [validate_features] catches [ValueError]
    and [TypeError] only.  An [int] beyond the float range, which [float()]
    refuses with [OverflowError], is therefore not mapped to 0.0: wherever it
    stands in a dict whose earlier values are cleaned, the whole validation
    raises [OverflowError].  Every other value that cannot be converted, and
    [None], NaN and the infinities, are mapped to 0.0. *)
Theorem validate_features_misses_overflow :
  (forall (before after : dict pyval) (cleaned : dict float) (key : string) (n : Z),
      FeatureStandardizer.validate_features before = Ok cleaned ->
      PyFloat.of_int n = Raise OverflowError ->
      FeatureStandardizer.validate_features (before ++ (key, VInt n) :: after)
      = Raise OverflowError)
  /\ PyFloat.of_int (2 ^ 1024) = Raise OverflowError
  /\ PyFloat.of_int (- 2 ^ 1024) = Raise OverflowError
  /\ FeatureStandardizer.validate_features [("bps", VInt (2 ^ 1024))]%string
     = Raise OverflowError
  /\ FeatureStandardizer.validate_twice [("bps", VInt (2 ^ 1024))]%string
     = Raise OverflowError
  /\ FeatureStandardizer.clean_value VNone = Ok 0%float
  /\ FeatureStandardizer.clean_value (VFloat nan) = Ok 0%float
  /\ FeatureStandardizer.clean_value (VFloat infinity) = Ok 0%float
  /\ FeatureStandardizer.clean_value (VFloat neg_infinity) = Ok 0%float
  /\ (forall s : string,
         PyStr.parse_float s = None ->
         FeatureStandardizer.clean_value (VStr s) = Ok 0%float)
  /\ (forall l : list pyval, FeatureStandardizer.clean_value (VList l) = Ok 0%float)
  /\ (forall d : list (string * pyval),
         FeatureStandardizer.clean_value (VDict d) = Ok 0%float).
Proof.
  split.
  { intros before after cleaned key n Hbefore Hn.
    unfold FeatureStandardizer.validate_features in *.
    rewrite validate_loop_app, Hbefore. cbn [bind FeatureStandardizer.validate_loop].
    pose proof (clean_value_cases (VInt n)) as Hc. cbn in Hc.
    rewrite Hn in Hc. now rewrite Hc. }
  split; [vm_compute; reflexivity|]. split; [vm_compute; reflexivity|].
  split; [vm_compute; reflexivity|]. split; [vm_compute; reflexivity|].
  split; [reflexivity|]. split; [vm_compute; reflexivity|].
  split; [vm_compute; reflexivity|]. split; [vm_compute; reflexivity|].
  split; [|split; reflexivity].
  intros s Hs. pose proof (clean_value_cases (VStr s)) as Hc. cbn in Hc.
  now rewrite Hs in Hc.
Qed.

(** ** Prediction dataset *)

Lemma max0_nonneg (x : float) : PrimFloat.leb 0 (PyFloat.max0 x) = true.
Proof.
  unfold PyFloat.max0.
  destruct (PrimFloat.ltb 0 x) eqn:Hlt.
  - rewrite ltb_spec in Hlt. rewrite leb_spec.
    unfold SFltb in Hlt. unfold SFleb.
    destruct (SFcompare (Prim2SF 0) (Prim2SF x)) as [[]|]; congruence.
  - reflexivity.
Qed.

(** C4. For every input row of the prediction dataset the prediction target is
    [points_per_game + (form - points_per_game) * 0.2
     - (avg_fixture_difficulty - 2.5) * 0.15] clipped below at 0: that value
    itself when it is greater than 0, and 0 otherwise (a NaN included).  The
    captain target is twice the prediction target plus the row's standard
    normal draw scaled by [0.3 * target], clipped below at 0 in the same way.
    Both targets are [>= 0] for every combination of binary64 inputs. *)
Theorem prediction_targets_clipped (df : list PredictionDataset.Row)
    (noise : nat -> float) (i : nat) (r : PredictionDataset.Row) :
  df !! i = Some r ->
  let adjusted :=
    (PredictionDataset.points_per_game r
     + (PredictionDataset.form r - PredictionDataset.points_per_game r) * 0.2
     - (PredictionDataset.avg_fixture_difficulty r - 2.5) * 0.15)%float in
  exists t : PredictionDataset.TargetRow,
    PredictionDataset.prepare_prediction_dataset df noise !! i = Some t
    /\ PredictionDataset.features t = r
    /\ (PrimFloat.ltb 0 adjusted = true ->
        PredictionDataset.next_gw_points t = adjusted)
    /\ (PrimFloat.ltb 0 adjusted = false ->
        PredictionDataset.next_gw_points t = 0%float)
    /\ (let doubled :=
          (PredictionDataset.next_gw_points t * 2
           + noise i * (PredictionDataset.next_gw_points t * 0.3))%float in
        (PrimFloat.ltb 0 doubled = true ->
         PredictionDataset.captain_points t = doubled)
        /\ (PrimFloat.ltb 0 doubled = false ->
            PredictionDataset.captain_points t = 0%float))
    /\ PrimFloat.leb 0 (PredictionDataset.next_gw_points t) = true
    /\ PrimFloat.leb 0 (PredictionDataset.captain_points t) = true.
Proof.
  intros Hi adjusted.
  exists (PredictionDataset.prepare_row r (noise i)).
  unfold PredictionDataset.prepare_prediction_dataset.
  rewrite list_lookup_imap, Hi.
  cbn [option_map fmap PredictionDataset.prepare_row PredictionDataset.features
       PredictionDataset.next_gw_points PredictionDataset.captain_points].
  unfold PredictionDataset.form_factor, PredictionDataset.fixture_factor.
  fold adjusted.
  split; [reflexivity|]. split; [reflexivity|].
  split; [intros H; unfold PyFloat.max0; now rewrite H|].
  split; [intros H; unfold PyFloat.max0; now rewrite H|].
  split.
  - split; intros H; unfold PyFloat.max0 at 1; now rewrite H.
  - split; apply max0_nonneg.
Qed.

Lemma prediction_targets_clipped_witness :
  let df := [PredictionDataset.mkRow 4.5 6 2; PredictionDataset.mkRow 0.2 0 5] in
  let noise := fun n : nat => match n with O => 0.5%float | _ => (-8)%float end in
  exists kept clipped : PredictionDataset.TargetRow,
    PredictionDataset.prepare_prediction_dataset df noise !! 0%nat = Some kept
    /\ PredictionDataset.prepare_prediction_dataset df noise !! 1%nat = Some clipped
    /\ PredictionDataset.next_gw_points kept = (4.5 + (6 - 4.5) * 0.2 - (2 - 2.5) * 0.15)%float
    /\ PrimFloat.ltb 4.8 (PredictionDataset.next_gw_points kept) = true
    /\ PrimFloat.ltb 10 (PredictionDataset.captain_points kept) = true
    /\ PredictionDataset.next_gw_points clipped = 0%float
    /\ PredictionDataset.captain_points clipped = 0%float.
Proof.
  intros df noise.
  destruct (prediction_targets_clipped df noise 0 (PredictionDataset.mkRow 4.5 6 2)
              eq_refl) as (kept & Hkept & _ & Hpos & _ & [Hcap _] & _).
  destruct (prediction_targets_clipped df noise 1 (PredictionDataset.mkRow 0.2 0 5)
              eq_refl) as (clipped & Hclipped & _ & _ & Hzero & [_ Hcap0] & _).
  exists kept, clipped. split; [exact Hkept|]. split; [exact Hclipped|].
  assert (En : PredictionDataset.next_gw_points kept
               = (4.5 + (6 - 4.5) * 0.2 - (2 - 2.5) * 0.15)%float)
    by (apply Hpos; vm_compute; reflexivity).
  assert (Ez : PredictionDataset.next_gw_points clipped = 0%float)
    by (apply Hzero; vm_compute; reflexivity).
  split; [exact En|]. split; [rewrite En; vm_compute; reflexivity|].
  split.
  - rewrite Hcap; rewrite En; vm_compute; reflexivity.
  - split; [exact Ez|]. apply Hcap0. rewrite Ez. vm_compute. reflexivity.
Defined.

(** ** Transfer-pair dataset *)

Section TransferFacts.

Import TransferDataset.

Variable picks : string -> list nat.
Variable normal : nat -> float.

Lemma pair_loop_step (key : string) (player_out player_in : Row)
    (players : list Row) (count drawn : nat) :
  pair_loop normal key (player_out :: player_in :: players) (S count) drawn
  = if player_id player_out =? player_id player_in
    then pair_loop normal key (player_in :: players) count drawn
    else
      let '(rest, drawn') :=
        pair_loop normal key (player_in :: players) count (S drawn) in
      (transfer_data key player_out player_in
         (next_gw_points player_in - next_gw_points player_out + normal drawn * 2)%float
       :: rest, drawn').
Proof using Type. reflexivity. Qed.

Lemma built_from_further (key : string) (row : Row) (rows : list Row)
    (e : TransferPairExample) :
  built_from key rows e -> built_from key (row :: rows) e.
Proof.
  intros (Hne & Hk & rin & rout & Hin & Hout & Hi & Ho).
  split; [exact Hne|]. split; [exact Hk|].
  exists rin, rout. repeat split; try assumption; now apply list_elem_of_further.
Qed.

Lemma pair_loop_built_from (key : string) (players : list Row) (count drawn : nat)
    (e : TransferPairExample) :
  e ∈ (pair_loop normal key players count drawn).1 -> built_from key players e.
Proof using Type.
  revert players drawn.
  induction count as [|count IH]; intros players drawn He.
  - destruct players; inversion He.
  - destruct players as [|player_out [|player_in players]];
      try solve [inversion He].
    rewrite pair_loop_step in He.
    destruct (player_id player_out =? player_id player_in) eqn:Eid.
    + apply built_from_further. eapply IH. exact He.
    + destruct (pair_loop normal key (player_in :: players) count (S drawn))
        as [rest drawn'] eqn:Erest.
      cbn [fst] in He. apply elem_of_cons in He as [-> | He].
      * split; [cbn; lia|]. split; [reflexivity|].
        exists player_in, player_out. cbn.
        repeat split; [apply list_elem_of_further, list_elem_of_here
                      | apply list_elem_of_here].
      * apply built_from_further. eapply IH. rewrite Erest. exact He.
Qed.

Lemma pairs_of_group_built_from (num_pairs : Z) (df : list Row) (key : string)
    (drawn drawn' : nat) (emitted : list TransferPairExample)
    (e : TransferPairExample) :
  pairs_of_group picks normal num_pairs df key drawn = Ok (emitted, drawn') ->
  e ∈ emitted -> built_from key (group_of df key) e.
Proof using Type.
  unfold pairs_of_group. intros H He.
  bind_inv H.
  destruct (_ <? 0); [discriminate H|].
  injection H as Hloop.
  assert (He' : e ∈ (pair_loop normal key
                       (omap (fun i => group_of df key !! i)
                          (take (Z.to_nat (Z.min (Z.of_nat (length (group_of df key))) (a * 2)))
                             (picks key)))
                       (Z.to_nat (Z.min (Z.of_nat (length
                          (omap (fun i => group_of df key !! i)
                             (take (Z.to_nat (Z.min (Z.of_nat (length (group_of df key))) (a * 2)))
                                (picks key)))) - 1) a)) drawn).1)
    by (rewrite Hloop; exact He).
  apply pair_loop_built_from in He' as (Hne & Hk & rin & rout & Hin & Hout & Hi & Ho).
  split; [exact Hne|]. split; [exact Hk|].
  exists rin, rout.
  apply list_elem_of_omap in Hin as (i & _ & Hin).
  apply list_elem_of_omap in Hout as (j & _ & Hout).
  repeat split; try assumption; eapply list_elem_of_lookup_2; eassumption.
Qed.

Lemma groups_loop_built_from (num_pairs : Z) (df : list Row) (keys : list string)
    (drawn : nat) (out : list TransferPairExample) (e : TransferPairExample) :
  groups_loop picks normal num_pairs df keys drawn = Ok out ->
  e ∈ out -> exists key, key ∈ keys /\ built_from key (group_of df key) e.
Proof using Type.
  revert drawn out.
  induction keys as [|key keys IH]; intros drawn out H He; cbn in H.
  - injection H as <-. inversion He.
  - bind_inv H. destruct a as [emitted drawn']. bind_inv H. injection H as <-.
    apply elem_of_app in He as [He | He].
    + exists key. split; [apply list_elem_of_here|].
      eapply pairs_of_group_built_from; eassumption.
    + destruct (IH _ _ E0 He) as (key' & Hk & Hb).
      exists key'. split; [now apply list_elem_of_further | exact Hb].
Qed.

End TransferFacts.

(** C5. Every example that the transfer-dataset synthesizer emits has
    different in-player and out-player identifiers, and both players are rows
    of the base table in the example's position group. *)
Theorem transfer_pairs_distinct_same_position (picks : string -> list nat)
    (normal : nat -> float) (df : list TransferDataset.Row) (num_pairs : Z)
    (out : list TransferDataset.TransferPairExample)
    (e : TransferDataset.TransferPairExample) :
  TransferDataset.prepare_transfer_dataset picks normal df num_pairs = Ok out ->
  e ∈ out ->
  TransferDataset.player_in_id e <> TransferDataset.player_out_id e
  /\ exists row_in row_out : TransferDataset.Row,
       row_in ∈ df /\ row_out ∈ df
       /\ TransferDataset.player_id row_in = TransferDataset.player_in_id e
       /\ TransferDataset.player_id row_out = TransferDataset.player_out_id e
       /\ TransferDataset.position row_in = TransferDataset.pair_position e
       /\ TransferDataset.position row_out = TransferDataset.pair_position e.
Proof.
  intros H He. unfold TransferDataset.prepare_transfer_dataset in H.
  destruct (groups_loop_built_from picks normal _ _ _ _ _ _ H He)
    as (key & _ & Hne & Hk & rin & rout & Hin & Hout & Hi & Ho).
  split; [exact Hne|].
  exists rin, rout.
  apply list_elem_of_filter in Hin as [Hpin Hin].
  apply list_elem_of_filter in Hout as [Hpout Hout].
  rewrite Hk. repeat split; assumption.
Qed.


Lemma transfer_pairs_distinct_same_position_witness :
  let row := fun (i : Z) (p : string) (n : float) =>
    TransferDataset.mkRow i "player" p 1 2 3 4 5 n None None None None None None in
  let df := [row 1 "MID" 1%float; row 2 "GK" 2%float; row 3 "MID" 3%float;
             row 4 "DEF" 4%float; row 5 "MID" 5%float; row 6 "GK" 1%float] in
  let picks := fun _ : string => [0; 1; 1; 2; 0; 2; 1]%nat in
  exists (out : list TransferDataset.TransferPairExample)
         (e : TransferDataset.TransferPairExample),
    TransferDataset.prepare_transfer_dataset picks (fun _ => 0.5%float) df 20 = Ok out
    /\ e ∈ out
    /\ TransferDataset.player_in_id e = 6
    /\ TransferDataset.player_out_id e = 2
    /\ TransferDataset.player_in_id e <> TransferDataset.player_out_id e.
Proof.
  intros row df picks.
  destruct (TransferDataset.prepare_transfer_dataset picks (fun _ => 0.5%float) df 20)
    as [out|] eqn:E; [|vm_compute in E; discriminate E].
  pose proof E as E'. vm_compute in E'. injection E' as <-.
  eexists _, _. split; [reflexivity|].
  split; [apply list_elem_of_here|].
  split; [reflexivity|]. split; [reflexivity|].
  eapply (transfer_pairs_distinct_same_position picks (fun _ => 0.5%float) df 20).
  - exact E.
  - apply list_elem_of_here.
Defined.
(** ** Training orchestrator: tiered loading *)

Section LoaderFacts.

Variable path_exists : string -> bool.
Variable load : string -> string -> bool.
Variable model_dir_str : string.

Let try_tiers := Orchestrator.try_tiers path_exists load model_dir_str.
Let artifact_exists := Orchestrator.artifact_exists path_exists model_dir_str.

Let usable := Orchestrator.usable path_exists load model_dir_str.

(** The tiers of [skipped] whose files are present are the ones [load] is
    called on before the first usable tier; nothing after it is tried. *)
Lemma try_tiers_first_usable (pos : string) (skipped : list string)
    (tier : string) (later : list string) (st : Orchestrator.LoaderState) :
  Forall (fun t => usable pos t = false) skipped ->
  usable pos tier = true ->
  let st' := try_tiers pos (skipped ++ tier :: later) st in
  dict_get (Orchestrator.predictors st') pos
    = Some (Orchestrator.mkPredictor tier (PyStr.str_upper pos) true)
  /\ Orchestrator.attempts st'
     = Orchestrator.attempts st
       ++ map (fun t => (pos, t)) (filter (fun t => artifact_exists pos t = true) skipped)
       ++ [(pos, tier)]
  /\ Orchestrator.log st' = Orchestrator.log st.
Proof using Type.
  intros Hskip Huse. revert st.
  induction Hskip as [|t skipped Ht Hskip IH]; intros st.
  - apply andb_true_iff in Huse as [Hex Hload].
    unfold try_tiers, artifact_exists in *. cbn. rewrite Hex, Hload. cbn.
    split; [|split; reflexivity].
    clear. induction (Orchestrator.predictors st) as [|[k v] d IHd]; cbn.
    + now rewrite String.eqb_refl.
    + destruct (String.eqb pos k) eqn:E; cbn; rewrite E; [reflexivity | exact IHd].
  - rewrite <- app_comm_cons. unfold try_tiers in *.
    cbn [Orchestrator.try_tiers].
    unfold usable, Orchestrator.usable in Ht. fold (artifact_exists pos t) in *.
    destruct (artifact_exists pos t) eqn:Hex; cbn [andb] in Ht.
    + rewrite Ht. rewrite filter_cons_True by exact Hex.
      destruct (IH (Orchestrator.mkLoaderState
                      (dict_set (Orchestrator.predictors st) pos
                         (Orchestrator.mkPredictor t (PyStr.str_upper pos) false))
                      (Orchestrator.attempts st ++ [(pos, t)])
                      (Orchestrator.log st))) as (Hp & Ha & Hl).
      split; [exact Hp|]. split; [|exact Hl].
      rewrite Ha. cbn. rewrite <- app_assoc. reflexivity.
    + rewrite filter_cons_False by (rewrite Hex; discriminate).
      apply IH.
Qed.

(** When no tier is usable, the last tier whose files are present stays
    registered, unloaded; the log is untouched. *)
Lemma try_tiers_none_usable (pos : string) (tiers : list string)
    (st : Orchestrator.LoaderState) :
  Forall (fun t => usable pos t = false) tiers ->
  let st' := try_tiers pos tiers st in
  Orchestrator.log st' = Orchestrator.log st
  /\ Orchestrator.attempts st'
     = Orchestrator.attempts st
       ++ map (fun t => (pos, t)) (filter (fun t => artifact_exists pos t = true) tiers)
  /\ ((Forall (fun t => artifact_exists pos t = false) tiers
       /\ dict_get (Orchestrator.predictors st') pos
          = dict_get (Orchestrator.predictors st) pos)
      \/ exists t, t ∈ tiers /\ artifact_exists pos t = true
           /\ dict_get (Orchestrator.predictors st') pos
              = Some (Orchestrator.mkPredictor t (PyStr.str_upper pos) false)).
Proof using Type.
  intros Hnone. revert st.
  induction Hnone as [|t tiers Ht Hnone IH]; intros st.
  - cbn. rewrite app_nil_r. split; [reflexivity|]. split; [reflexivity|].
    left. split; [constructor | reflexivity].
  - unfold try_tiers in *. cbn [Orchestrator.try_tiers].
    unfold usable, Orchestrator.usable in Ht. fold (artifact_exists pos t) in *.
    destruct (artifact_exists pos t) eqn:Hex; cbn [andb] in Ht.
    + rewrite Ht. rewrite filter_cons_True by exact Hex.
      destruct (IH (Orchestrator.mkLoaderState
                      (dict_set (Orchestrator.predictors st) pos
                         (Orchestrator.mkPredictor t (PyStr.str_upper pos) false))
                      (Orchestrator.attempts st ++ [(pos, t)])
                      (Orchestrator.log st))) as (Hl & Ha & Hp).
      split; [exact Hl|]. split; [rewrite Ha; cbn; now rewrite <- app_assoc|].
      right. destruct Hp as [[_ Hsame] | (t' & Hin & Hex' & Hp)].
      * exists t. split; [apply list_elem_of_here|]. split; [exact Hex|].
        rewrite Hsame. cbn. now rewrite dict_get_set, String.eqb_refl.
      * exists t'. split; [now apply list_elem_of_further|]. now split.
    + rewrite filter_cons_False by (rewrite Hex; discriminate).
      destruct (IH st) as (Hl & Ha & Hp).
      split; [exact Hl|]. split; [exact Ha|].
      destruct Hp as [[Hall Hsame] | (t' & Hin & Hex' & Hp)].
      * left. split; [now constructor | exact Hsame].
      * right. exists t'. split; [now apply list_elem_of_further|]. now split.
Qed.

(** So the fallback warning of a position without a loaded tier is written
    only when none of its artifact files is present. *)
Lemma resolve_position_none_usable (pos : string) (st : Orchestrator.LoaderState) :
  dict_get (Orchestrator.predictors st) pos = None ->
  Forall (fun t => usable pos t = false) Orchestrator.tier_priority ->
  Orchestrator.log
    (Orchestrator.resolve_position path_exists load model_dir_str st pos)
  = Orchestrator.log st
    ++ (if forallb (fun t => negb (artifact_exists pos t)) Orchestrator.tier_priority
        then [Orchestrator.no_model_warning pos] else []).
Proof using Type.
  intros Hfree Hnone. unfold Orchestrator.resolve_position.
  destruct (try_tiers_none_usable pos _ st Hnone) as (Hl & _ & Hp).
  unfold try_tiers in *.
  destruct Hp as [[Hall Hsame] | (t & Hin & Hex & Hp)].
  - rewrite Hsame, Hfree. cbn [Orchestrator.log]. rewrite Hl.
    replace (forallb _ _) with true; [reflexivity|].
    symmetry. apply forallb_forall. intros t Ht.
    apply list_elem_of_In in Ht.
    apply (proj1 (Forall_forall _ _) Hall) in Ht. fold (artifact_exists pos t).
    now rewrite Ht.
  - rewrite Hp, Hl.
    replace (forallb _ _) with false; [now rewrite app_nil_r|].
    symmetry. apply not_true_is_false. intros Hf.
    rewrite forallb_forall in Hf. apply list_elem_of_In in Hin. specialize (Hf t Hin).
    fold (artifact_exists pos t) in Hf. now rewrite Hex in Hf.
Qed.

End LoaderFacts.

(** Without a predictor for the row's position the row keeps its own
    [points_per_game], and nothing is raised. *)
Lemma predict_row_falls_back (feature_names : Orchestrator.Predictor -> list string)
    (predict : Orchestrator.Predictor -> dict pyval -> result pyval)
    (py_str : pyval -> string) (exn_str : exn -> string)
    (infer_objects : dict pyval -> result (dict pyval))
    (predictors : dict Orchestrator.Predictor)
    (row : dict pyval) (position : pyval) :
  dict_get row "position" = Some position ->
  dict_get predictors (PyStr.str_lower (py_str position)) = None ->
  Orchestrator.predict_row feature_names predict py_str exn_str infer_objects
    predictors row
  = Ok (dict_get_default row "points_per_game" (VInt 0), []).
Proof.
  intros Hpos Hnone. unfold Orchestrator.predict_row, dict_item.
  rewrite Hpos. cbn [bind]. rewrite Hnone. reflexivity.
Qed.

(** C3 (defect).  Only the elite artifact of the goalkeepers is present and
    its [load] fails.  No tier has loaded for [gk], yet the unloaded predictor
    stays registered under [gk] and the warning is written for the other three
    positions only. *)
Theorem failed_load_is_registered_without_warning :
  let path_exists := fun p : string =>
    String.eqb p "models/points_predictor_gk_elite.joblib"
    || String.eqb p "models/points_predictor_gk_elite_scaler.joblib" in
  let load := fun _ _ : string => false in
  let st := Orchestrator.resolve_predictors path_exists load "models" in
  dict_get (Orchestrator.predictors st) "gk"
    = Some (Orchestrator.mkPredictor "elite" "GK" false)
  /\ Orchestrator.attempts st = [("gk", "elite")]%string
  /\ Orchestrator.log st
     = [Orchestrator.no_model_warning "def"; Orchestrator.no_model_warning "mid";
        Orchestrator.no_model_warning "fwd"].
Proof. vm_compute. repeat split. Qed.

(** ** Training orchestrator: backup and restore *)

Lemma string_app_length (s t : string) :
  String.length (s ++ t) = (String.length s + String.length t)%nat.
Proof. induction s as [|c s IH]; simpl; [reflexivity | f_equal; exact IH]. Qed.

Lemma backup_path_fresh (main_csv unique_id : string) :
  Orchestrator.backup_path main_csv unique_id <> main_csv.
Proof.
  unfold Orchestrator.backup_path. intros H.
  apply (f_equal String.length) in H.
  rewrite !string_app_length in H. cbn in H. lia.
Qed.

(** C1. The transfer-training step leaves the main dataset file with its
    original content, byte for byte, on every exit of the step: the file is
    copied before it is overwritten, training sees the augmented file, and
    the [finally] clause moves the copy back whether training returned or
    raised; the outcome of training, an exception included, is passed on
    afterwards.  Training is any function on the files that leaves the
    backup file in place. *)
Theorem transfer_step_restores_main {Metrics : Type}
    (train : gmap string string -> gmap string string * result Metrics)
    (main_csv unique_id augmented_csv original : string)
    (fs : gmap string string) :
  let backup := Orchestrator.backup_path main_csv unique_id in
  let seen := <[main_csv := augmented_csv]> (<[backup := original]> fs) in
  let out := Orchestrator.transfer_step train main_csv unique_id augmented_csv fs in
  fs !! main_csv = Some original ->
  (train seen).1 !! backup = seen !! backup ->
  seen !! backup = Some original
  /\ seen !! main_csv = Some augmented_csv
  /\ out.1 !! main_csv = Some original
  /\ out.1 !! backup = None
  /\ out.2 = (train seen).2.
Proof.
  intros backup seen out Hmain Hframe.
  pose proof (backup_path_fresh main_csv unique_id) as Hne. fold backup in Hne.
  assert (Hseen : seen !! backup = Some original).
  { unfold seen. rewrite lookup_insert_ne by congruence.
    apply lookup_insert_eq. }
  split; [exact Hseen|].
  split; [apply lookup_insert_eq|].
  assert (Hout : out = ((delete backup (<[main_csv := original]> (train seen).1)),
                        (train seen).2)).
  { unfold out, Orchestrator.transfer_step, Orchestrator.copy2.
    rewrite Hmain. cbn. unfold Orchestrator.try_finally, Orchestrator.to_csv.
    fold backup. fold seen.
    rewrite Hseen in Hframe.
    destruct (train seen) as [fs1 r] eqn:Htrain.
    unfold Orchestrator.move. cbn [fst] in Hframe. rewrite Hframe. reflexivity. }
  rewrite Hout. cbn.
  split; [|split; [|reflexivity]].
  - rewrite lookup_delete_ne by exact Hne. apply lookup_insert_eq.
  - apply lookup_delete_eq.
Qed.

(** Training that removes the backup file defeats the restoration: the
    [finally] clause raises and the main file stays augmented. *)
Example transfer_step_backup_removed :
  let train := fun fs0 : gmap string string =>
    (delete (Orchestrator.backup_path "a.csv" "1_2") fs0, Ok tt) in
  let out := Orchestrator.transfer_step train "a.csv" "1_2" "augmented"
               {["a.csv" := "original"]} in
  out.1 !! "a.csv" = Some "augmented" /\ out.2 = Raise FileNotFoundError.
Proof. vm_compute. split; reflexivity. Qed.

Lemma transfer_step_restores_main_witness :
  let train := fun fs0 : gmap string string =>
    (<["data/main/a.csv" := "overwritten"]> fs0,
     @Raise unit (Exception "training failed")) in
  let out := Orchestrator.transfer_step train "data/main/a.csv" "7_1700000000"
               "player_id,next_gw_points" {["data/main/a.csv" := "player_id"]} in
  out.1 !! "data/main/a.csv" = Some "player_id"
  /\ out.2 = Raise (Exception "training failed").
Proof.
  intros train out.
  destruct (transfer_step_restores_main train "data/main/a.csv" "7_1700000000"
              "player_id,next_gw_points" "player_id"
              {["data/main/a.csv" := "player_id"]})
    as (_ & _ & Hrestored & _ & Hout).
  - vm_compute. reflexivity.
  - vm_compute. reflexivity.
  - split; [exact Hrestored | exact Hout].
Defined.

(** ** Team rating *)

Section RatingFacts.

Import TeamRating.

Variable get_player_fixture_difficulty : Z -> result (list (dict pyval)).
Variable float_sum : list float -> float.

Lemma count_positions_from (ps : list Player) (acc : dict Z) (key : string) :
  dict_get_default
    (foldl (fun counts p =>
              dict_set counts (position p)
                (dict_get_default counts (position p) 0 + 1)) acc ps) key 0
  = dict_get_default acc key 0 + players_at key ps.
Proof.
  unfold players_at. revert acc.
  induction ps as [|p ps IH]; intros acc; cbn [foldl]; [cbn; lia|].
  rewrite IH. unfold dict_get_default at 1. rewrite dict_get_set.
  destruct (decide (position p = key)) as [Hp | Hp].
  - rewrite filter_cons_True by exact Hp. subst key.
    rewrite String.eqb_refl. cbn [length]. lia.
  - rewrite filter_cons_False by exact Hp.
    assert (E : String.eqb key (position p) = false)
      by (apply String.eqb_neq; congruence).
    rewrite E. unfold dict_get_default. lia.
Qed.

Lemma count_positions_at (ps : list Player) (key : string) :
  key ∈ ["GK"; "DEF"; "MID"; "FWD"]%string ->
  dict_get_default (count_positions ps) key 0 = players_at key ps.
Proof.
  intros Hkey. unfold count_positions. rewrite count_positions_from.
  repeat (apply elem_of_cons in Hkey as [-> | Hkey]; [reflexivity|]).
  inversion Hkey.
Qed.

Lemma penalise_below_score (counts : dict Z) (key : string) (least : Z)
    (tip : string) (l : Locals) :
  score (penalise_below counts key least tip l)
  = score l - shortfall (dict_get_default counts key 0) least
  /\ hard_fixture_count (penalise_below counts key least tip l)
     = hard_fixture_count l.
Proof.
  unfold penalise_below, shortfall.
  destruct (dict_get_default counts key 0 <? least); cbn; split; lia.
Qed.

Lemma balance_score (ps : list Player) (l : Locals) :
  score (balance ps l)
  = score l - shortfall (players_at "GK" ps) 2 - shortfall (players_at "DEF" ps) 4
    - shortfall (players_at "MID" ps) 4 - shortfall (players_at "FWD" ps) 2.
Proof.
  unfold balance.
  rewrite !(proj1 (penalise_below_score _ _ _ _ _)).
  rewrite !count_positions_at
    by (apply (bool_decide_unpack _); vm_compute; exact I).
  reflexivity.
Qed.

Lemma injuries_score (ps : list Player) (l : Locals) :
  score (injuries ps l) = score l - 5 * unavailable ps.
Proof.
  unfold injuries, unavailable. revert l.
  induction ps as [|p ps IH]; intros l; cbn [foldl]; [cbn; lia|].
  rewrite IH. destruct (available p) eqn:E.
  - rewrite filter_cons_False by (rewrite E; discriminate). lia.
  - rewrite filter_cons_True by exact E. cbn [score length]. lia.
Qed.

(** The [try] statement never falls through: it returns or it throws. *)
Lemma try_body_never_falls_through (t : Team) (l : Locals) :
  try_body get_player_fixture_difficulty float_sum t <> Next l.
Proof.
  unfold try_body, lift.
  destruct (count_hard_fixtures _ _ _); discriminate.
Qed.

End RatingFacts.

(** C9. The statements that follow the [try] statement of [rate_team] never
    run: whatever they are, the function returns what the [try] statement
    returns.  That is the mock rating when the body raises, and otherwise the
    rating whose score is 100 less 10 for each position short of players
    (two goalkeepers, four defenders, four midfielders, two forwards), 5 for
    each unavailable player, 15 for more than six hard fixtures and 10 for a
    total value under 90, floored at 0; no coverage penalty and no cap at 100
    enters it. *)
Theorem rate_team_reachable_path_only
    (get_player_fixture_difficulty : Z -> result (list (dict pyval)))
    (float_sum : list float -> float) (t : TeamRating.Team) (gameweek : Z) :
  let ps := TeamRating.players t in
  let rate := TeamRating.rate_team get_player_fixture_difficulty float_sum t gameweek in
  (forall trailing,
      TeamRating.rate_team_body get_player_fixture_difficulty float_sum trailing
        t gameweek = rate)
  /\ match TeamRating.count_hard_fixtures get_player_fixture_difficulty ps 0 with
     | Ok hard =>
         let sc :=
           100
           - TeamRating.shortfall (TeamRating.players_at "GK" ps) 2
           - TeamRating.shortfall (TeamRating.players_at "DEF" ps) 4
           - TeamRating.shortfall (TeamRating.players_at "MID" ps) 4
           - TeamRating.shortfall (TeamRating.players_at "FWD" ps) 2
           - 5 * TeamRating.unavailable ps
           - (if 6 <? hard then 15 else 0)
           - (if PrimFloat.ltb (float_sum (map TeamRating.price ps)) 90
              then 10 else 0) in
         exists tips : list string,
           rate
           = TeamRating.Return
               [ ("score", VInt (Z.max 0 sc));
                 ("suggestions", TeamRating.str_list tips);
                 ("rating", VStr (TeamRating.rating_label sc)) ]%string
     | Raise _ =>
         rate = TeamRating.Return (TeamRating.mock_team_rating t gameweek)
     end.
Proof.
  intros ps rate. split.
  - intros trailing. unfold rate, TeamRating.rate_team, TeamRating.rate_team_body.
    unfold TeamRating.try_body, TeamRating.lift.
    destruct (TeamRating.count_hard_fixtures _ _ _); reflexivity.
  - unfold rate, TeamRating.rate_team, TeamRating.rate_team_body, TeamRating.try_body.
    fold ps.
    destruct (TeamRating.count_hard_fixtures get_player_fixture_difficulty ps 0)
      as [hard|e]; cbn [TeamRating.lift TeamRating.try_catch TeamRating.then_];
      [|reflexivity].
    pose proof (injuries_score ps (TeamRating.balance ps (TeamRating.mkLocals 100 [] 0)))
      as Hscore.
    rewrite balance_score in Hscore. cbn [TeamRating.score] in Hscore.
    destruct (6 <? hard);
      destruct (PrimFloat.ltb (float_sum (map TeamRating.price ps)) 90);
      cbn [TeamRating.score TeamRating.suggestions];
      eexists; rewrite Hscore;
      repeat (f_equal; try lia).
Qed.

Example rate_team_three_players :
  let p := fun (i : Z) (pos : string) (st : option string) =>
    TeamRating.mkPlayer i "player" "club" pos 30 10 st in
  TeamRating.rate_team
    (fun i => if i =? 1 then Ok [[("difficulty", VInt 5)]%string] else Raise (Exception "x"))
    (foldl PrimFloat.add 0%float)
    (TeamRating.mkTeam [p 1 "GK" None; p 2 "GK" (Some "i"); p 3 "FWD" (Some "d"); p 4 "FWD" None]
       100 0) 7
  = TeamRating.Return
      [ ("score", VInt 75);
        ("suggestions",
         TeamRating.str_list
           ["Increase defensive depth."; "Increase midfield depth.";
            "Replace injured/unavailable player: player"]%string);
        ("rating", VStr "Good") ]%string.
Proof. vm_compute. reflexivity. Qed.

(** ** Feature schemas of the two extraction paths *)

Lemma process_keys (py_str : pyval -> string) (player_data row : dict pyval) :
  TrainingData.process_player_features py_str player_data = Ok row ->
  dict_keys row
  = Orchestrator.id_columns ++ FeatureStandardizer.TRAINING_FEATURE_NAMES
  /\ dict_keys (Orchestrator.row_features row)
     = FeatureStandardizer.TRAINING_FEATURE_NAMES.
Proof.
  intros H. unfold TrainingData.process_player_features in H.
  repeat bind_inv H. injection H as <-. split; reflexivity.
Qed.

(** X1. The training-time extractor writes the four identifying columns
    followed by the canonical feature names, the inference-time extractor the
    canonical feature names alone, in the same order; what the orchestrator
    keeps of a training row after dropping the identifying columns has
    exactly the keys of an inference-time feature dict. *)
Theorem training_and_inference_schemas_agree (py_str : pyval -> string)
    (raw scouted row : dict pyval) (features : dict float) :
  TrainingData.process_player_features py_str raw = Ok row ->
  FeatureStandardizer.convert_player_to_features scouted = Ok features ->
  dict_keys features = FeatureStandardizer.TRAINING_FEATURE_NAMES
  /\ dict_keys row = Orchestrator.id_columns ++ dict_keys features
  /\ dict_keys (Orchestrator.row_features row) = dict_keys features.
Proof.
  intros Hrow Hfeatures.
  apply process_keys in Hrow as [Hkeys Hkept].
  apply convert_keys in Hfeatures.
  rewrite Hfeatures. auto.
Qed.

Lemma training_and_inference_schemas_agree_witness :
  let player_data :=
    [ ("id", VInt 7); ("minutes", VInt 150); ("total_points", VInt 9);
      ("form", VStr "4.5"); ("now_cost", VInt 55) ]%string in
  exists (row : dict pyval) (features : dict float),
    TrainingData.process_player_features (fun _ => EmptyString) player_data = Ok row
    /\ FeatureStandardizer.convert_player_to_features player_data = Ok features
    /\ dict_keys row = Orchestrator.id_columns ++ dict_keys features
    /\ length (dict_keys features) = 31%nat.
Proof.
  intros player_data.
  destruct (TrainingData.process_player_features (fun _ => EmptyString) player_data)
    as [row|] eqn:Er; [|vm_compute in Er; discriminate Er].
  destruct (FeatureStandardizer.convert_player_to_features player_data)
    as [features|] eqn:Ef; [|vm_compute in Ef; discriminate Ef].
  destruct (training_and_inference_schemas_agree _ _ _ _ _ Er Ef) as (Hf & Hr & _).
  exists row, features. repeat split; [exact Hr | rewrite Hf; reflexivity].
Defined.

(** ** Batch standardisation against single-shot preparation *)

Lemma conformed_default_features (names : list string) :
  FeatureStandardizer.conformed names FeatureStandardizer.default_features
  = map (fun _ => 0%float) names.
Proof.
  unfold FeatureStandardizer.conformed. apply map_ext. intros n.
  unfold dict_get_default, FeatureStandardizer.default_features.
  rewrite (foldl_dict_set_get (fun _ => 0%float)).
  destruct (bool_decide _); reflexivity.
Qed.

(** X2. [standardize_player_features_for_prediction] answers with one row per
    player, in order, whatever the players are; the row of a player whose
    conversion raises holds 0.0 in every column of the schema. *)
Theorem standardize_zeroes_failed_player (names : list string)
    (players : list (dict pyval)) (i : nat) (p : dict pyval) (e : exn) :
  players !! i = Some p ->
  FeatureStandardizer.convert_player_to_features p = Raise e ->
  exists df : FeatureStandardizer.DataFrame,
    FeatureStandardizer.standardize_player_features_for_prediction players names
    = Ok df
    /\ FeatureStandardizer.columns df = names
    /\ length (FeatureStandardizer.rows df) = length players
    /\ FeatureStandardizer.rows df !! i = Some (map (fun _ => 0%float) names).
Proof.
  intros Hi Hconv.
  unfold FeatureStandardizer.standardize_player_features_for_prediction.
  rewrite convert_all_or_default_total. cbn [bind].
  rewrite reindex_frame.
  - eexists. split; [reflexivity|]. cbn [FeatureStandardizer.columns FeatureStandardizer.rows].
    split; [reflexivity|]. split; [now rewrite !length_map|].
    rewrite !list_lookup_fmap, Hi. cbn.
    unfold FeatureStandardizer.features_or_default. rewrite Hconv.
    now rewrite conformed_default_features.
  - apply Forall_forall. intros f Hf.
    apply list_elem_of_fmap in Hf as (q & -> & _).
    apply features_or_default_keys.
Qed.

Lemma standardize_zeroes_failed_player_witness :
  exists df : FeatureStandardizer.DataFrame,
    FeatureStandardizer.standardize_player_features_for_prediction
      [ [("minutes", VInt 90); ("total_points", VInt 6)];
        [("minutes", VStr "ninety")] ]%string
      ["points_per_game"; "minutes"]%string
    = Ok df
    /\ FeatureStandardizer.rows df !! 1%nat = Some [0; 0]%float.
Proof.
  destruct (standardize_zeroes_failed_player ["points_per_game"; "minutes"]%string
              [ [("minutes", VInt 90); ("total_points", VInt 6)];
                [("minutes", VStr "ninety")] ]%string
              1 [("minutes", VStr "ninety")]%string TypeError eq_refl eq_refl)
    as (df & Hdf & _ & _ & Hrow).
  exists df. split; [exact Hdf | exact Hrow].
Defined.

Lemma convert_all_raises (players : list (dict pyval)) (e : exn) :
  FeatureStandardizer.convert_all players = Raise e
  <-> exists (before : list (dict pyval)) (p : dict pyval) (after : list (dict pyval)),
        players = before ++ p :: after
        /\ Forall (fun q => exists f, FeatureStandardizer.convert_player_to_features q = Ok f)
             before
        /\ FeatureStandardizer.convert_player_to_features p = Raise e.
Proof.
  split.
  - induction players as [|q players IH]; cbn; [discriminate|].
    destruct (FeatureStandardizer.convert_player_to_features q) as [f|e'] eqn:Eq;
      cbn [bind].
    + destruct (FeatureStandardizer.convert_all players) as [fs|e'']; cbn [bind];
        [discriminate|].
      intros H. injection H as ->.
      destruct (IH eq_refl) as (before & p & after & -> & Hb & Hp).
      exists (q :: before), p, after. split; [reflexivity|].
      split; [constructor; eauto | exact Hp].
    + intros H. injection H as ->. exists [], q, players. now repeat split.
  - intros (before & p & after & -> & Hb & Hp).
    induction Hb as [|q before [f Hq] Hb IH]; cbn.
    + now rewrite Hp.
    + now rewrite Hq, IH.
Qed.

(** X3. On a list of players [prepare_features_for_model] is all or nothing:
    it raises exactly when some player fails to convert, with the exception
    of the first such player, whatever the schema; the players before it do
    not make it into any frame. *)
Theorem prepare_many_is_all_or_nothing (players : list (dict pyval))
    (names : option (list string)) (e : exn) :
  FeatureStandardizer.prepare_features_for_model
    (FeatureStandardizer.Many players) names = Raise e
  <-> exists (before : list (dict pyval)) (p : dict pyval) (after : list (dict pyval)),
        players = before ++ p :: after
        /\ Forall (fun q => exists f, FeatureStandardizer.convert_player_to_features q = Ok f)
             before
        /\ FeatureStandardizer.convert_player_to_features p = Raise e.
Proof.
  rewrite <- convert_all_raises.
  unfold FeatureStandardizer.prepare_features_for_model.
  destruct (FeatureStandardizer.convert_all players) as [fs|e']; cbn [bind].
  - split; discriminate.
  - split; intros H; injection H as ->; reflexivity.
Qed.

(** ** Validation keeps the shape of a feature dict *)

Lemma validate_loop_appends (items : list (string * pyval)) (acc out : dict float) :
  NoDup (dict_keys acc ++ dict_keys items) ->
  FeatureStandardizer.validate_loop items acc = Ok out ->
  exists cleaned : dict float,
    out = acc ++ cleaned
    /\ Forall2 (fun kv kx => kv.1 = kx.1
                             /\ FeatureStandardizer.clean_value kv.2 = Ok kx.2)
         items cleaned.
Proof.
  revert acc. induction items as [|[k v] items IH]; intros acc Hnd H; cbn in H.
  - injection H as <-. exists []. now rewrite app_nil_r.
  - bind_inv H.
    assert (Hk : k ∉ dict_keys acc).
    { apply NoDup_app in Hnd as (_ & Hdisj & _).
      intros Hin. apply (Hdisj k Hin). apply list_elem_of_here. }
    rewrite dict_keys_set_new in H by exact Hk.
    apply IH in H as (cleaned & -> & Hall).
    + exists ((k, a) :: cleaned). rewrite <- app_assoc. split; [reflexivity|].
      constructor; [now split | exact Hall].
    + unfold dict_keys in *. rewrite fmap_app, <- app_assoc. exact Hnd.
Qed.

Lemma dict_get_Forall2 {V W : Type} (P : V -> W -> Prop) (d : dict V) (d' : dict W)
    (k : string) (v : V) :
  Forall2 (fun kv kx => kv.1 = kx.1 /\ P kv.2 kx.2) d d' ->
  dict_get d k = Some v -> exists x, P v x /\ dict_get d' k = Some x.
Proof.
  induction 1 as [|[k0 v0] [k1 x1] d d' [Hk HP] Hall IH]; cbn; [discriminate|].
  cbn in Hk, HP. subst k1.
  destruct (String.eqb k k0); [|exact IH].
  intros H. injection H as <-. eauto.
Qed.

(** X4. [validate_features] keeps every key of the dict it is given, in the
    same order.  The value under a key is 0.0 where the given value is
    [None], a list or a dict, or a string [float()] rejects; it is the float
    the given value converts to otherwise (1.0 or 0.0 for a bool), with NaN
    and the infinities replaced by 0.0. *)
Theorem validate_features_keeps_keys (features : dict pyval) (cleaned : dict float) :
  NoDup (dict_keys features) ->
  FeatureStandardizer.validate_features features = Ok cleaned ->
  let finite_or_zero (y : float) :=
    if PyFloat.isnan y || PyFloat.isinf y then 0%float else y in
  dict_keys cleaned = dict_keys features
  /\ forall (k : string) (v : pyval),
       dict_get features k = Some v ->
       exists x : float,
         dict_get cleaned k = Some x
         /\ match v with
            | VNone | VList _ | VDict _ => x = 0%float
            | VBool b => x = (if b then 1 else 0)%float
            | VInt n => exists y : float, PyFloat.of_int n = Ok y /\ x = finite_or_zero y
            | VFloat y => x = finite_or_zero y
            | VStr s =>
                match PyStr.parse_float s with
                | Some y => x = finite_or_zero y
                | None => x = 0%float
                end
            end.
Proof.
  intros Hnd H finite_or_zero. unfold FeatureStandardizer.validate_features in H.
  apply validate_loop_appends in H as (out & -> & Hall); [|exact Hnd].
  cbn [app]. split.
  - unfold dict_keys. clear Hnd.
    induction Hall as [|[k v] [k' x] d d' [Hk _] Hall IH]; cbn; [reflexivity|].
    cbn in Hk. now rewrite Hk, IH.
  - intros k v Hget.
    destruct (dict_get_Forall2
                (fun v x => FeatureStandardizer.clean_value v = Ok x) _ _ k v Hall Hget)
      as (x & Hclean & Hx).
    exists x. split; [exact Hx|].
    pose proof (clean_value_cases v) as Hcases. cbn zeta in Hcases.
    destruct v as [|b|n|y|s|l|d0].
    + rewrite Hcases in Hclean. now injection Hclean.
    + rewrite Hcases in Hclean. now injection Hclean.
    + destruct (PyFloat.of_int n) as [y|e].
      * rewrite Hcases in Hclean. injection Hclean as <-. exists y. split; reflexivity.
      * rewrite Hcases in Hclean. discriminate Hclean.
    + rewrite Hcases in Hclean. now injection Hclean.
    + rewrite Hcases in Hclean. injection Hclean as <-.
      destruct (PyStr.parse_float s); reflexivity.
    + rewrite Hcases in Hclean. now injection Hclean.
    + rewrite Hcases in Hclean. now injection Hclean.
Qed.

Lemma validate_features_keeps_keys_witness :
  let features :=
    [ ("form", VStr "nan"); ("price", VFloat 5.5); ("bonus", VNone);
      ("name", VStr "Salah"); ("xG", VFloat nan); ("threat", VFloat neg_infinity);
      ("minutes", VInt 90); ("starts", VBool true); ("history", VList []);
      ("bps", VStr " 1_2.5 ") ]%string in
  exists cleaned : dict float,
    FeatureStandardizer.validate_features features = Ok cleaned
    /\ dict_keys cleaned = dict_keys features
    /\ dict_get cleaned "price" = Some 5.5%float
    /\ dict_get cleaned "bonus" = Some 0%float
    /\ dict_get cleaned "name" = Some 0%float
    /\ dict_get cleaned "xG" = Some 0%float
    /\ dict_get cleaned "threat" = Some 0%float
    /\ dict_get cleaned "history" = Some 0%float
    /\ dict_get cleaned "form" = Some 0%float
    /\ dict_get cleaned "bps" = Some 12.5%float.
Proof.
  intros features.
  destruct (FeatureStandardizer.validate_features features) as [cleaned|] eqn:E;
    [|vm_compute in E; discriminate E].
  assert (Hnd : NoDup (dict_keys features))
    by (apply (bool_decide_unpack _); vm_compute; exact I).
  destruct (validate_features_keeps_keys features cleaned Hnd E) as [Hkeys Hvals].
  exists cleaned. split; [reflexivity|]. split; [exact Hkeys|].
  destruct (Hvals "price"%string _ eq_refl) as (x1 & H1 & E1).
  destruct (Hvals "bonus"%string _ eq_refl) as (x2 & H2 & E2).
  destruct (Hvals "name"%string _ eq_refl) as (x3 & H3 & E3).
  destruct (Hvals "xG"%string _ eq_refl) as (x4 & H4 & E4).
  destruct (Hvals "threat"%string _ eq_refl) as (x5 & H5 & E5).
  destruct (Hvals "history"%string _ eq_refl) as (x6 & H6 & E6).
  destruct (Hvals "form"%string _ eq_refl) as (x7 & H7 & E7).
  destruct (Hvals "bps"%string _ eq_refl) as (x8 & H8 & E8).
  vm_compute in E1, E3, E4, E5, E7, E8. subst.
  repeat split; assumption.
Defined.

(** ** The form field on the two extraction paths *)

(** X5. A record whose [form] is a non-empty string that [float()] rejects
    never yields a training row: the training-time extractor has no handler
    around the conversion.  The inference-time extractor reads the same
    field as 0.0. *)
Theorem unparsable_form_by_path (player_data : dict pyval) (s : string) :
  dict_get player_data "form" = Some (VStr s) ->
  s <> ""%string ->
  PyStr.parse_float s = None ->
  (forall (py_str : pyval -> string) (row : dict pyval),
      TrainingData.process_player_features py_str player_data <> Ok row)
  /\ (forall features : dict float,
         FeatureStandardizer.convert_player_to_features player_data = Ok features ->
         dict_get features "form" = Some 0%float).
Proof.
  intros Hform Hne Hparse.
  apply String.eqb_neq in Hne.
  split.
  - intros py_str row H.
    unfold TrainingData.process_player_features in H.
    do 7 bind_inv H.
    unfold dict_get_default in H. rewrite Hform in H.
    cbn [py_truthy TrainingData.differs_from_empty py_float] in H.
    rewrite Hne, Hparse in H. discriminate H.
  - intros features H.
    unfold FeatureStandardizer.convert_player_to_features in H.
    do 5 bind_inv H.
    unfold dict_get_default in E3. rewrite Hform in E3.
    cbn [FeatureStandardizer.form_of py_truthy py_float try_except] in E3.
    rewrite Hne, Hparse in E3. cbn [negb is_ValueError] in E3.
    injection E3 as <-.
    repeat bind_inv H. injection H as <-. reflexivity.
Qed.

Lemma unparsable_form_by_path_witness :
  let player_data :=
    [ ("id", VInt 1); ("minutes", VInt 90); ("total_points", VInt 6);
      ("form", VStr "n/a") ]%string in
  (forall (py_str : pyval -> string) (row : dict pyval),
      TrainingData.process_player_features py_str player_data <> Ok row)
  /\ TrainingData.process_player_features (fun _ => EmptyString) player_data
     = Raise ValueError
  /\ exists features : dict float,
       FeatureStandardizer.convert_player_to_features player_data = Ok features
       /\ dict_get features "form" = Some 0%float.
Proof.
  intros player_data.
  destruct (unparsable_form_by_path player_data "n/a" eq_refl
              ltac:(discriminate) eq_refl) as [Htrain Hinf].
  split; [exact Htrain|].
  split; [vm_compute; reflexivity|].
  destruct (FeatureStandardizer.convert_player_to_features player_data)
    as [features|] eqn:E; [|vm_compute in E; discriminate E].
  exists features. split; [reflexivity | exact (Hinf features eq_refl)].
Defined.

(** ** Transfer-pair dataset: how many pairs *)

Section TransferCounting.

Import TransferDataset.

Variable picks : string -> list nat.
Variable normal : nat -> float.

Lemma pair_loop_length (key : string) (players : list Row) (count drawn : nat) :
  (length (pair_loop normal key players count drawn).1 <= count)%nat
  /\ (length (pair_loop normal key players count drawn).1 <= length players - 1)%nat.
Proof using Type.
  revert players drawn. induction count as [|count IH]; intros players drawn.
  - destruct players; cbn; lia.
  - destruct players as [|player_out [|player_in players]]; try (cbn; lia).
    rewrite pair_loop_step.
    destruct (player_id player_out =? player_id player_in).
    + destruct (IH (player_in :: players) drawn) as [H1 H2]. cbn [length] in *. lia.
    + destruct (IH (player_in :: players) (S drawn)) as [H1 H2].
      destruct (pair_loop normal key (player_in :: players) count (S drawn)).
      cbn [fst length] in *. lia.
Qed.

Lemma omap_length_le {A B : Type} (f : A -> option B) (l : list A) :
  (length (omap f l) <= length l)%nat.
Proof.
  induction l as [|x l IH]; cbn; [lia|].
  destruct (f x); cbn; lia.
Qed.

Lemma pair_loop_position (key : string) (players : list Row) (count drawn : nat) :
  Forall (fun e => pair_position e = key) (pair_loop normal key players count drawn).1.
Proof using Type.
  apply Forall_forall. intros e He.
  apply pair_loop_built_from in He as (_ & Hk & _). exact Hk.
Qed.

Lemma pairs_of_group_bound (num_pairs : Z) (df : list Row) (key : string)
    (drawn drawn' : nat) (emitted : list TransferPairExample) (quota : Z) :
  position_pairs num_pairs key = Ok quota ->
  pairs_of_group picks normal num_pairs df key drawn = Ok (emitted, drawn') ->
  Z.of_nat (length emitted) <= Z.max 0 quota
  /\ Z.of_nat (length emitted) <= Z.max 0 (Z.of_nat (length (group_of df key)) - 1)
  /\ Forall (fun e => pair_position e = key) emitted.
Proof using Type.
  unfold pairs_of_group. intros Hq H. rewrite Hq in H. cbn [bind] in H.
  destruct (_ <? 0) eqn:En; [discriminate H|].
  injection H as H.
  set (n := Z.min (Z.of_nat (length (group_of df key))) (quota * 2)) in *.
  set (players := omap (fun i => group_of df key !! i) (take (Z.to_nat n) (picks key))) in *.
  set (count := Z.to_nat (Z.min (Z.of_nat (length players) - 1) quota)) in *.
  pose proof (pair_loop_length key players count drawn) as [H1 H2].
  pose proof (pair_loop_position key players count drawn) as H3.
  rewrite H in H1, H2, H3. cbn [fst] in *.
  assert (Hlen : (length players <= Z.to_nat n)%nat).
  { unfold players. etransitivity; [apply omap_length_le|].
    rewrite length_take. lia. }
  split; [|split; [|exact H3]]; unfold count, n in *; lia.
Qed.

Lemma filter_other_position (key k : string) (emitted : list TransferPairExample) :
  k <> key -> Forall (fun e => pair_position e = k) emitted ->
  filter (fun e => pair_position e = key) emitted = [].
Proof.
  intros Hne Hpos. induction Hpos as [|e l He Hpos IH]; [reflexivity|].
  rewrite filter_cons_False by congruence. exact IH.
Qed.

Lemma pairs_of_group_position (num_pairs : Z) (df : list Row) (key : string)
    (drawn drawn' : nat) (emitted : list TransferPairExample) :
  pairs_of_group picks normal num_pairs df key drawn = Ok (emitted, drawn') ->
  Forall (fun e => pair_position e = key) emitted.
Proof using Type.
  intros H.
  destruct (position_pairs num_pairs key) as [q|] eqn:Eq;
    [|unfold pairs_of_group in H; rewrite Eq in H; discriminate H].
  now destruct (pairs_of_group_bound _ _ _ _ _ _ _ Eq H) as (_ & _ & Hpos).
Qed.

Lemma groups_loop_other_keys (num_pairs : Z) (df : list Row) (keys : list string)
    (drawn : nat) (out : list TransferPairExample) (key : string) :
  key ∉ keys ->
  groups_loop picks normal num_pairs df keys drawn = Ok out ->
  filter (fun e => pair_position e = key) out = [].
Proof using Type.
  revert drawn out. induction keys as [|k keys IH]; intros drawn out Hk H; cbn in H.
  - injection H as <-. reflexivity.
  - bind_inv H. destruct a as [emitted drawn']. bind_inv H. injection H as <-.
    apply not_elem_of_cons in Hk as [Hne Hk].
    rewrite filter_app, (IH _ _ Hk E0), app_nil_r.
    apply (filter_other_position key k); [congruence|].
    eapply pairs_of_group_position; eassumption.
Qed.

Lemma groups_loop_bound (num_pairs : Z) (df : list Row) (keys : list string)
    (drawn : nat) (out : list TransferPairExample) (key : string) (quota : Z) :
  NoDup keys ->
  position_pairs num_pairs key = Ok quota ->
  groups_loop picks normal num_pairs df keys drawn = Ok out ->
  Z.of_nat (length (filter (fun e => pair_position e = key) out)) <= Z.max 0 quota
  /\ Z.of_nat (length (filter (fun e => pair_position e = key) out))
     <= Z.max 0 (Z.of_nat (length (group_of df key)) - 1).
Proof using Type.
  intros Hnd Hq. revert drawn out.
  induction Hnd as [|k keys Hk Hnd IH]; intros drawn out H; cbn in H.
  - injection H as <-. cbn. lia.
  - bind_inv H. destruct a as [emitted drawn']. bind_inv H. injection H as <-.
    rewrite filter_app, length_app.
    destruct (decide (k = key)) as [-> | Hne].
    + destruct (pairs_of_group_bound _ _ _ _ _ _ _ Hq E) as (H1 & H2 & _).
      rewrite (groups_loop_other_keys _ _ _ _ _ _ Hk E0). cbn [length].
      pose proof (length_filter (fun e => pair_position e = key) emitted) as Hf.
      lia.
    + rewrite (filter_other_position key k emitted Hne)
        by (eapply pairs_of_group_position; eassumption).
      cbn [length]. apply (IH _ _ E0).
Qed.

Lemma group_keys_NoDup (df : list Row) : NoDup (group_keys df).
Proof.
  unfold group_keys. rewrite merge_sort_Permutation. apply NoDup_remove_dups.
Qed.

End TransferCounting.

(** X6. However the rows are sampled, the transfer dataset holds for each
    position at most [int(num_pairs * weight)] examples, and fewer examples
    than the position has rows; a position with a single row contributes
    none. *)
Theorem transfer_pairs_per_position_bound (picks : string -> list nat)
    (normal : nat -> float) (df : list TransferDataset.Row) (num_pairs : Z)
    (out : list TransferDataset.TransferPairExample) (key : string) (quota : Z) :
  TransferDataset.prepare_transfer_dataset picks normal df num_pairs = Ok out ->
  TransferDataset.position_pairs num_pairs key = Ok quota ->
  let emitted := filter (fun e => TransferDataset.pair_position e = key) out in
  Z.of_nat (length emitted) <= Z.max 0 quota
  /\ Z.of_nat (length emitted)
     <= Z.max 0 (Z.of_nat (length (TransferDataset.group_of df key)) - 1).
Proof.
  intros H Hq emitted. unfold TransferDataset.prepare_transfer_dataset in H.
  exact (groups_loop_bound picks normal num_pairs df _ 0%nat out key quota
           (group_keys_NoDup df) Hq H).
Qed.

Lemma transfer_pairs_per_position_bound_witness :
  let row := fun (i : Z) (p : string) =>
    TransferDataset.mkRow i "player" p 1 2 3 4 5 6 None None None None None None in
  let df := [row 1 "MID"; row 2 "GK"; row 3 "MID"; row 4 "MID"; row 5 "MID"] in
  let picks := fun _ : string => [0; 1; 2; 3; 0; 1; 2; 3]%nat in
  exists out : list TransferDataset.TransferPairExample,
    TransferDataset.prepare_transfer_dataset picks (fun _ => 0.5%float) df 6 = Ok out
    /\ TransferDataset.position_pairs 6 "MID" = Ok 2
    /\ length (filter (fun e => TransferDataset.pair_position e = "MID"%string) out) = 2%nat
    /\ Z.of_nat (length (filter (fun e => TransferDataset.pair_position e = "MID"%string) out))
       <= Z.max 0 2.
Proof.
  intros row df picks.
  destruct (TransferDataset.prepare_transfer_dataset picks (fun _ => 0.5%float) df 6)
    as [out|] eqn:E; [|vm_compute in E; discriminate E].
  assert (Hq : TransferDataset.position_pairs 6 "MID" = Ok 2) by (vm_compute; reflexivity).
  destruct (transfer_pairs_per_position_bound picks (fun _ => 0.5%float) df 6 out
              "MID" 2 E Hq) as [Hbound _].
  exists out. split; [reflexivity|]. split; [exact Hq|]. split; [|exact Hbound].
  vm_compute in E. injection E as <-. vm_compute. reflexivity.
Defined.

(** ** Transfer-pair dataset: nothing asked for, nothing to pair *)

Lemma position_pairs_zero (key : string) :
  TransferDataset.position_pairs 0 key = Ok 0.
Proof.
  unfold TransferDataset.position_pairs, dict_get_default,
    TransferDataset.position_weights. cbn [dict_get].
  repeat match goal with |- context [String.eqb key ?k] => destruct (String.eqb key k) end;
    vm_compute; reflexivity.
Qed.

(** X7. Asking for no pairs, or starting from an empty base table, gives the
    empty transfer dataset and no error, whatever the sampler does. *)
Theorem transfer_dataset_empty_cases (picks : string -> list nat)
    (normal : nat -> float) :
  (forall df : list TransferDataset.Row,
      TransferDataset.prepare_transfer_dataset picks normal df 0 = Ok [])
  /\ (forall num_pairs : Z,
         TransferDataset.prepare_transfer_dataset picks normal [] num_pairs = Ok []).
Proof.
  split; [|reflexivity].
  intros df. unfold TransferDataset.prepare_transfer_dataset.
  generalize (TransferDataset.group_keys df) as keys. generalize 0%nat as drawn.
  intros drawn keys. revert drawn.
  induction keys as [|key keys IH]; intros drawn; [reflexivity|].
  cbn [TransferDataset.groups_loop].
  assert (Hgroup : TransferDataset.pairs_of_group picks normal 0 df key drawn
                   = Ok ([], drawn)).
  { unfold TransferDataset.pairs_of_group. rewrite position_pairs_zero. cbn [bind].
    replace (Z.min (Z.of_nat (length (TransferDataset.group_of df key))) (0 * 2))
      with 0 by lia.
    reflexivity. }
  rewrite Hgroup. cbn [bind]. now rewrite IH.
Qed.

(** ** Prediction dataset: captain points of a player expected to score nothing *)

Lemma ltb_zero_plus_times_zero (z : float) :
  PrimFloat.ltb 0 (0 + z * 0)%float = false.
Proof.
  rewrite ltb_spec, add_spec, mul_spec.
  destruct (Prim2SF z) as [[]|[]| |[] m e]; reflexivity.
Qed.

(** X8. A row whose prediction target is clipped to 0 gets a captain target
    of 0 as well, whatever its noise draw is (NaN and infinities included):
    the noise is scaled by the target. *)
Theorem no_expected_points_no_captain_points (df : list PredictionDataset.Row)
    (noise : nat -> float) (i : nat) (t : PredictionDataset.TargetRow) :
  PredictionDataset.prepare_prediction_dataset df noise !! i = Some t ->
  PrimFloat.ltb 0 (PredictionDataset.next_gw_points t) = false ->
  PredictionDataset.next_gw_points t = 0%float
  /\ PredictionDataset.captain_points t = 0%float.
Proof.
  unfold PredictionDataset.prepare_prediction_dataset.
  rewrite list_lookup_imap. destruct (df !! i) as [r|]; [|discriminate].
  cbn [option_map fmap]. intros H. injection H as <-.
  unfold PredictionDataset.prepare_row. cbn [PredictionDataset.next_gw_points
    PredictionDataset.captain_points].
  set (next2 := (_ - _)%float).
  assert (Hclip : PyFloat.max0 next2 = next2 \/ PyFloat.max0 next2 = 0%float)
    by (unfold PyFloat.max0; destruct (PrimFloat.ltb 0 next2); auto).
  destruct Hclip as [Hkeep | Hzero].
  - unfold PyFloat.max0 in Hkeep |- *.
    destruct (PrimFloat.ltb 0 next2) eqn:Hpos; [congruence|].
    intros _. split; [reflexivity|].
    replace (0 * 2)%float with 0%float by reflexivity.
    replace (0 * 0.3)%float with 0%float by reflexivity.
    now rewrite ltb_zero_plus_times_zero.
  - rewrite Hzero. intros _. split; [reflexivity|].
    unfold PyFloat.max0.
    replace (0 * 2)%float with 0%float by reflexivity.
    replace (0 * 0.3)%float with 0%float by reflexivity.
    now rewrite ltb_zero_plus_times_zero.
Qed.

Lemma no_expected_points_no_captain_points_witness :
  exists t : PredictionDataset.TargetRow,
    PredictionDataset.prepare_prediction_dataset
      [PredictionDataset.mkRow 0.2 0 5] (fun _ => infinity) !! 0%nat = Some t
    /\ PredictionDataset.next_gw_points t = 0%float
    /\ PredictionDataset.captain_points t = 0%float.
Proof.
  destruct (PredictionDataset.prepare_prediction_dataset
              [PredictionDataset.mkRow 0.2 0 5] (fun _ => infinity) !! 0%nat)
    as [t|] eqn:E; [|vm_compute in E; discriminate E].
  exists t. split; [reflexivity|].
  apply (no_expected_points_no_captain_points _ _ _ _ E).
  vm_compute in E. injection E as <-. vm_compute. reflexivity.
Defined.

(** ** Training orchestrator: what a predictor is given *)

Lemma dict_keys_fill (names : list string) (v : pyval) :
  NoDup names ->
  foldl (fun d n => dict_set d n v) [] names = map (fun n => (n, v)) names.
Proof.
  intros Hnd. now rewrite (foldl_dict_set_keys (fun _ => v)).
Qed.

(** The overwrite loop [if k in features: features[k] = v]. *)
Lemma overwrite_known_keys (items d : dict pyval) :
  NoDup (dict_keys items) ->
  let d' := foldl (fun d kv =>
                     match dict_get d kv.1 with
                     | Some _ => dict_set d kv.1 kv.2
                     | None => d
                     end) d items in
  dict_keys d' = dict_keys d
  /\ forall n : string,
       dict_get d' n
       = match dict_get d n with
         | Some v => Some (default v (dict_get items n))
         | None => None
         end.
Proof.
  revert d. induction items as [|[k v] items IH]; intros d Hnd; cbn [foldl].
  - split; [reflexivity|]. intros n. cbn. now destruct (dict_get d n).
  - apply NoDup_cons in Hnd as [Hk Hnd]. cbn [fst snd] in Hk |- *.
    destruct (dict_get d k) as [old|] eqn:Hd.
    + destruct (IH (dict_set d k v) Hnd) as [Hkeys Hget]. split.
      * rewrite Hkeys. apply dict_set_keys_present.
        destruct (decide (k ∈ dict_keys d)) as [|Hnot]; [assumption|].
        apply dict_get_None in Hnot. congruence.
      * intros n. rewrite Hget, dict_get_set. cbn [dict_get].
        destruct (String.eqb n k) eqn:En.
        -- apply String.eqb_eq in En as ->. rewrite Hd.
           apply dict_get_None in Hk. now rewrite Hk.
        -- reflexivity.
    + destruct (IH d Hnd) as [Hkeys Hget]. split; [exact Hkeys|].
      intros n. rewrite Hget. cbn [dict_get].
      destruct (String.eqb n k) eqn:En; [|reflexivity].
      apply String.eqb_eq in En as ->. now rewrite Hd.
Qed.

Lemma row_features_get (row : dict pyval) (n : string) :
  dict_get (Orchestrator.row_features row) n
  = if bool_decide (n ∈ Orchestrator.id_columns) then None
    else Orchestrator.fillna0 <$> dict_get row n.
Proof.
  unfold Orchestrator.row_features, dict.
  induction row as [|[k v] row IH]; [now destruct (bool_decide _)|].
  rewrite filter_cons. cbn [fst dict_get].
  destruct (decide (k ∉ Orchestrator.id_columns)) as [Hk | Hk]; cbn [map dict_get fst snd].
  - destruct (String.eqb n k) eqn:En; [|exact IH].
    apply String.eqb_eq in En as ->.
    now rewrite bool_decide_eq_false_2.
  - rewrite IH. destruct (String.eqb n k) eqn:En; [|reflexivity].
    apply String.eqb_eq in En as ->.
    rewrite bool_decide_eq_true_2; [reflexivity|].
    destruct (decide (k ∈ Orchestrator.id_columns)); [assumption | contradiction].
Qed.

Lemma row_features_NoDup (row : dict pyval) :
  NoDup (dict_keys row) -> NoDup (dict_keys (Orchestrator.row_features row)).
Proof.
  unfold Orchestrator.row_features, dict_keys, dict. intros Hnd.
  rewrite <- list_fmap_compose.
  induction row as [|[k v] row IH]; [constructor|].
  apply NoDup_cons in Hnd as [Hk Hnd]. cbn in Hk.
  rewrite filter_cons. destruct (decide _); [|now apply IH].
  cbn. apply NoDup_cons. split; [|now apply IH].
  intros Hin. apply Hk.
  apply list_elem_of_fmap in Hin as ([k' v'] & -> & Hin).
  apply list_elem_of_filter in Hin as [_ Hin].
  apply list_elem_of_fmap. exists (k', v'). now split.
Qed.

(** X9. The feature dict handed to a predictor has exactly the predictor's
    feature names as keys, in their order.  Under a name that is a column
    of the row, other than the four identifying columns, it holds the cell
    that [infer_objects] gives for the row after [drop] and [fillna(0)];
    under one of the four identifying columns, which are dropped before the
    features are filled in, and under a name the row does not have, it holds
    the integer 0. *)
Theorem model_features_follow_the_model
    (infer_objects : dict pyval -> result (dict pyval))
    (names : list string) (row cells : dict pyval) :
  NoDup names ->
  NoDup (dict_keys row) ->
  infer_objects (Orchestrator.row_features row) = Ok cells ->
  dict_keys cells = dict_keys (Orchestrator.row_features row) ->
  exists features : dict pyval,
    Orchestrator.model_features infer_objects names row = Ok features
    /\ dict_keys features = names
    /\ forall n : string,
         n ∈ names ->
         (n ∈ Orchestrator.id_columns \/ dict_get row n = None ->
          dict_get features n = Some (VInt 0))
         /\ (n ∉ Orchestrator.id_columns -> dict_get row n <> None ->
             exists cell : pyval,
               dict_get cells n = Some cell /\ dict_get features n = Some cell).
Proof.
  intros Hnames Hrow Hinfer Hkept.
  unfold Orchestrator.model_features. rewrite Hinfer. cbn [bind].
  eexists. split; [reflexivity|].
  unfold Orchestrator.fill_features.
  rewrite (dict_keys_fill names (VInt 0) Hnames).
  assert (Hcells : NoDup (dict_keys cells))
    by (rewrite Hkept; now apply row_features_NoDup).
  destruct (overwrite_known_keys cells (map (fun n => (n, VInt 0)) names) Hcells)
    as [Hkeys Hget].
  split.
  - rewrite Hkeys. unfold dict_keys. rewrite <- list_fmap_compose.
    clear. induction names as [|n names IH]; cbn; [reflexivity | now rewrite IH].
  - intros n Hn. rewrite Hget.
    assert (Hzero : dict_get (map (fun n => (n, VInt 0)) names) n = Some (VInt 0)).
    { clear -Hn. induction names as [|m names IH]; [inversion Hn|]. cbn.
      destruct (String.eqb n m) eqn:E; [reflexivity|].
      apply String.eqb_neq in E. apply elem_of_cons in Hn as [-> | Hn]; [congruence|].
      now apply IH. }
    rewrite Hzero. pose proof (row_features_get row n) as Hrf.
    split.
    + intros Hout.
      assert (Hnone : dict_get cells n = None).
      { apply dict_get_None. rewrite Hkept. apply dict_get_None. rewrite Hrf.
        destruct Hout as [Hid | Habsent].
        - now rewrite bool_decide_eq_true_2.
        - rewrite Habsent. now destruct (bool_decide _). }
      now rewrite Hnone.
    + intros Hid Hpresent.
      rewrite bool_decide_eq_false_2 in Hrf by exact Hid.
      destruct (dict_get row n) as [v|] eqn:Hv; [|congruence]. cbn in Hrf.
      destruct (dict_get cells n) as [cell|] eqn:Hc.
      * exists cell. split; reflexivity.
      * apply dict_get_None in Hc. rewrite Hkept in Hc. apply dict_get_None in Hc.
        congruence.
Qed.

Lemma model_features_follow_the_model_witness :
  let names := ["form"; "name"; "xG"; "bonus"; "price"]%string in
  let row := [ ("player_id", VInt 7); ("name", VStr "Salah"); ("price", VFloat nan);
               ("form", VFloat 6.5); ("bonus", VInt 3) ]%string in
  let as_float (v : pyval) :=
    match v with
    | VInt n => match PyFloat.of_int n with Ok x => VFloat x | Raise _ => v end
    | _ => v
    end in
  let infer_objects (cells : dict pyval) : result (dict pyval) :=
    Ok (map (fun kv => (kv.1, as_float kv.2)) cells) in
  exists features : dict pyval,
    Orchestrator.model_features infer_objects names row = Ok features
    /\ dict_keys features = names
    /\ dict_get features "form" = Some (VFloat 6.5)
    /\ dict_get features "name" = Some (VInt 0)
    /\ dict_get features "xG" = Some (VInt 0)
    /\ dict_get features "bonus" = Some (VFloat 3)
    /\ dict_get features "price" = Some (VFloat 0).
Proof.
  intros names row as_float infer_objects.
  assert (Hnames : NoDup names) by (apply (bool_decide_unpack _); vm_compute; exact I).
  assert (Hrow : NoDup (dict_keys row)) by (apply (bool_decide_unpack _); vm_compute; exact I).
  destruct (model_features_follow_the_model infer_objects names row
              [("price", VFloat 0); ("form", VFloat 6.5); ("bonus", VFloat 3)]%string
              Hnames Hrow eq_refl eq_refl)
    as (features & Hfeatures & Hkeys & Hget).
  assert (Hform : "form"%string ∈ names)
    by (apply (bool_decide_unpack _); vm_compute; exact I).
  assert (Hname : "name"%string ∈ names)
    by (apply (bool_decide_unpack _); vm_compute; exact I).
  assert (HxG : "xG"%string ∈ names)
    by (apply (bool_decide_unpack _); vm_compute; exact I).
  assert (Hbonus : "bonus"%string ∈ names)
    by (apply (bool_decide_unpack _); vm_compute; exact I).
  assert (Hprice : "price"%string ∈ names)
    by (apply (bool_decide_unpack _); vm_compute; exact I).
  assert (Hkept : forall n : string,
             bool_decide (n ∈ Orchestrator.id_columns) = false ->
             n ∉ Orchestrator.id_columns)
    by (intros n; apply bool_decide_eq_false_1).
  exists features. split; [exact Hfeatures|]. split; [exact Hkeys|].
  split; [|split; [|split; [|split]]].
  - destruct (Hget _ Hform) as [_ H].
    destruct H as (cell & Hc & ->);
      [apply Hkept; vm_compute; reflexivity | discriminate | symmetry; exact Hc].
  - destruct (Hget _ Hname) as [H _].
    apply H. left. apply (bool_decide_unpack _). vm_compute. exact I.
  - destruct (Hget _ HxG) as [H _].
    apply H. right. reflexivity.
  - destruct (Hget _ Hbonus) as [_ H].
    destruct H as (cell & Hc & ->);
      [apply Hkept; vm_compute; reflexivity | discriminate | symmetry; exact Hc].
  - destruct (Hget _ Hprice) as [_ H].
    destruct H as (cell & Hc & ->);
      [apply Hkept; vm_compute; reflexivity | discriminate | symmetry; exact Hc].
Defined.

(** ** Training orchestrator: the prediction loop *)

Section PredictionLoop.

Variable feature_names : Orchestrator.Predictor -> list string.
Variable predict : Orchestrator.Predictor -> dict pyval -> result pyval.
Variable py_str : pyval -> string.
Variable exn_str : exn -> string.
Variable infer_objects : dict pyval -> result (dict pyval).

(** The outcomes of one iteration on a row that has a [position] cell. *)
Lemma predict_row_cases (predictors : dict Orchestrator.Predictor)
    (row : dict pyval) (position : pyval) :
  dict_get row "position" = Some position ->
  let found := dict_get predictors (PyStr.str_lower (py_str position)) in
  let fallback := dict_get_default row "points_per_game" (VInt 0) in
  exists (pred : pyval) (records : list (Orchestrator.level * string)),
    Orchestrator.predict_row feature_names predict py_str exn_str infer_objects
      predictors row = Ok (pred, records)
    /\ ((found = None /\ pred = fallback /\ records = [])
        \/ exists predictor : Orchestrator.Predictor,
             found = Some predictor
             /\ ((feature_names predictor = [] /\ pred = fallback /\ records = [])
                 \/ (feature_names predictor <> []
                     /\ exists features : dict pyval,
                          Orchestrator.model_features infer_objects
                            (feature_names predictor) row = Ok features
                          /\ predict predictor features = Ok pred
                          /\ records = [])
                 \/ (feature_names predictor <> []
                     /\ exists e : exn,
                          (Orchestrator.model_features infer_objects
                             (feature_names predictor) row = Raise e
                           \/ exists features : dict pyval,
                                Orchestrator.model_features infer_objects
                                  (feature_names predictor) row = Ok features
                                /\ predict predictor features = Raise e)
                          /\ pred = fallback
                          /\ records
                             = [Orchestrator.failure_record py_str exn_str row e]))).
Proof using Type.
  intros Hpos found fallback.
  unfold Orchestrator.predict_row, dict_item. rewrite Hpos. cbn [bind]. fold found.
  destruct found as [predictor|]; cbn [Orchestrator.attempt].
  2:{ exists fallback, []. split; [reflexivity|]. left. auto. }
  destruct (feature_names predictor) as [|n names] eqn:En.
  { exists fallback, []. split; [reflexivity|]. right. exists predictor.
    split; [reflexivity|]. left. auto. }
  rewrite <- En.
  assert (Hne : feature_names predictor <> []) by (rewrite En; discriminate).
  destruct (Orchestrator.model_features infer_objects (feature_names predictor) row)
    as [features|e] eqn:Ef; cbn [bind].
  2:{ exists fallback, [Orchestrator.failure_record py_str exn_str row e].
      split; [reflexivity|]. right. exists predictor. split; [reflexivity|].
      right. right. split; [exact Hne|]. exists e. auto. }
  destruct (predict predictor features) as [pred|e] eqn:Ep.
  - exists pred, []. split; [reflexivity|]. right. exists predictor.
    split; [reflexivity|]. right. left. split; [exact Hne|]. exists features. auto.
  - exists fallback, [Orchestrator.failure_record py_str exn_str row e].
    split; [reflexivity|]. right. exists predictor. split; [reflexivity|].
    right. right. split; [exact Hne|]. exists e. split; [|auto].
    right. exists features. auto.
Qed.

End PredictionLoop.

(** X10. When every row of the table has a [position] cell the prediction
    loop ends without an exception and with exactly one value per row, so
    the column assignment that follows fits the table.  The value of a row
    is the answer of the predictor registered under the lower-cased
    [position] of the row, asked with the row's model features, when that
    predictor has feature names and neither [infer_objects] nor [predict]
    raises; in every other case it is the row's own [points_per_game] (0
    when absent).  The log gets one error record, naming the player, for
    each row on which one of the two raised, in row order, and nothing
    else.  A row without a [position] cell ends the run with [KeyError]. *)
Theorem prediction_loop_fills_every_row
    (feature_names : Orchestrator.Predictor -> list string)
    (predict : Orchestrator.Predictor -> dict pyval -> result pyval)
    (py_str : pyval -> string) (exn_str : exn -> string)
    (infer_objects : dict pyval -> result (dict pyval))
    (predictors : dict Orchestrator.Predictor) (rows : list (dict pyval)) :
  (Forall (fun row => exists position, dict_get row "position" = Some position) rows ->
   exists outcomes : list (pyval * list (Orchestrator.level * string)),
     Orchestrator.predict_loop feature_names predict py_str exn_str infer_objects
       predictors rows
     = Ok (map fst outcomes, concat (map snd outcomes))
     /\ Forall2
          (fun row outcome =>
             let pred := outcome.1 in
             let records := outcome.2 in
             let fallback := dict_get_default row "points_per_game" (VInt 0) in
             exists position : pyval,
               dict_get row "position" = Some position
               /\ match dict_get predictors (PyStr.str_lower (py_str position)) with
                  | None => pred = fallback /\ records = []
                  | Some predictor =>
                      (feature_names predictor = [] /\ pred = fallback /\ records = [])
                      \/ (feature_names predictor <> []
                          /\ exists features : dict pyval,
                               Orchestrator.model_features infer_objects
                                 (feature_names predictor) row = Ok features
                               /\ predict predictor features = Ok pred
                               /\ records = [])
                      \/ (feature_names predictor <> []
                          /\ exists e : exn,
                               (Orchestrator.model_features infer_objects
                                  (feature_names predictor) row = Raise e
                                \/ exists features : dict pyval,
                                     Orchestrator.model_features infer_objects
                                       (feature_names predictor) row = Ok features
                                     /\ predict predictor features = Raise e)
                               /\ pred = fallback
                               /\ records
                                  = [ (Orchestrator.ERROR,
                                       ("Prediction failed for player "
                                        ++ py_str (dict_get_default row "name"
                                                     (VStr "unknown"))
                                        ++ " (ID: "
                                        ++ py_str (dict_get_default row "player_id"
                                                     (VStr "N/A"))
                                        ++ "): " ++ exn_str e)%string) ])
                  end)
          rows outcomes)
  /\ (Exists (fun row => dict_get row "position" = None) rows ->
      Orchestrator.predict_loop feature_names predict py_str exn_str infer_objects
        predictors rows
      = Raise KeyError).
Proof.
  split.
  - induction 1 as [|row rows [position Hpos] _ IH]; [exists []; split; constructor|].
    destruct (predict_row_cases feature_names predict py_str exn_str infer_objects
                predictors row position Hpos) as (pred & records & Hrow & Hcases).
    destruct IH as (outcomes & Hloop & Hall).
    exists ((pred, records) :: outcomes).
    cbn [Orchestrator.predict_loop]. rewrite Hrow. cbn [bind]. rewrite Hloop. cbn [bind].
    split; [reflexivity|]. constructor; [|exact Hall].
    cbn [fst snd]. exists position. split; [exact Hpos|].
    destruct Hcases as [(-> & Hp & Hr) | (predictor & -> & Hcases)]; [auto|].
    exact Hcases.
  - induction rows as [|row rows IH]; intros Hex; [inversion Hex|].
    cbn [Orchestrator.predict_loop].
    destruct (dict_get row "position") as [position|] eqn:Hpos.
    + destruct (predict_row_cases feature_names predict py_str exn_str infer_objects
                  predictors row position Hpos) as (pred & records & Hrow & _).
      rewrite Hrow. cbn [bind]. rewrite IH; [reflexivity|].
      apply Exists_cons in Hex as [Hex | Hex]; [congruence | exact Hex].
    + unfold Orchestrator.predict_row, dict_item. now rewrite Hpos.
Qed.

Lemma prediction_loop_fills_every_row_witness :
  let predictor := Orchestrator.mkPredictor "elite" "MID" true in
  let predict := fun (_ : Orchestrator.Predictor) (features : dict pyval) =>
    match dict_get features "form" with
    | Some (VFloat x) => if PrimFloat.ltb 0 x then Ok (VFloat (x * 2)) else Raise ValueError
    | _ => Raise TypeError
    end in
  let py_str := fun v => match v with VStr s => s | _ => "7"%string end in
  let rows :=
    [ [("position", VStr "MID"); ("form", VFloat 3.5); ("points_per_game", VFloat 4)];
      [("position", VStr "GK"); ("form", VFloat 1)] ]%string in
  exists outcomes : list (pyval * list (Orchestrator.level * string)),
    Orchestrator.predict_loop (fun _ => ["form"]%string) predict py_str
      (fun _ => EmptyString) Ok [("mid", predictor)]%string rows
    = Ok (map fst outcomes, concat (map snd outcomes))
    /\ length outcomes = 2%nat.
Proof.
  intros predictor predict py_str rows.
  destruct (prediction_loop_fills_every_row (fun _ => ["form"]%string) predict py_str
              (fun _ => EmptyString) Ok [("mid", predictor)]%string rows)
    as [Hloop _].
  destruct Hloop as (outcomes & Hout & Hall).
  { repeat constructor; eexists; reflexivity. }
  exists outcomes. split; [exact Hout|].
  apply Forall2_length in Hall. now rewrite <- Hall.
Defined.

Example prediction_loop_example :
  let predictor := Orchestrator.mkPredictor "elite" "MID" true in
  let predict := fun (_ : Orchestrator.Predictor) (features : dict pyval) =>
    match dict_get features "form" with
    | Some (VFloat x) => if PrimFloat.ltb 0 x then Ok (VFloat (x * 2)) else Raise ValueError
    | _ => Raise TypeError
    end in
  let py_str := fun v => match v with VStr s => s | _ => "7"%string end in
  let exn_str := fun _ : exn => "no form"%string in
  let infer_objects := fun cells : dict pyval =>
    Ok (map (fun kv => (kv.1, match kv.2 with VInt n => VFloat (SF2Prim (PyFloat.round_dyadic n 0))
                                          | v => v end)) cells) in
  Orchestrator.predict_loop (fun _ => ["form"]%string) predict py_str exn_str infer_objects
    [("mid", predictor)]%string
    [ [("position", VStr "MID"); ("form", VFloat 3.5); ("points_per_game", VFloat 4)];
      [("player_id", VInt 7); ("name", VStr "Saka"); ("position", VStr "MID");
       ("form", VNone); ("points_per_game", VFloat 5)];
      [("position", VStr "GK"); ("form", VFloat 1)] ]%string
  = Ok ([VFloat 7; VFloat 5; VInt 0],
        [(Orchestrator.ERROR, "Prediction failed for player Saka (ID: 7): no form"%string)]).
Proof. vm_compute. reflexivity. Qed.

(** ** Training orchestrator: which tier a position ends up with *)

Section LoaderOrder.

Variable path_exists : string -> bool.
Variable load : string -> string -> bool.
Variable model_dir_str : string.

Lemma try_tiers_other_position (pos other : string) (tiers : list string)
    (st : Orchestrator.LoaderState) :
  other <> pos ->
  dict_get (Orchestrator.predictors
              (Orchestrator.try_tiers path_exists load model_dir_str pos tiers st)) other
  = dict_get (Orchestrator.predictors st) other.
Proof using Type.
  intros Hne. revert st.
  induction tiers as [|tier tiers IH]; intros st; cbn [Orchestrator.try_tiers];
    [reflexivity|].
  assert (E : String.eqb other pos = false) by now apply String.eqb_neq.
  destruct (Orchestrator.artifact_exists _ _ _ _); [|apply IH].
  destruct (load tier _); [|rewrite IH]; cbn [Orchestrator.predictors];
    now rewrite dict_get_set, E.
Qed.

Lemma resolve_position_other (pos other : string) (st : Orchestrator.LoaderState) :
  other <> pos ->
  dict_get (Orchestrator.predictors
              (Orchestrator.resolve_position path_exists load model_dir_str st pos)) other
  = dict_get (Orchestrator.predictors st) other.
Proof using Type.
  intros Hne. unfold Orchestrator.resolve_position.
  destruct (dict_get _ pos); cbn [Orchestrator.predictors];
    now apply try_tiers_other_position.
Qed.

Lemma resolve_position_first_usable (pos : string) (skipped : list string)
    (tier : string) (later : list string) (st : Orchestrator.LoaderState) :
  Orchestrator.tier_priority = skipped ++ tier :: later ->
  Forall (fun t => Orchestrator.usable path_exists load model_dir_str pos t = false)
    skipped ->
  Orchestrator.usable path_exists load model_dir_str pos tier = true ->
  let st' := Orchestrator.resolve_position path_exists load model_dir_str st pos in
  dict_get (Orchestrator.predictors st') pos
  = Some (Orchestrator.mkPredictor tier (PyStr.str_upper pos) true)
  /\ Orchestrator.log st' = Orchestrator.log st.
Proof using Type.
  intros Hprio Hskip Huse. unfold Orchestrator.resolve_position. rewrite Hprio.
  destruct (try_tiers_first_usable path_exists load model_dir_str pos skipped tier
              later st Hskip Huse) as (Hp & _ & Hl).
  cbn zeta in Hp, Hl. rewrite Hp. split; assumption.
Qed.

Lemma resolve_rest_keeps (pos : string) (rest : list string)
    (st : Orchestrator.LoaderState) :
  pos ∉ rest ->
  dict_get (Orchestrator.predictors
              (foldl (Orchestrator.resolve_position path_exists load model_dir_str)
                 st rest)) pos
  = dict_get (Orchestrator.predictors st) pos.
Proof using Type.
  revert st. induction rest as [|q rest IH]; intros st Hnot; [reflexivity|].
  apply not_elem_of_cons in Hnot as [Hne Hnot]. cbn [foldl].
  rewrite IH by exact Hnot. now apply resolve_position_other.
Qed.

Lemma try_tiers_attempts (pos : string) (tiers : list string)
    (st : Orchestrator.LoaderState) (a : string * string) :
  a ∈ Orchestrator.attempts
        (Orchestrator.try_tiers path_exists load model_dir_str pos tiers st) ->
  a ∈ Orchestrator.attempts st \/ a.1 = pos.
Proof using Type.
  revert st. induction tiers as [|tier tiers IH]; intros st;
    cbn [Orchestrator.try_tiers]; [auto|].
  destruct (Orchestrator.artifact_exists _ _ _ _); [|apply IH].
  destruct (load tier _).
  - cbn [Orchestrator.attempts]. rewrite elem_of_app, list_elem_of_singleton.
    intros [H | ->]; auto.
  - intros H. apply IH in H as [H | H]; [|auto].
    cbn [Orchestrator.attempts] in H.
    rewrite elem_of_app, list_elem_of_singleton in H. destruct H as [H | ->]; auto.
Qed.

Lemma resolve_rest_attempts (rest : list string) (st : Orchestrator.LoaderState)
    (a : string * string) :
  a ∈ Orchestrator.attempts
        (foldl (Orchestrator.resolve_position path_exists load model_dir_str) st rest) ->
  a ∈ Orchestrator.attempts st \/ a.1 ∈ rest.
Proof using Type.
  revert st. induction rest as [|q rest IH]; intros st; cbn [foldl]; [auto|].
  intros H. apply IH in H as [H | H]; [|right; now apply list_elem_of_further].
  unfold Orchestrator.resolve_position in H.
  assert (H' : a ∈ Orchestrator.attempts
                     (Orchestrator.try_tiers path_exists load model_dir_str q
                        Orchestrator.tier_priority st))
    by (destruct (dict_get _ q); exact H).
  apply try_tiers_attempts in H' as [H' | <-]; [auto|].
  right. apply list_elem_of_here.
Qed.

End LoaderOrder.

(** X11. For each of the four positions the loader registers the first tier,
    in the order stacking, elite, premium, basic, whose files are present and
    whose [load] succeeds, as a loaded predictor for the upper-cased
    position; tiers after it are not tried, and what happens for the other
    positions does not change it. *)
Theorem loader_registers_first_usable_tier (path_exists : string -> bool)
    (load : string -> string -> bool) (model_dir_str pos : string)
    (skipped : list string) (tier : string) (later : list string) :
  pos ∈ Orchestrator.positions ->
  Orchestrator.tier_priority = skipped ++ tier :: later ->
  Forall (fun t => Orchestrator.usable path_exists load model_dir_str pos t = false)
    skipped ->
  Orchestrator.usable path_exists load model_dir_str pos tier = true ->
  let st := Orchestrator.resolve_predictors path_exists load model_dir_str in
  dict_get (Orchestrator.predictors st) pos
  = Some (Orchestrator.mkPredictor tier (PyStr.str_upper pos) true)
  /\ (forall t, t ∈ later -> (pos, t) ∉ Orchestrator.attempts st).
Proof.
  intros Hpos Hprio Hskip Huse st.
  apply list_elem_of_split in Hpos as (before & rest & Hsplit).
  assert (Hnd : NoDup (before ++ pos :: rest))
    by (rewrite <- Hsplit; apply (bool_decide_unpack _); vm_compute; exact I).
  apply NoDup_app in Hnd as (_ & Hbefore & Hrest).
  apply NoDup_cons in Hrest as [Hrest _].
  unfold st, Orchestrator.resolve_predictors.
  rewrite Hsplit, foldl_app. cbn [foldl].
  set (st0 := foldl _ _ before).
  destruct (try_tiers_first_usable path_exists load model_dir_str pos skipped tier
              later st0 Hskip Huse) as (Hp & Ha & _).
  cbn zeta in Hp, Ha. rewrite <- Hprio in Hp, Ha.
  assert (Hst1 : Orchestrator.resolve_position path_exists load model_dir_str st0 pos
                 = Orchestrator.try_tiers path_exists load model_dir_str pos
                     Orchestrator.tier_priority st0)
    by (unfold Orchestrator.resolve_position; now rewrite Hp).
  rewrite Hst1. split.
  - rewrite resolve_rest_keeps by exact Hrest. exact Hp.
  - intros t Ht Hin.
    apply resolve_rest_attempts in Hin as [Hin | Hin]; [|contradiction].
    rewrite Ha in Hin.
    assert (Hprio_nd : NoDup (skipped ++ tier :: later))
      by (rewrite <- Hprio; apply (bool_decide_unpack _); vm_compute; exact I).
    apply NoDup_app in Hprio_nd as (_ & Hdisj & Hlater).
    apply NoDup_cons in Hlater as [Hlater _].
    rewrite !elem_of_app, list_elem_of_singleton in Hin.
    destruct Hin as [Hin | [Hin | Hin]].
    + unfold st0 in Hin. apply resolve_rest_attempts in Hin as [Hin | Hin].
      * inversion Hin.
      * apply (Hbefore pos Hin), list_elem_of_here.
    + apply list_elem_of_fmap in Hin as (t' & Heq & Hin). injection Heq as <-.
      apply list_elem_of_filter in Hin as [_ Hin].
      apply (Hdisj t Hin). now apply list_elem_of_further.
    + injection Hin as ->. contradiction.
Qed.

Lemma loader_registers_first_usable_tier_witness :
  let path_exists := fun p : string =>
    negb (String.eqb p "models/points_predictor_mid_stacking_stacking.joblib") in
  let load := fun tier _ : string => String.eqb tier "premium" in
  let st := Orchestrator.resolve_predictors path_exists load "models" in
  dict_get (Orchestrator.predictors st) "mid"
  = Some (Orchestrator.mkPredictor "premium" "MID" true)
  /\ ("mid", "basic")%string ∉ Orchestrator.attempts st.
Proof.
  intros path_exists load st.
  destruct (loader_registers_first_usable_tier path_exists load "models" "mid"
              ["stacking"; "elite"]%string "premium" ["basic"]%string)
    as [Hreg Hnot].
  - apply (bool_decide_unpack _). vm_compute. exact I.
  - reflexivity.
  - repeat constructor.
  - reflexivity.
  - split; [exact Hreg|]. apply Hnot, list_elem_of_here.
Defined.

(** ** Choosing the dataset file *)

Section DatasetChoice.

Import Datasets.

#[local] Instance str_ge_trans : Transitive str_ge.
Proof.
  intros a b c Hab Hbc. unfold str_ge in *.
  apply Is_true_true. apply Is_true_true in Hab, Hbc.
  exact (transitivity (R := String.le) Hbc Hab).
Qed.

#[local] Instance str_ge_antisym : AntiSymm (=) str_ge.
Proof. intros a b Hab Hba. now apply String.leb_antisym. Qed.

#[local] Instance str_ge_total : Total str_ge.
Proof. intros a b. unfold str_ge. destruct (String.leb_total a b); auto. Qed.

Lemma str_ge_refl (a : string) : str_ge a a.
Proof. destruct (str_ge_total a a); assumption. Qed.

Lemma sort_reverse_head (l : list string) :
  match head (sort_reverse l) with
  | Some f => f ∈ l /\ forall g, g ∈ l -> str_ge f g
  | None => l = []
  end.
Proof.
  unfold sort_reverse.
  pose proof (StronglySorted_merge_sort str_ge l) as Hsorted.
  pose proof (merge_sort_Permutation str_ge l) as Hperm.
  destruct (merge_sort str_ge l) as [|f rest]; cbn [head].
  - symmetry in Hperm. now apply Permutation_nil_r in Hperm.
  - split.
    + rewrite <- Hperm. apply list_elem_of_here.
    + intros g Hg. rewrite <- Hperm in Hg.
      apply elem_of_cons in Hg as [-> | Hg]; [apply str_ge_refl|].
      apply StronglySorted_inv in Hsorted as [_ Hall].
      exact (proj1 (Forall_forall _ _) Hall g Hg).
Qed.

Lemma latest_csv_perm (l l' : list string) :
  l' ≡ₚ l -> latest_csv l' = latest_csv l.
Proof.
  intros Hperm. unfold latest_csv, sort_reverse. f_equal.
  apply (Sorted_unique str_ge); try apply Sorted_merge_sort; try apply _.
  now rewrite !merge_sort_Permutation, Hperm.
Qed.

End DatasetChoice.

(** X15. The dataset a training step reads from a directory is the [.csv]
    entry that is greatest in the order of [str]; no entry means none is
    read.  The choice does not depend on the order in which the directory
    is listed. *)
Theorem latest_csv_is_greatest (listing : list string) :
  match Datasets.latest_csv listing with
  | Some f =>
      f ∈ listing /\ Datasets.endswith f ".csv" = true
      /\ forall g : string,
           g ∈ listing -> Datasets.endswith g ".csv" = true -> String.leb g f = true
  | None => forall g : string, g ∈ listing -> Datasets.endswith g ".csv" = false
  end
  /\ forall listing' : list string,
       listing' ≡ₚ listing -> Datasets.latest_csv listing' = Datasets.latest_csv listing.
Proof.
  split; [|intros listing'; apply latest_csv_perm].
  unfold Datasets.latest_csv.
  pose proof (sort_reverse_head
                (filter (fun f => Datasets.endswith f ".csv" = true) listing)) as H.
  destruct (head _) as [f|].
  - destruct H as [Hin Hmax]. apply list_elem_of_filter in Hin as [Hcsv Hin].
    split; [exact Hin|]. split; [exact Hcsv|].
    intros g Hg Hgcsv. apply Hmax. now apply list_elem_of_filter.
  - intros g Hg. apply not_true_is_false. intros Hcsv.
    assert (Hin : g ∈ filter (fun f => Datasets.endswith f ".csv" = true) listing)
      by now apply list_elem_of_filter.
    rewrite H in Hin. inversion Hin.
Qed.

Example latest_csv_example :
  Datasets.latest_csv
    [ "fpl_training_data_20240101_120000.csv"; "notes.txt";
      "fpl_training_data_multiseason.csv"; "fpl_training_data_20240315_090000.json";
      "fpl_training_data_20240315_090000.csv"; ".csv" ]%string
  = Some "fpl_training_data_multiseason.csv"%string.
Proof. vm_compute. reflexivity. Qed.

(** ** The backup file is not a dataset *)

Section BackupName.

Import Datasets.

Lemma last_char_app (s t : string) :
  t <> EmptyString -> last_char (s ++ t) = last_char t.
Proof.
  intros Ht. induction s as [|c s IH]; [reflexivity|].
  change (String c s ++ t)%string with (String c (s ++ t)).
  cbn [last_char]. rewrite IH.
  destruct (s ++ t)%string eqn:E; [|reflexivity].
  destruct s; [change (t = EmptyString) in E; congruence | discriminate E].
Qed.

Lemma substring_all (s : string) : String.substring 0 (String.length s) s = s.
Proof. induction s as [|c s IH]; cbn; [reflexivity | now rewrite IH]. Qed.

Lemma substring_split (k : nat) (s : string) :
  (k <= String.length s)%nat ->
  s = (String.substring 0 k s ++ String.substring k (String.length s - k) s)%string.
Proof.
  revert s. induction k as [|k IH]; intros s Hk.
  - rewrite Nat.sub_0_r, substring_all. now destruct s.
  - destruct s as [|c s]; [cbn in Hk; lia|].
    cbn [String.substring String.length Nat.sub].
    change (String c ?a ++ ?b)%string with (String c (a ++ b)).
    f_equal. apply IH. cbn in Hk. lia.
Qed.

Lemma endswith_inv (s suffix : string) :
  endswith s suffix = true -> exists pre : string, s = (pre ++ suffix)%string.
Proof.
  unfold endswith. intros H. apply andb_true_iff in H as [Hlen Heq].
  apply Nat.leb_le in Hlen. apply String.eqb_eq in Heq.
  remember (String.length suffix) as m eqn:Hm.
  exists (String.substring 0 (String.length s - m) s).
  rewrite <- Heq.
  pose proof (substring_split (String.length s - m) s ltac:(lia)) as Hsplit.
  replace (String.length s - (String.length s - m))%nat with m in Hsplit by lia.
  exact Hsplit.
Qed.

Lemma pretty_N_char_digit (d : N) : PyStr.is_digit (pretty_N_char d) = true.
Proof. unfold pretty_N_char. repeat case_match; reflexivity. Qed.

Lemma pretty_N_go_last (x : N) (s : string) :
  s <> EmptyString -> last_char (pretty_N_go x s) = last_char s.
Proof.
  revert s. induction (N.lt_wf_0 x) as [x _ IH]; intros s Hs.
  destruct (decide (x = 0)%N) as [-> | Hx]; [now rewrite pretty_N_go_0|].
  rewrite pretty_N_go_step by lia.
  rewrite IH; [|apply N.div_lt; lia | discriminate].
  destruct s; [congruence | reflexivity].
Qed.

Lemma pretty_N_last (x : N) :
  exists c : ascii, last_char (pretty x) = Some c /\ PyStr.is_digit c = true.
Proof.
  unfold pretty, pretty_N. destruct (decide (x = 0)%N) as [-> | Hx].
  - exists "0"%char. split; reflexivity.
  - rewrite pretty_N_go_step by lia.
    rewrite pretty_N_go_last by discriminate.
    eexists. split; [reflexivity | apply pretty_N_char_digit].
Qed.

Lemma pretty_Z_last (x : Z) :
  exists c : ascii, last_char (pretty x) = Some c /\ PyStr.is_digit c = true.
Proof.
  destruct x as [|p|p].
  - exists "0"%char. split; reflexivity.
  - apply (pretty_N_last (Npos p)).
  - destruct (pretty_N_last (Npos p)) as (c & Hc & Hd).
    exists c. split; [|exact Hd].
    change (pretty (Z.neg p)) with ("-" ++ pretty (Npos p))%string.
    rewrite last_char_app; [exact Hc|].
    intros E. rewrite E in Hc. discriminate Hc.
Qed.

Lemma string_app_assoc (a b c : string) : ((a ++ b) ++ c = a ++ (b ++ c))%string.
Proof.
  induction a as [|x a IH]; [reflexivity|].
  change (String x ((a ++ b) ++ c) = String x (a ++ (b ++ c)))%string. now rewrite IH.
Qed.

Lemma append_not_empty (s t : string) : t <> EmptyString -> (s ++ t)%string <> EmptyString.
Proof. destruct s; [trivial | discriminate]. Qed.

Lemma backup_name_not_csv (name : string) (pid now : Z) :
  endswith (Orchestrator.backup_path name (unique_id pid now)) ".csv" = false.
Proof.
  apply not_true_is_false. intros H. apply endswith_inv in H as [pre H].
  apply (f_equal last_char) in H.
  destruct (pretty_Z_last now) as (c & Hc & Hd).
  assert (Hne : pretty now <> EmptyString) by (intros E; rewrite E in Hc; discriminate Hc).
  unfold Orchestrator.backup_path, unique_id in H.
  rewrite (last_char_app pre) in H by discriminate.
  rewrite !last_char_app in H by (repeat apply append_not_empty; exact Hne).
  rewrite Hc in H. cbn in H. injection H as ->. discriminate Hd.
Qed.

End BackupName.

(** X16. The backup copy made before transfer training, named
    [<dataset>.bak_<pid>_<time>], does not end in [.csv]: while it lies next
    to the dataset, the training step that lists the directory chooses
    exactly the file it would choose without it, and the augmented dataset
    is the one that is read. *)
Theorem backup_is_never_the_dataset (listing : list string) (name dir : string)
    (pid now : Z) :
  let uid := Datasets.unique_id pid now in
  let backup := Orchestrator.backup_path name uid in
  Datasets.endswith backup ".csv" = false
  /\ Orchestrator.backup_path (Orchestrator.path_join dir name) uid
     = Orchestrator.path_join dir backup
  /\ (forall listing' : list string,
         listing' ≡ₚ backup :: listing ->
         Datasets.latest_csv listing' = Datasets.latest_csv listing).
Proof.
  intros uid backup.
  pose proof (backup_name_not_csv name pid now) as Hnot. fold uid backup in Hnot.
  split; [exact Hnot|]. split.
  - unfold backup, Orchestrator.backup_path, Orchestrator.path_join.
    now rewrite !string_app_assoc.
  - intros listing' Hperm. rewrite (latest_csv_perm _ _ Hperm).
    unfold Datasets.latest_csv. rewrite filter_cons_False; [reflexivity|].
    now rewrite Hnot.
Qed.

Example backup_is_never_the_dataset_example :
  let listing := ["fpl_training_data_20240101_120000.csv";
                  "fpl_training_data_20231224_080000.csv"]%string in
  Datasets.latest_csv
    (listing ++ [Orchestrator.backup_path "fpl_training_data_20240101_120000.csv"
                   (Datasets.unique_id 4321 1700000000)])
  = Some "fpl_training_data_20240101_120000.csv"%string
  /\ Datasets.unique_id 4321 1700000000 = "4321_1700000000"%string.
Proof. vm_compute. split; reflexivity. Qed.

(** ** Team rating: the answer always has the same shape *)

Section RatingShape.

Import TeamRating.

Variable get_player_fixture_difficulty : Z -> result (list (dict pyval)).
Variable float_sum : list float -> float.

Lemma shortfall_bounds (n least : Z) : 0 <= shortfall n least <= 10.
Proof. unfold shortfall. destruct (n <? least); lia. Qed.

Lemma mock_team_rating_keys (t : Team) (gameweek : Z) :
  dict_keys (mock_team_rating t gameweek) = ["score"; "suggestions"; "rating"]%string.
Proof.
  unfold mock_team_rating.
  destruct (players t) as [|p ps]; cbn [bind]; [reflexivity|].
  destruct (PyFloat.int_truediv _ _); reflexivity.
Qed.

(** A lookup that raises, finds no fixture, or finds a first fixture without
    a [difficulty] counts as difficulty 3.0. *)
Lemma avg_diff_of_default (p : Player) :
  match get_player_fixture_difficulty (id p) with
  | Raise _ | Ok [] => True
  | Ok (first :: _) => dict_get first "difficulty" = None
  end ->
  avg_diff_of get_player_fixture_difficulty p = VFloat 3.
Proof using Type.
  unfold avg_diff_of. destruct (get_player_fixture_difficulty (id p)) as [[|first rest]|e];
    cbn [bind]; try reflexivity.
  unfold dict_item. now intros ->.
Qed.

Lemma count_hard_fixtures_default (ps : list Player) (count : Z) :
  Forall (fun p => avg_diff_of get_player_fixture_difficulty p = VFloat 3) ps ->
  count_hard_fixtures get_player_fixture_difficulty ps count = Ok count.
Proof using Type.
  intros Hall. revert count.
  induction Hall as [|p ps Hp Hall IH]; intros count; cbn; [reflexivity|].
  rewrite Hp. cbn. apply IH.
Qed.

Lemma count_hard_fixtures_raises (ps : list Player) (count : Z) (p : Player) (e : exn) :
  p ∈ ps ->
  PyNum.as_num (avg_diff_of get_player_fixture_difficulty p) = Raise e ->
  exists e', count_hard_fixtures get_player_fixture_difficulty ps count = Raise e'.
Proof using Type.
  intros Hin Hp. revert count.
  induction ps as [|q ps IH]; intros count; [inversion Hin|].
  cbn [count_hard_fixtures].
  destruct (PyNum.as_num (avg_diff_of get_player_fixture_difficulty q)) as [d|e'] eqn:Eq;
    cbn [bind]; [|eauto].
  apply elem_of_cons in Hin as [-> | Hin]; [congruence|].
  now apply IH.
Qed.

End RatingShape.

(** X12. [rate_team] always returns, and what it returns always has the three
    keys score, suggestions and rating, in that order, on the rating path and
    on the fallback path alike.  On the rating path the score is an integer
    between 0 and 100. *)
Theorem rate_team_always_rates
    (get_player_fixture_difficulty : Z -> result (list (dict pyval)))
    (float_sum : list float -> float) (t : TeamRating.Team) (gameweek : Z) :
  exists d : dict pyval,
    TeamRating.rate_team get_player_fixture_difficulty float_sum t gameweek
    = TeamRating.Return d
    /\ dict_keys d = ["score"; "suggestions"; "rating"]%string
    /\ (forall hard : Z,
           TeamRating.count_hard_fixtures get_player_fixture_difficulty
             (TeamRating.players t) 0 = Ok hard ->
           exists sc : Z, dict_get d "score" = Some (VInt sc) /\ 0 <= sc <= 100).
Proof.
  unfold TeamRating.rate_team, TeamRating.rate_team_body, TeamRating.try_body.
  destruct (TeamRating.count_hard_fixtures get_player_fixture_difficulty
              (TeamRating.players t) 0) as [hard|e];
    cbn [TeamRating.lift TeamRating.try_catch TeamRating.then_].
  - eexists. split; [reflexivity|]. split; [reflexivity|].
    intros hard' _. eexists. split; [reflexivity|].
    set (ps := TeamRating.players t).
    pose proof (injuries_score ps (TeamRating.balance ps (TeamRating.mkLocals 100 [] 0)))
      as Hscore.
    rewrite balance_score in Hscore. cbn [TeamRating.score] in Hscore.
    pose proof (shortfall_bounds (TeamRating.players_at "GK" ps) 2).
    pose proof (shortfall_bounds (TeamRating.players_at "DEF" ps) 4).
    pose proof (shortfall_bounds (TeamRating.players_at "MID" ps) 4).
    pose proof (shortfall_bounds (TeamRating.players_at "FWD" ps) 2).
    assert (0 <= TeamRating.unavailable ps) by (unfold TeamRating.unavailable; lia).
    destruct (6 <? hard);
      destruct (PrimFloat.ltb (float_sum (map TeamRating.price ps)) 90);
      cbn [TeamRating.score]; lia.
  - eexists. split; [reflexivity|]. split; [apply mock_team_rating_keys|].
    intros hard' H. discriminate H.
Qed.

(** X13. A fixture lookup that raises, returns no fixture, or returns a first
    fixture without a difficulty does not disturb the rating: when that is
    so for every player, the rating is the one the team gets when no player
    has an upcoming fixture. *)
Theorem failed_fixture_lookups_are_neutral
    (get_player_fixture_difficulty : Z -> result (list (dict pyval)))
    (float_sum : list float -> float) (t : TeamRating.Team) (gameweek : Z) :
  Forall (fun p =>
            match get_player_fixture_difficulty (TeamRating.id p) with
            | Raise _ | Ok [] => True
            | Ok (first :: _) => dict_get first "difficulty" = None
            end) (TeamRating.players t) ->
  TeamRating.count_hard_fixtures get_player_fixture_difficulty (TeamRating.players t) 0
  = Ok 0
  /\ TeamRating.rate_team get_player_fixture_difficulty float_sum t gameweek
     = TeamRating.rate_team (fun _ => Ok []) float_sum t gameweek.
Proof.
  intros Hall.
  assert (Hcount : TeamRating.count_hard_fixtures get_player_fixture_difficulty
                     (TeamRating.players t) 0 = Ok 0).
  { apply count_hard_fixtures_default.
    eapply Forall_impl; [exact Hall|]. intros p Hp. now apply avg_diff_of_default. }
  assert (Hnone : TeamRating.count_hard_fixtures (fun _ => Ok [])
                    (TeamRating.players t) 0 = Ok 0).
  { apply count_hard_fixtures_default. apply Forall_forall. reflexivity. }
  split; [exact Hcount|].
  unfold TeamRating.rate_team, TeamRating.rate_team_body, TeamRating.try_body.
  now rewrite Hcount, Hnone.
Qed.

Lemma failed_fixture_lookups_are_neutral_witness :
  let p := fun (i : Z) (pos : string) => TeamRating.mkPlayer i "player" "club" pos 30 10 None in
  let t := TeamRating.mkTeam [p 1 "GK"; p 2 "DEF"; p 3 "FWD"] 90 10 in
  let lookup := fun i : Z =>
    if i =? 1 then Raise (RequestError "timed out")
    else if i =? 2 then Ok [] else Ok [[("gameweek", VInt 3)]%string] in
  TeamRating.rate_team lookup (foldl PrimFloat.add 0%float) t 3
  = TeamRating.rate_team (fun _ => Ok []) (foldl PrimFloat.add 0%float) t 3.
Proof.
  intros p t lookup.
  apply (failed_fixture_lookups_are_neutral lookup (foldl PrimFloat.add 0%float) t 3).
  repeat constructor.
Defined.

(** X14. One player whose next fixture carries a difficulty that is not a
    number is enough to abandon the rating: the comparison with 4 raises
    outside the inner handler, and [rate_team] answers with the mock rating
    of the whole team. *)
Theorem non_numeric_difficulty_falls_back_to_mock
    (get_player_fixture_difficulty : Z -> result (list (dict pyval)))
    (float_sum : list float -> float) (t : TeamRating.Team) (gameweek : Z)
    (p : TeamRating.Player) (first : dict pyval) (rest : list (dict pyval))
    (v : pyval) (e : exn) :
  p ∈ TeamRating.players t ->
  get_player_fixture_difficulty (TeamRating.id p) = Ok (first :: rest) ->
  dict_get first "difficulty" = Some v ->
  PyNum.as_num v = Raise e ->
  TeamRating.rate_team get_player_fixture_difficulty float_sum t gameweek
  = TeamRating.Return (TeamRating.mock_team_rating t gameweek).
Proof.
  intros Hin Hlookup Hd Hv.
  assert (Hp : PyNum.as_num (TeamRating.avg_diff_of get_player_fixture_difficulty p)
               = Raise e).
  { unfold TeamRating.avg_diff_of, dict_item. rewrite Hlookup. cbn [bind].
    now rewrite Hd. }
  destruct (count_hard_fixtures_raises get_player_fixture_difficulty _ 0 p e Hin Hp)
    as [e' He'].
  unfold TeamRating.rate_team, TeamRating.rate_team_body, TeamRating.try_body.
  now rewrite He'.
Qed.

Lemma non_numeric_difficulty_falls_back_to_mock_witness :
  let p := fun (i : Z) (pos : string) => TeamRating.mkPlayer i "player" "club" pos 30 40 None in
  let t := TeamRating.mkTeam [p 1 "GK"; p 2 "DEF"] 60 40 in
  let lookup := fun i : Z =>
    Ok [[("difficulty"%string, if i =? 2 then VStr "4" else VInt 2)]] in
  TeamRating.rate_team lookup (foldl PrimFloat.add 0%float) t 3
  = TeamRating.Return
      [ ("score", VFloat 80); ("suggestions", TeamRating.str_list []);
        ("rating", VStr "Good") ]%string.
Proof.
  intros p t lookup.
  rewrite (non_numeric_difficulty_falls_back_to_mock lookup (foldl PrimFloat.add 0%float)
             t 3 (p 2 "DEF") [("difficulty", VStr "4")]%string [] (VStr "4") TypeError).
  - vm_compute. reflexivity.
  - apply list_elem_of_further, list_elem_of_here.
  - reflexivity.
  - reflexivity.
  - reflexivity.
Defined.

(** ** Mock captain pick *)

Section MockCaptain.

Import TeamRating CaptainPicker.

Lemma max_by_total_points_spec (best : Player) (ps : list Player) :
  let m := max_by_total_points best ps in
  exists before after : list Player,
    best :: ps = before ++ m :: after
    /\ Forall (fun p => total_points p < total_points m) before
    /\ Forall (fun p => total_points p <= total_points m) after
    /\ total_points best <= total_points m.
Proof.
  revert best. induction ps as [|p ps IH]; intros best; cbn zeta.
  - exists [], []. repeat split; try constructor. cbn. lia.
  - cbn [max_by_total_points].
    destruct (total_points best <? total_points p) eqn:E.
    + destruct (IH p) as (before & after & Hsplit & Hb & Ha & Hle).
      apply Z.ltb_lt in E.
      remember (max_by_total_points p ps) as m eqn:Hm_def. clear Hm_def.
      exists (best :: before), after. rewrite Hsplit. split; [reflexivity|].
      split; [constructor; [lia | exact Hb]|]. split; [exact Ha | lia].
    + destruct (IH best) as (before & after & Hsplit & Hb & Ha & Hle).
      apply Z.ltb_ge in E.
      remember (max_by_total_points best ps) as m eqn:Hm_def. clear Hm_def.
      destruct before as [|b before]; cbn [app] in Hsplit.
      * injection Hsplit as Hm Hps.
        exists [], (p :: after). cbn [app]. rewrite <- Hm, Hps.
        split; [reflexivity|]. split; [constructor|]. split; [|lia].
        constructor; [exact E | now rewrite Hm].
      * injection Hsplit as Hbest Hps. subst b.
        apply Forall_cons in Hb as [Hlt Hb].
        exists (best :: p :: before), after. cbn [app]. rewrite Hps.
        split; [reflexivity|]. split; [|split; [exact Ha | lia]].
        constructor; [exact Hlt|]. constructor; [lia | exact Hb].
Qed.

End MockCaptain.

(** X17. The mock captain pick names a player of the team whose total points
    no other player of the team exceeds, and among equals the one listed
    first; a team without players gets no pick. *)
Theorem mock_captain_is_first_top_scorer (t : TeamRating.Team) (gameweek : Z)
    (subscription_tier : string) :
  match CaptainPicker.mock_captain_pick t gameweek subscription_tier with
  | Some pick =>
      exists (before : list TeamRating.Player) (best : TeamRating.Player)
             (after : list TeamRating.Player),
        TeamRating.players t = before ++ best :: after
        /\ Forall (fun p => TeamRating.total_points p < TeamRating.total_points best)
             before
        /\ Forall (fun p => TeamRating.total_points p <= TeamRating.total_points best)
             after
        /\ dict_get pick "name" = Some (VStr (TeamRating.name best))
        /\ dict_get pick "player_id" = Some (VInt (TeamRating.id best))
        /\ exists expected : float,
             PyFloat.int_truediv (TeamRating.total_points best) 10 = Ok expected
             /\ dict_get pick "expected_points" = Some (VFloat expected)
  | None =>
      TeamRating.players t = []
      \/ exists p : TeamRating.Player,
           p ∈ TeamRating.players t
           /\ PyFloat.int_truediv (TeamRating.total_points p) 10 = Raise OverflowError
  end.
Proof.
  unfold CaptainPicker.mock_captain_pick.
  destruct (TeamRating.players t) as [|p ps] eqn:Hps; [now left|].
  destruct (max_by_total_points_spec p ps) as (before & after & Hsplit & Hb & Ha & _).
  set (best := CaptainPicker.max_by_total_points p ps) in *.
  destruct (PyFloat.int_truediv (TeamRating.total_points best) 10) as [x|e] eqn:Ex.
  - exists before, best, after. repeat split; try assumption.
    exists x. split; [exact Ex | reflexivity].
  - right. exists best. split.
    + rewrite Hsplit. apply elem_of_app. right. apply list_elem_of_here.
    + unfold PyFloat.int_truediv in Ex |- *. cbn [Z.eqb] in Ex |- *.
      destruct (PyFloat.round_ratio _ _ _); try discriminate Ex. reflexivity.
Qed.

Example mock_captain_pick_example :
  let p := fun (i : Z) (n : string) (pts : Z) =>
    TeamRating.mkPlayer i n "club" "MID" 7.5 pts None in
  CaptainPicker.mock_captain_pick
    (TeamRating.mkTeam [p 1 "Saka" 120; p 2 "Salah" 211; p 3 "Haaland" 211] 22.5 0) 7 "basic"
  = Some [ ("name", VStr "Salah"); ("player_id", VInt 2);
           ("expected_points", VFloat 21.1);
           ("reasoning", VStr "Highest total points (211) and consistent performer")
         ]%string.
Proof. vm_compute. reflexivity. Qed.

(** ** The team endpoint *)

(** X19. [GET /team/{team_id}] never answers 404: the [HTTPException] raised
    for an empty team is caught by the handler's own [except Exception] and
    leaves as status 500, as does every failure of the lookup.  The only
    other answer is a non-empty list of players. *)
Theorem team_endpoint_never_answers_404
    (get_team_players : Z -> result (list pyval))
    (exn_str : TeamRouter.raised -> string) (team_id : Z) :
  match TeamRouter.get_team get_team_players exn_str team_id with
  | inl players => get_team_players team_id = Ok players /\ players <> []
  | inr (TeamRouter.HTTPException status_code detail) =>
      status_code = 500
      /\ (get_team_players team_id = Ok [] ->
          detail = exn_str (TeamRouter.HTTPException 404 "Team not found"))
  | inr (TeamRouter.App _) => False
  end.
Proof.
  unfold TeamRouter.get_team, TeamRouter.get_team_body.
  destruct (get_team_players team_id) as [[|p players]|e]; cbn.
  - split; [reflexivity | intros _; reflexivity].
  - split; [reflexivity | discriminate].
  - split; [reflexivity | discriminate].
Qed.

(** ** Queries over the cached snapshots *)

Section QueryFacts.

Import FplData FplQueries.

Lemma find_by_id_found (items : list pyval) (wanted : Z) (x : pyval) :
  find_by_id items wanted = Ok (Some x)
  <-> exists before after : list pyval,
        items = before ++ x :: after
        /\ (exists v, py_item x "id" = Ok v /\ eq_int v wanted = true)
        /\ Forall (fun y => exists v, py_item y "id" = Ok v /\ eq_int v wanted = false)
             before.
Proof.
  split.
  - revert x. induction items as [|y items IH]; intros x H; cbn [find_by_id] in H;
      [discriminate|].
    destruct (py_item y "id") as [v|] eqn:Ev; cbn [bind] in H; [|discriminate].
    destruct (eq_int v wanted) eqn:Eeq.
    + injection H as <-. exists [], items. repeat split; eauto.
    + destruct (IH x H) as (before & after & -> & Hx & Hb).
      exists (y :: before), after. repeat split; eauto.
  - intros (before & after & -> & (v & Hv & Heq) & Hb).
    induction Hb as [|y before (vy & Hvy & Hne) Hb IH]; cbn [app find_by_id].
    + now rewrite Hv; cbn [bind]; rewrite Heq.
    + now rewrite Hvy; cbn [bind]; rewrite Hne.
Qed.

Lemma find_by_id_absent (items : list pyval) (wanted : Z) :
  find_by_id items wanted = Ok None
  <-> Forall (fun y => exists v, py_item y "id" = Ok v /\ eq_int v wanted = false) items.
Proof.
  split.
  - induction items as [|y items IH]; intros H; cbn [find_by_id] in H; [constructor|].
    destruct (py_item y "id") as [v|] eqn:Ev; cbn [bind] in H; [|discriminate].
    destruct (eq_int v wanted) eqn:Eeq; [discriminate|].
    constructor; eauto.
  - induction 1 as [|y items (v & Hv & Hne) _ IH]; cbn [find_by_id]; [reflexivity|].
    now rewrite Hv; cbn [bind]; rewrite Hne.
Qed.

(** A call for the bootstrap snapshot sends at most one request. *)
Lemma bootstrap_requests (call : Call) (w : World) :
  let w' := (get_bootstrap_data call w).2 in
  requests w' = requests w \/ requests w' = requests w ++ [BOOTSTRAP_URL].
Proof.
  unfold get_bootstrap_data.
  destruct (bootstrap_data (data_cache w)); [destruct (_ && _)|];
    destruct (response call); cbn; auto.
Qed.

Lemma player_by_id_state (player_id : Z) (call : Call) (w : World) :
  (get_player_by_id player_id call w).2 = (get_bootstrap_data call w).2.
Proof.
  unfold get_player_by_id, get_players, bootstrap_list.
  now destruct (get_bootstrap_data call w).
Qed.

Lemma player_by_id_result (player_id : Z) (call : Call) (w : World)
    (snapshot : dict pyval) :
  (get_bootstrap_data call w).1 = Ok (VDict snapshot) ->
  (get_player_by_id player_id call w).1
  = let* items := TrainingData.py_iter
                    (dict_get_default snapshot "elements" (VList [])) in
    find_by_id items player_id.
Proof.
  unfold get_player_by_id, get_players, bootstrap_list.
  destruct (get_bootstrap_data call w) as [r w']. cbn [fst]. now intros ->.
Qed.

End QueryFacts.

(** X20. [get_player_by_id] answers from the bootstrap snapshot with at most
    one request: the first element whose [id] equals the wanted id, wherever
    every element before it has an [id] of its own, and [None] exactly when
    every element has an [id] and none equals the wanted one. *)
Theorem get_player_by_id_finds_first (player_id : Z) (call : FplData.Call)
    (w : FplData.World) (snapshot : dict pyval) (elements : list pyval) :
  (FplData.get_bootstrap_data call w).1 = Ok (VDict snapshot) ->
  dict_get snapshot "elements" = Some (VList elements) ->
  let out := FplQueries.get_player_by_id player_id call w in
  (forall x : pyval,
      out.1 = Ok (Some x)
      <-> exists before after : list pyval,
            elements = before ++ x :: after
            /\ (exists v, FplQueries.py_item x "id" = Ok v
                          /\ FplQueries.eq_int v player_id = true)
            /\ Forall (fun y => exists v, FplQueries.py_item y "id" = Ok v
                                          /\ FplQueries.eq_int v player_id = false)
                 before)
  /\ (out.1 = Ok None
      <-> Forall (fun y => exists v, FplQueries.py_item y "id" = Ok v
                                     /\ FplQueries.eq_int v player_id = false)
            elements)
  /\ out.2 = (FplData.get_bootstrap_data call w).2
  /\ (FplData.requests out.2 = FplData.requests w
      \/ FplData.requests out.2 = FplData.requests w ++ [FplData.BOOTSTRAP_URL]).
Proof.
  intros Hboot Helements out.
  assert (Hres : out.1 = FplQueries.find_by_id elements player_id).
  { unfold out. rewrite (player_by_id_result player_id call w snapshot Hboot).
    unfold dict_get_default. now rewrite Helements. }
  assert (Hstate : out.2 = (FplData.get_bootstrap_data call w).2)
    by apply player_by_id_state.
  split; [intros x; rewrite Hres; apply find_by_id_found|].
  split; [rewrite Hres; apply find_by_id_absent|].
  split; [exact Hstate|].
  rewrite Hstate. apply bootstrap_requests.
Qed.

Lemma get_player_by_id_finds_first_witness :
  let salah := VDict [("id", VInt 2); ("web_name", VStr "Salah")]%string in
  let snapshot :=
    [("elements", VList [VDict [("id", VInt 1)]%string; salah;
                         VDict [("id", VFloat 2)]%string; VStr "junk"])]%string in
  let w := FplData.mkWorld FplData.empty_cache [] in
  let call := FplData.mkCall 0 (Ok (VDict snapshot)) 5 in
  (FplQueries.get_player_by_id 2 call w).1 = Ok (Some salah)
  /\ FplData.requests (FplQueries.get_player_by_id 2 call w).2 = [FplData.BOOTSTRAP_URL].
Proof.
  intros salah snapshot w call.
  destruct (get_player_by_id_finds_first 2 call w snapshot
              [VDict [("id", VInt 1)]%string; salah;
               VDict [("id", VFloat 2)]%string; VStr "junk"] eq_refl eq_refl)
    as (Hfound & _ & Hstate & _).
  split.
  - apply Hfound. exists [VDict [("id", VInt 1)]%string], [VDict [("id", VFloat 2)]%string; VStr "junk"].
    split; [reflexivity|]. split.
    + exists (VInt 2). split; reflexivity.
    + repeat constructor. exists (VInt 1). split; reflexivity.
  - rewrite Hstate. reflexivity.
Defined.

Section HistoryFacts.

Import FplData FplQueries.

Lemma spread_get (d more : dict pyval) (k : string) :
  NoDup (dict_keys more) ->
  dict_get (foldl (fun d kv => dict_set d kv.1 kv.2) d more) k
  = match dict_get more k with
    | Some v => Some v
    | None => dict_get d k
    end.
Proof.
  revert d. induction more as [|[k0 v0] more IH]; intros d Hnd; cbn [foldl];
    [reflexivity|].
  apply NoDup_cons in Hnd as [Hk Hnd]. cbn [fst snd] in Hk |- *.
  rewrite IH by exact Hnd. rewrite dict_get_set. cbn [dict_get].
  destruct (String.eqb k k0) eqn:E; [|reflexivity].
  apply String.eqb_eq in E as ->.
  apply dict_get_None in Hk. now rewrite Hk.
Qed.

Lemma found_player_is_record (player_id : Z) (call : Call) (w : World) (x : pyval) :
  (get_player_by_id player_id call w).1 = Ok (Some x) ->
  exists player : dict pyval, x = VDict player /\ py_truthy x = true.
Proof.
  unfold get_player_by_id. destruct (get_players call w) as [r w1]. cbn [fst].
  intros H. bind_inv H. bind_inv H.
  apply find_by_id_found in H as (_ & _ & _ & (v & Hv & _) & _).
  destruct x as [| | | | | |d]; try discriminate Hv.
  exists d. split; [reflexivity|].
  destruct d; [discriminate Hv | reflexivity].
Qed.

End HistoryFacts.

(** X21. [get_player_with_history] for an id that no element of the snapshot
    carries raises "Player with ID <id> not found" without asking for the
    player's details.  For a player it finds, the answer is the player's own
    record with two keys set: [history] and [fixtures], each read from the
    player's details and empty when the details lack it; every other key
    keeps the player's value. *)
Theorem get_player_with_history_merges (player_id : Z) (boot detail : FplData.Call)
    (w : FplData.World) :
  let looked := FplQueries.get_player_by_id player_id boot w in
  let fetched := FplData.get_player_detail_data player_id detail looked.2 in
  let out := FplQueries.get_player_with_history player_id boot detail w in
  (looked.1 = Ok None ->
   out = (Raise (FplQueries.player_not_found player_id), looked.2))
  /\ (forall e : exn, looked.1 = Raise e -> out = (Raise e, looked.2))
  /\ (forall x : pyval,
         looked.1 = Ok (Some x) ->
         exists player : dict pyval,
           x = VDict player
           /\ out.2 = fetched.2
           /\ match fetched.1 with
              | Ok (VDict details) =>
                  exists merged : dict pyval,
                    out.1 = Ok (VDict merged)
                    /\ dict_get merged "history"
                       = Some (dict_get_default details "history" (VList []))
                    /\ dict_get merged "fixtures"
                       = Some (dict_get_default details "fixtures" (VList []))
                    /\ forall k : string,
                         k <> "history"%string -> k <> "fixtures"%string ->
                         dict_get merged k = dict_get player k
              | Ok _ => out.1 = Raise AttributeError
              | Raise e => out.1 = Raise e
              end).
Proof.
  intros looked fetched out.
  assert (Hrecord : forall x, looked.1 = Ok (Some x) ->
                      exists player, x = VDict player /\ py_truthy x = true)
    by (intros x; apply found_player_is_record).
  unfold out, fetched, FplQueries.get_player_with_history.
  fold looked. destruct looked as [[[found|]|e0] w1]; cbn [fst snd] in *.
  - split; [discriminate|]. split; [discriminate|].
    intros x Hx. injection Hx as ->.
    destruct (Hrecord x eq_refl) as (player & -> & Htruthy). rewrite Htruthy.
    exists player. split; [reflexivity|].
    destruct (FplData.get_player_detail_data player_id detail w1)
      as [[details|e] w2]; cbn [fst snd bind]; split; try reflexivity.
    destruct details as [| | | | | |d]; try reflexivity.
    cbn [TrainingData.py_get bind FplQueries.spread].
    eexists. split; [reflexivity|].
    assert (Hnd : NoDup (dict_keys
                           [("history", dict_get_default d "history" (VList []));
                            ("fixtures", dict_get_default d "fixtures" (VList []))]%string))
      by (apply (bool_decide_unpack _); vm_compute; exact I).
    split; [|split].
    + now rewrite spread_get.
    + now rewrite spread_get.
    + intros k Hh Hf. rewrite spread_get by exact Hnd. cbn [dict_get].
      apply String.eqb_neq in Hh, Hf. now rewrite Hh, Hf.
  - split; [reflexivity|]. split; discriminate.
  - split; [discriminate|]. split; [|discriminate].
    intros e He. now injection He as ->.
Qed.

Example get_player_with_history_example :
  let salah := VDict [("id", VInt 2); ("history", VStr "stale")]%string in
  let snapshot := VDict [("elements", VList [salah])]%string in
  let details := VDict [("history", VList [VDict [("minutes", VInt 90)]%string])]%string in
  let w := FplData.mkWorld FplData.empty_cache [] in
  let boot := FplData.mkCall 0 (Ok snapshot) 5 in
  let detail := FplData.mkCall 6 (Ok details) 9 in
  FplQueries.get_player_with_history 2 boot detail w
  = (Ok (VDict [("id", VInt 2);
                ("history", VList [VDict [("minutes", VInt 90)]%string]);
                ("fixtures", VList [])]%string),
     (FplData.get_player_detail_data 2 detail (FplData.get_bootstrap_data boot w).2).2)
  /\ FplData.requests (FplQueries.get_player_with_history 7 boot detail w).2
     = [FplData.BOOTSTRAP_URL]
  /\ (FplQueries.get_player_with_history 7 boot detail w).1
     = Raise (Exception "Player with ID 7 not found").
Proof. vm_compute. repeat split. Qed.

Section GameweekFacts.

Import FplData FplQueries.

Lemma first_flagged_spec (flag : string) (events : list pyval) :
  Forall (fun e => exists v, py_item e flag = Ok v) events ->
  (exists before gw after,
      events = before ++ gw :: after
      /\ first_flagged flag events = Ok (Some gw)
      /\ (exists v, py_item gw flag = Ok v /\ py_truthy v = true)
      /\ Forall (fun e => exists v, py_item e flag = Ok v /\ py_truthy v = false) before)
  \/ (first_flagged flag events = Ok None
      /\ Forall (fun e => exists v, py_item e flag = Ok v /\ py_truthy v = false) events).
Proof.
  induction 1 as [|e events [v Hv] _ IH]; [right; split; [reflexivity | constructor]|].
  cbn [first_flagged]. rewrite Hv. cbn [bind].
  destruct (py_truthy v) eqn:Et.
  - left. exists [], e, events. repeat split; eauto.
  - destruct IH as [(before & gw & after & -> & Hres & Hgw & Hb) | [Hres Hall]].
    + left. exists (e :: before), gw, after. repeat split; eauto.
    + right. split; [exact Hres|]. constructor; eauto.
Qed.

End GameweekFacts.

(** X22. When every event of the snapshot carries both flags,
    [get_current_gameweek] returns without error: the first event flagged
    as current, wherever it stands; if there is none, the first event
    flagged as next; if there is none either, the first event; and the empty
    dict for a snapshot without events. *)
Theorem current_gameweek_priority (call : FplData.Call) (w : FplData.World)
    (snapshot : dict pyval) (events : list pyval) :
  (FplData.get_bootstrap_data call w).1 = Ok (VDict snapshot) ->
  dict_get_default snapshot "events" (VList []) = VList events ->
  Forall (fun e => (exists v, FplQueries.py_item e "is_current" = Ok v)
                   /\ (exists v, FplQueries.py_item e "is_next" = Ok v)) events ->
  let flagged (flag : string) (b : bool) (e : pyval) :=
    exists v, FplQueries.py_item e flag = Ok v /\ py_truthy v = b in
  exists gw : pyval,
    (FplQueries.get_current_gameweek call w).1 = Ok gw
    /\ ((exists before after,
            events = before ++ gw :: after
            /\ flagged "is_current"%string true gw
            /\ Forall (flagged "is_current"%string false) before)
        \/ (Forall (flagged "is_current"%string false) events
            /\ exists before after,
                 events = before ++ gw :: after
                 /\ flagged "is_next"%string true gw
                 /\ Forall (flagged "is_next"%string false) before)
        \/ (Forall (flagged "is_current"%string false) events
            /\ Forall (flagged "is_next"%string false) events
            /\ gw = hd (VDict []) events)).
Proof.
  intros Hboot Hevents Hwf flagged.
  unfold FplQueries.get_current_gameweek.
  destruct (FplData.get_bootstrap_data call w) as [r w']. cbn [fst] in *. subst r.
  cbn [bind TrainingData.py_get]. rewrite Hevents. cbn [bind TrainingData.py_iter].
  destruct (first_flagged_spec "is_current" events)
    as [(before & gw & after & Hsplit & Hres & Hgw & Hb) | [Hres Hnone]].
  { eapply Forall_impl; [exact Hwf|]. now intros e [Hc _]. }
  { rewrite Hres. cbn [bind]. exists gw. split; [reflexivity|]. left. eauto. }
  rewrite Hres. cbn [bind].
  destruct (first_flagged_spec "is_next" events)
    as [(before & gw & after & Hsplit & Hres' & Hgw & Hb) | [Hres' Hnone']].
  { eapply Forall_impl; [exact Hwf|]. now intros e [_ Hn]. }
  { rewrite Hres'. cbn [bind]. exists gw. split; [reflexivity|]. right. left. eauto 6. }
  rewrite Hres'. cbn [bind].
  exists (hd (VDict []) events). split; [now destruct events|].
  right. right. auto.
Qed.

Lemma current_gameweek_priority_witness :
  let gw := fun (i : Z) (cur nxt : bool) =>
    VDict [("id", VInt i); ("is_current", VBool cur); ("is_next", VBool nxt)]%string in
  let snapshot := [("events", VList [gw 1 false false; gw 2 false true; gw 3 true false])]%string in
  let w := FplData.mkWorld FplData.empty_cache [] in
  (FplQueries.get_current_gameweek (FplData.mkCall 0 (Ok (VDict snapshot)) 5) w).1
  = Ok (gw 3 true false).
Proof.
  intros gw snapshot w.
  destruct (current_gameweek_priority (FplData.mkCall 0 (Ok (VDict snapshot)) 5) w
              snapshot [gw 1 false false; gw 2 false true; gw 3 true false]
              eq_refl eq_refl) as (found & Hfound & _).
  - repeat constructor; eexists; reflexivity.
  - rewrite Hfound. vm_compute in Hfound. injection Hfound as <-. reflexivity.
Defined.

Section FixtureFacts.

Import FplData FplQueries.

Lemma keep_spec (test : pyval -> result bool) (objects kept : list (nat * pyval)) :
  keep test objects = Ok kept ->
  sublist kept objects /\ Forall (fun o => test o.2 = Ok true) kept.
Proof.
  revert kept. induction objects as [|[i f] objects IH]; intros kept H; cbn [keep] in H.
  - injection H as <-. split; constructor.
  - bind_inv H. bind_inv H. injection H as <-.
    destruct (IH _ E0) as [Hsub Hall]. destruct a.
    + split; [now constructor | constructor; assumption].
    + split; [now constructor | assumption].
Qed.

Lemma imap_pair_lookup (store : list pyval) (i : nat) (f : pyval) :
  (i, f) ∈ imap pair store <-> store !! i = Some f.
Proof.
  rewrite list_elem_of_lookup. split.
  - intros [j Hj]. rewrite list_lookup_imap in Hj.
    destruct (store !! j) eqn:E; cbn in Hj; [|discriminate].
    now injection Hj as -> ->.
  - intros H. exists i. rewrite list_lookup_imap, H. reflexivity.
Qed.

Lemma imap_pair_NoDup (store : list pyval) : NoDup (imap pair store).*1.
Proof.
  apply NoDup_alt. intros i j k Hi Hj.
  rewrite list_lookup_fmap, list_lookup_imap in Hi, Hj.
  destruct (store !! i); cbn in Hi; [|discriminate].
  destruct (store !! j); cbn in Hj; [|discriminate].
  congruence.
Qed.

Lemma flag_ok (team_id : Z) (fixture fixture' : pyval) :
  flag team_id fixture = (Ok tt, fixture') ->
  exists (d : dict pyval) (h opponent : pyval),
    fixture = VDict d
    /\ dict_get d "team_h" = Some h
    /\ (if eq_int h team_id then dict_get d "team_a" else dict_get d "team_h")
       = Some opponent
    /\ fixture'
       = VDict (dict_set (dict_set d "is_home" (VBool (eq_int h team_id)))
                  "opponent" opponent).
Proof.
  unfold flag. destruct fixture as [| | | | | |d]; try discriminate.
  cbn [py_item py_setitem]. unfold dict_item.
  destruct (dict_get d "team_h") as [h|] eqn:Hh; [|discriminate].
  rewrite !dict_get_set. cbn [String.eqb Ascii.eqb Bool.eqb bind py_truthy].
  rewrite Hh.
  destruct (eq_int h team_id) eqn:Eh.
  - destruct (dict_get d "team_a") as [a|] eqn:Ha; [|discriminate].
    intros H. injection H as <-. exists d, h, a. rewrite Eh. auto.
  - intros H. injection H as <-. exists d, h, h. rewrite Eh. auto.
Qed.

Lemma flag_loop_spec (team_id : Z) (selected : list (nat * pyval))
    (store store' : list pyval) :
  flag_loop team_id selected store = (Ok tt, store') ->
  NoDup selected.*1 ->
  Forall (fun o => store !! o.1 = Some o.2) selected ->
  length store' = length store
  /\ (forall i, i ∉ selected.*1 -> store' !! i = store !! i)
  /\ Forall (fun o => exists f', flag team_id o.2 = (Ok tt, f') /\ store' !! o.1 = Some f')
       selected.
Proof.
  revert store. induction selected as [|[i f] selected IH]; intros store H Hnd Hall;
    cbn [flag_loop] in H.
  - injection H as <-. repeat split; constructor.
  - destruct (flag team_id f) as [[[]|e] f'] eqn:Ef; [|discriminate H].
    rewrite fmap_cons in Hnd.
    apply NoDup_cons in Hnd as [Hi Hnd]. apply Forall_cons in Hall as [Hf Hall].
    cbn [fst snd] in *.
    destruct (IH _ H Hnd) as (Hlen & Hout & Hin).
    { apply Forall_forall. intros [j g] Hj. cbn [fst snd].
      rewrite list_lookup_insert_ne.
      - exact (proj1 (Forall_forall _ _) Hall (j, g) Hj).
      - intros <-. apply Hi. apply list_elem_of_fmap. now exists (i, g). }
    rewrite length_insert in Hlen. split; [exact Hlen|]. split.
    + intros j Hj. rewrite fmap_cons in Hj. apply not_elem_of_cons in Hj as [Hne Hj].
      rewrite Hout by exact Hj. now rewrite list_lookup_insert_ne.
    + constructor; [|exact Hin]. cbn [fst snd]. exists f'. split; [exact Ef|].
      rewrite Hout by exact Hi.
      apply list_lookup_insert_eq. apply lookup_lt_Some in Hf. exact Hf.
Qed.

Lemma fixtures_data_after (call : Call) (w : World) (payload : pyval) :
  (get_fixtures_data call w).1 = Ok payload ->
  fixtures_data (data_cache (get_fixtures_data call w).2) = Some payload.
Proof.
  unfold get_fixtures_data.
  destruct (fixtures_data (data_cache w)) as [v|] eqn:Hv.
  - destruct (py_truthy v && _).
    + cbn. intros H. injection H as <-. exact Hv.
    + destruct (response call) as [a|]; cbn; [|discriminate].
      destruct a; cbn; try discriminate; now intros [= <-].
  - destruct (response call) as [a|]; cbn; [|discriminate].
    destruct a; cbn; try discriminate; now intros [= <-].
Qed.

End FixtureFacts.

Section FixtureFacts2.

Import FplData FplQueries.

Lemma keep_complete (test : pyval -> result bool) (objects kept : list (nat * pyval))
    (o : nat * pyval) :
  keep test objects = Ok kept -> o ∈ objects -> test o.2 = Ok true -> o ∈ kept.
Proof.
  revert kept. induction objects as [|[i f] objects IH]; intros kept H Hin Ht;
    cbn [keep] in H; [inversion Hin|].
  bind_inv H. bind_inv H. injection H as <-.
  apply elem_of_cons in Hin as [-> | Hin].
  - cbn [snd] in Ht. rewrite Ht in E. injection E as <-. apply list_elem_of_here.
  - specialize (IH _ E0 Hin Ht). destruct a; [now apply list_elem_of_further | exact IH].
Qed.

Lemma involves_ok (team_id : Z) (fixture : pyval) :
  involves team_id fixture = Ok true ->
  exists (d : dict pyval) (a : pyval),
    fixture = VDict d /\ dict_get d "team_a" = Some a
    /\ (eq_int a team_id = true
        \/ exists h, dict_get d "team_h" = Some h /\ eq_int h team_id = true).
Proof.
  unfold involves. destruct fixture as [| | | | | |d]; try discriminate.
  cbn [py_item]. unfold dict_item.
  destruct (dict_get d "team_a") as [a|] eqn:Ha; [|discriminate]. cbn [bind].
  destruct (eq_int a team_id) eqn:Ea.
  - intros _. exists d, a. auto.
  - destruct (dict_get d "team_h") as [h|] eqn:Hh; [|discriminate]. cbn [bind].
    intros H. injection H as H. exists d, a. eauto 6.
Qed.

Lemma unfinished_ok (fixture : pyval) (d : dict pyval) :
  fixture = VDict d -> unfinished fixture = Ok true ->
  exists f, dict_get d "finished" = Some f /\ eq_int f 0 = true.
Proof.
  intros ->. unfold unfinished. cbn [py_item]. unfold dict_item.
  destruct (dict_get d "finished") as [f|] eqn:Hf; [|discriminate]. cbn [bind].
  intros H. injection H as H. eauto.
Qed.

End FixtureFacts2.

(** X23. [get_team_fixtures] returns objects of the cached list of all
    fixtures and writes on them.  After a successful call the returned
    fixtures are the cached fixtures that involve the team (and, unless
    finished ones are asked for, whose [finished] equals [False]); each of
    them now carries [is_home], true when the team is its home side, and
    [opponent], the other side; every other cached fixture is as it was, and
    no request is sent beyond the one the fixtures snapshot may need. *)
Theorem team_fixtures_flag_the_cached_objects (team_id : Z) (include_finished : bool)
    (call : FplData.Call) (w w' : FplData.World) (store : list pyval)
    (refs : list nat) :
  (FplData.get_fixtures_data call w).1 = Ok (VList store) ->
  FplQueries.get_team_fixtures team_id include_finished call w = (Ok refs, w') ->
  exists store' : list pyval,
    FplData.fixtures_data (FplData.data_cache w') = Some (VList store')
    /\ FplData.requests w' = FplData.requests (FplData.get_fixtures_data call w).2
    /\ length store' = length store
    /\ (forall i : nat, i ∉ refs -> store' !! i = store !! i)
    /\ (forall (i : nat) (fixture : pyval),
          store !! i = Some fixture ->
          FplQueries.involves team_id fixture = Ok true ->
          (include_finished = false -> FplQueries.unfinished fixture = Ok true) ->
          i ∈ refs)
    /\ (forall i : nat,
          i ∈ refs ->
          exists (d : dict pyval) (h a : pyval),
            store !! i = Some (VDict d)
            /\ dict_get d "team_h" = Some h
            /\ dict_get d "team_a" = Some a
            /\ (FplQueries.eq_int a team_id = true
                \/ FplQueries.eq_int h team_id = true)
            /\ (include_finished = false ->
                exists f, dict_get d "finished" = Some f
                          /\ FplQueries.eq_int f 0 = true)
            /\ store' !! i
               = Some (VDict
                         (dict_set
                            (dict_set d "is_home"
                               (VBool (FplQueries.eq_int h team_id)))
                            "opponent"
                            (if FplQueries.eq_int h team_id then a else h)))).
Proof.
  intros Hdata H. unfold FplQueries.get_team_fixtures in H.
  destruct (FplData.get_fixtures_data call w) as [r w1] eqn:Hget.
  cbn [fst snd] in *. subst r. cbn [TrainingData.py_iter bind] in H.
  destruct (FplQueries.keep (FplQueries.involves team_id) (imap pair store))
    as [mine|] eqn:Hmine; cbn [bind] in H; [|discriminate H].
  destruct (if include_finished then Ok mine
            else FplQueries.keep FplQueries.unfinished mine)
    as [selected|] eqn:Hsel; [|discriminate H].
  destruct (FplQueries.flag_loop team_id selected store) as [[[]|e] store'] eqn:Hloop;
    cbn [bind] in H; [|discriminate H].
  injection H as <- <-.
  destruct (keep_spec _ _ _ Hmine) as [Hsub_mine Hall_mine].
  assert (Hsub : sublist selected mine /\
                 (include_finished = false ->
                  Forall (fun o => FplQueries.unfinished o.2 = Ok true) selected)).
  { destruct include_finished.
    - injection Hsel as <-. split; [reflexivity | discriminate].
    - destruct (keep_spec _ _ _ Hsel) as [Hs Ha]. split; [exact Hs | intros _; exact Ha]. }
  destruct Hsub as [Hsub Hunf].
  assert (Hsub_all : sublist selected (imap pair store)) by (etransitivity; eassumption).
  assert (Hnd : NoDup selected.*1).
  { eapply sublist_NoDup; [apply (imap_pair_NoDup store)|].
    now apply fmap_sublist. }
  assert (Hstore : Forall (fun o => store !! o.1 = Some o.2) selected).
  { apply Forall_forall. intros [i f] Hin. cbn [fst snd].
    apply imap_pair_lookup. eapply elem_of_sublist; eassumption. }
  destruct (flag_loop_spec _ _ _ _ Hloop Hnd Hstore) as (Hlen & Hout & Hin).
  exists store'. split; [reflexivity|]. split; [reflexivity|].
  split; [exact Hlen|]. split; [exact Hout|]. split.
  - intros i fixture Hi Hinv Hfin.
    apply list_elem_of_fmap. exists (i, fixture). split; [reflexivity|].
    assert (Hmem : (i, fixture) ∈ mine).
    { eapply keep_complete; [exact Hmine | now apply imap_pair_lookup | exact Hinv]. }
    destruct include_finished.
    + injection Hsel as <-. exact Hmem.
    + eapply keep_complete; [exact Hsel | exact Hmem | now apply Hfin].
  - intros i Hi. apply list_elem_of_fmap in Hi as ([j f] & -> & Hi). cbn [fst].
    pose proof (proj1 (Forall_forall _ _) Hin _ Hi) as (f' & Hflag & Hnew).
    pose proof (proj1 (Forall_forall _ _) Hstore _ Hi) as Hold.
    pose proof (proj1 (Forall_forall _ _) Hall_mine (j, f)
                  (elem_of_sublist _ _ _ Hi Hsub)) as Hinv.
    cbn [fst snd] in *.
    apply flag_ok in Hflag as (d & h & opponent & -> & Hh & Hopp & ->).
    apply involves_ok in Hinv as (d0 & a & Heq & Ha & Hside). injection Heq as <-.
    exists d, h, a. split; [exact Hold|]. split; [exact Hh|]. split; [exact Ha|].
    split.
    { destruct Hside as [Hside | (h' & Hh' & Hside)]; [now left|].
      right. congruence. }
    split.
    { intros Hfalse. apply (unfinished_ok (VDict d) d eq_refl).
      exact (proj1 (Forall_forall _ _) (Hunf Hfalse) _ Hi). }
    rewrite Hnew. repeat f_equal.
    destruct (FplQueries.eq_int h team_id); congruence.
Qed.

Lemma team_fixtures_flag_the_cached_objects_witness :
  let fx := fun (h a : Z) (fin : bool) =>
    VDict [("team_h", VInt h); ("team_a", VInt a); ("finished", VBool fin)]%string in
  let store := [fx 1 2 false; fx 3 1 true; fx 2 3 false; fx 3 1 false] in
  let w := FplData.mkWorld FplData.empty_cache [] in
  let out := FplQueries.get_team_fixtures 1 false
               (FplData.mkCall 0 (Ok (VList store)) 5) w in
  out.1 = Ok [0; 3]%nat
  /\ exists store' : list pyval,
       FplData.fixtures_data (FplData.data_cache out.2) = Some (VList store')
       /\ store' !! 2%nat = Some (fx 2 3 false)
       /\ store' !! 3%nat
          = Some (VDict [("team_h", VInt 3); ("team_a", VInt 1);
                         ("finished", VBool false); ("is_home", VBool false);
                         ("opponent", VInt 3)]%string).
Proof.
  intros fx store w out.
  assert (Hout : out = (Ok [0; 3]%nat, out.2)) by (vm_compute; reflexivity).
  split; [now rewrite Hout|].
  destruct (team_fixtures_flag_the_cached_objects 1 false
              (FplData.mkCall 0 (Ok (VList store)) 5) w out.2 store [0; 3]%nat
              eq_refl Hout)
    as (store' & Hcache & _ & _ & Hsame & _ & Hflagged).
  exists store'. split; [exact Hcache|]. split.
  - rewrite Hsame; [reflexivity|].
    apply (bool_decide_unpack _). vm_compute. exact I.
  - destruct (Hflagged 3%nat) as (d & h & a & Hd & Hh & Ha & _ & _ & Hnew).
    + apply (bool_decide_unpack _). vm_compute. exact I.
    + cbn in Hd. injection Hd as <-. cbn in Hh, Ha. injection Hh as <-. injection Ha as <-.
      rewrite Hnew. vm_compute. reflexivity.
Defined.

(** The same object serves every caller: after the fixtures of team 1, a
    home side, have been returned, a call for its opponent turns the flags
    of their common fixture to the opponent's view. *)
Example team_fixtures_are_shared :
  let fx := VDict [("team_h", VInt 1); ("team_a", VInt 2); ("finished", VBool false)]%string in
  let w := FplData.mkWorld FplData.empty_cache [] in
  let first := FplQueries.get_team_fixtures 1 false (FplData.mkCall 0 (Ok (VList [fx])) 5) w in
  let second := FplQueries.get_team_fixtures 2 false (FplData.mkCall 9 (Ok (VList [])) 9) first.2 in
  first.1 = Ok [0%nat] /\ second.1 = Ok [0%nat]
  /\ FplData.requests second.2 = [FplData.FIXTURES_URL]
  /\ FplData.fixtures_data (FplData.data_cache first.2)
     = Some (VList [VDict [("team_h", VInt 1); ("team_a", VInt 2); ("finished", VBool false);
                           ("is_home", VBool true); ("opponent", VInt 2)]%string])
  /\ FplData.fixtures_data (FplData.data_cache second.2)
     = Some (VList [VDict [("team_h", VInt 1); ("team_a", VInt 2); ("finished", VBool false);
                           ("is_home", VBool false); ("opponent", VInt 1)]%string]).
Proof. vm_compute. repeat split. Qed.

(** ** Positions of the training rows and of the loader *)

Lemma get_position_name_values (position_id : pyval) (p : string) :
  TrainingData.get_position_name position_id = Ok p ->
  p ∈ ["GK"; "DEF"; "MID"; "FWD"; "Unknown"]%string.
Proof.
  unfold TrainingData.get_position_name. intros H.
  assert (Htable : forall n, TrainingData.positions_get n TrainingData.positions
                             ∈ ["GK"; "DEF"; "MID"; "FWD"; "Unknown"]%string).
  { intros n. unfold TrainingData.positions. cbn [TrainingData.positions_get].
    repeat (destruct (PyNum.eq n _);
            [repeat first [apply list_elem_of_here | apply list_elem_of_further]|]).
    repeat first [apply list_elem_of_here | apply list_elem_of_further]. }
  destruct position_id; try discriminate;
    first [ bind_inv H; injection H as <-; apply Htable
          | injection H as <-;
            repeat first [apply list_elem_of_here | apply list_elem_of_further] ].
Qed.

Lemma resolve_predictors_keys (path_exists : string -> bool)
    (load : string -> string -> bool) (model_dir_str pos : string) :
  pos ∉ Orchestrator.positions ->
  dict_get (Orchestrator.predictors
              (Orchestrator.resolve_predictors path_exists load model_dir_str)) pos
  = None.
Proof.
  intros Hnot. unfold Orchestrator.resolve_predictors.
  rewrite resolve_rest_keeps by exact Hnot. reflexivity.
Qed.

(** X24. The position names written by the training-time extractor and the
    keys under which the loader registers predictors agree: a training row
    carries one of GK, DEF, MID, FWD, whose lower-case form is a position of
    the loader, or "Unknown" (the record's [element_type] is none of 1 to
    4).  No predictor is ever registered for "unknown", so such a row is
    given its own [points_per_game] by the prediction loop, whatever models
    are on disk. *)
Theorem training_position_reaches_the_loader (py_str : pyval -> string)
    (raw row : dict pyval) (path_exists : string -> bool)
    (load : string -> string -> bool) (model_dir_str : string)
    (feature_names : Orchestrator.Predictor -> list string)
    (predict : Orchestrator.Predictor -> dict pyval -> result pyval)
    (exn_str : exn -> string)
    (infer_objects : dict pyval -> result (dict pyval)) :
  (forall s : string, py_str (VStr s) = s) ->
  TrainingData.process_player_features py_str raw = Ok row ->
  let st := Orchestrator.resolve_predictors path_exists load model_dir_str in
  exists p : string,
    TrainingData.get_position_name (dict_get_default raw "element_type" (VInt 0)) = Ok p
    /\ dict_get row "position" = Some (VStr p)
    /\ (p <> "Unknown"%string -> PyStr.str_lower p ∈ Orchestrator.positions)
    /\ (p = "Unknown"%string ->
        dict_get (Orchestrator.predictors st) (PyStr.str_lower p) = None
        /\ Orchestrator.predict_row feature_names predict py_str exn_str
             infer_objects (Orchestrator.predictors st) row
           = Ok (dict_get_default row "points_per_game" (VInt 0), [])).
Proof.
  intros Hstr H st. unfold TrainingData.process_player_features in H.
  repeat bind_inv H. injection H as <-.
  match goal with
  | E : TrainingData.get_position_name _ = Ok ?q |- _ =>
      exists q; pose proof (get_position_name_values _ _ E) as Hq; split; [exact E|]
  end.
  split; [reflexivity|]. split.
  - intros Hne.
    repeat (apply elem_of_cons in Hq as [-> | Hq];
            [first [ contradiction
                   | vm_compute;
                     repeat first [apply list_elem_of_here | apply list_elem_of_further] ]|]).
    inversion Hq.
  - intros ->.
    assert (Hnone : dict_get (Orchestrator.predictors st) (PyStr.str_lower "Unknown") = None).
    { apply resolve_predictors_keys. apply (bool_decide_unpack _). vm_compute. exact I. }
    split; [exact Hnone|].
    unfold Orchestrator.predict_row.
    cbn [dict_item dict_get String.eqb Ascii.eqb Bool.eqb bind].
    rewrite Hstr, Hnone. reflexivity.
Qed.

Lemma training_position_reaches_the_loader_witness :
  let raw :=
    [ ("id", VInt 7); ("minutes", VInt 150); ("total_points", VInt 9);
      ("element_type", VInt 5) ]%string in
  let py_str (v : pyval) := match v with VStr s => s | _ => EmptyString end in
  exists row : dict pyval,
    TrainingData.process_player_features py_str raw = Ok row
    /\ dict_get row "position" = Some (VStr "Unknown")
    /\ Orchestrator.predict_row (fun _ => ["form"]%string) (fun _ _ => Ok (VInt 99))
         py_str (fun _ => EmptyString) Ok
         (Orchestrator.predictors
            (Orchestrator.resolve_predictors (fun _ => true) (fun _ _ => true) "models"))
         row
       = Ok (VInt 0, []).
Proof.
  intros raw py_str.
  destruct (TrainingData.process_player_features py_str raw) as [row|e] eqn:E;
    [|vm_compute in E; discriminate].
  exists row. split; [reflexivity|].
  destruct (training_position_reaches_the_loader py_str raw row (fun _ => true)
              (fun _ _ => true) "models" (fun _ => ["form"]%string)
              (fun _ _ => Ok (VInt 99)) (fun _ => EmptyString) Ok (fun s => eq_refl) E)
    as (p & Hp & Hcell & _ & Hunknown).
  assert (p = "Unknown"%string) as -> by (vm_compute in Hp; congruence).
  split; [exact Hcell|].
  destruct (Hunknown eq_refl) as [_ Hrow]. rewrite Hrow.
  f_equal. f_equal. vm_compute in E. injection E as <-. reflexivity.
Defined.

(** ** Captain recommendations and the subscription tier *)

Section CaptainLimits.

Import TeamRating CaptainService.

Context {Model : Type}.
Variable get_model_for_tier : string -> result Model.
Variable recommend_captain :
  Model -> list Player -> pyval -> FplData.World -> result (list pyval) * FplData.World.
Variable validate_str : pyval -> result string.
Variable validate_float : pyval -> result float.

Lemma format_picks_players (players : list Player) (picks : list pyval)
    (recommendations : list CaptainPick) :
  format_picks validate_str validate_float players picks = Ok recommendations ->
  map player recommendations = omap (named_player players) picks.
Proof using Type.
  revert recommendations.
  induction picks as [|pick_data picks IH]; intros recs H; cbn [format_picks] in H.
  { injection H as <-. reflexivity. }
  bind_inv H. destruct pick_data; try discriminate.
  cbn in E. injection E as <-.
  cbn [omap list_omap].
  change (named_player players (VDict d))
    with (find_by_name players (dict_get_default d "player" (VStr ""))).
  destruct (find_by_name players _) as [p|] eqn:Hfind.
  - do 4 bind_inv H. injection H as <-.
    unfold new_CaptainPick in E1. do 2 bind_inv E1. injection E1 as <-.
    cbn [map player]. f_equal. now apply IH.
  - now apply IH.
Qed.

Lemma slice_to_int {A : Type} (k : nat) (l : list A) :
  slice_to (VInt (Z.of_nat k)) l = Ok (take k l).
Proof using Type.
  unfold slice_to, slice_upto. destruct (Z.leb_spec 0 (Z.of_nat k)); [|lia].
  now rewrite Nat2Z.id.
Qed.

Lemma named_player_in_team (players : list Player) (pick_data : pyval) (p : Player) :
  named_player players pick_data = Some p ->
  p ∈ players /\ exists d, pick_data = VDict d
                           /\ dict_get_default d "player" (VStr "") = VStr (name p).
Proof using Type.
  destruct pick_data; try discriminate. cbn [named_player]. unfold find_by_name.
  intros H. apply List.find_some in H as [Hin Hname]. split.
  - now apply list_elem_of_In.
  - exists d. split; [reflexivity|]. unfold name_is in Hname.
    destruct (dict_get_default d "player" (VStr "")); try discriminate.
    apply String.eqb_eq in Hname. now subst.
Qed.

Lemma omap_length_bound {A B : Type} (f : A -> option B) (l : list A) :
  (length (omap f l) <= length l)%nat.
Proof using Type.
  induction l as [|a l IH]; cbn; [lia|]. destruct (f a); cbn; lia.
Qed.

Lemma declared_tier_limit (tier : string) :
  exists config : dict pyval,
    tier_config SUBSCRIPTION_TIERS tier = Ok config
    /\ dict_get_default config "captain_picks_limit" (VInt 2)
       = VInt (Z.of_nat (if String.eqb tier "premium" then 3
                         else if String.eqb tier "elite" then 5 else 2)%nat).
Proof using Type.
  unfold tier_config.
  change (dict_item SUBSCRIPTION_TIERS "basic")
    with (Ok [ ("model_version", VStr "basic-v1");
               ("recommendations_limit", VInt 3);
               ("captain_picks_limit", VInt 2) ]%string).
  cbn [bind]. eexists. split; [reflexivity|].
  unfold dict_get_default, SUBSCRIPTION_TIERS. cbn [dict_get].
  destruct (String.eqb tier "basic") eqn:Eb.
  { apply String.eqb_eq in Eb as ->. reflexivity. }
  destruct (String.eqb tier "premium") eqn:Ep; [reflexivity|].
  destruct (String.eqb tier "elite") eqn:Ee; reflexivity.
Qed.

(** X25. With the declared tiers, a positive gameweek and a model for the
    tier, [get_custom_captain_recommendations] never raises and returns at
    most 2 picks for basic, 3 for premium and 5 for elite; a missing, empty
    or unknown tier is served as basic.  The limit is applied to the
    model's ranking before the names are resolved: the players of the picks
    are, in order, the team players named by the first entries of the
    ranking, an entry that names no player of the team is dropped without a
    later entry taking its place, and any failure gives the empty list. *)
Theorem captain_picks_respect_the_tier (team : Team) (gameweek : Z)
    (subscription_tier : option string) (call : FplData.Call) (w : FplData.World)
    (model : Model) :
  0 < gameweek ->
  get_model_for_tier (tier_or_basic subscription_tier) = Ok model ->
  let out := get_custom_captain_recommendations get_model_for_tier recommend_captain
               validate_str validate_float SUBSCRIPTION_TIERS team gameweek
               subscription_tier call w in
  let tier := tier_or_basic subscription_tier in
  let limit := (if String.eqb tier "premium" then 3
                else if String.eqb tier "elite" then 5 else 2)%nat in
  let asked := recommend_captain model (players team) (VInt gameweek) w in
  exists recommendations : list CaptainPick,
    out = (Ok recommendations, asked.2)
    /\ (length recommendations <= limit)%nat
    /\ Forall (fun pick => player pick ∈ players team) recommendations
    /\ (recommendations = []
        \/ exists ranked : list pyval,
             asked.1 = Ok ranked
             /\ map player recommendations
                = omap (named_player (players team)) (take limit ranked)).
Proof using Type.
  intros Hgw Hmodel out tier limit asked.
  unfold out, get_custom_captain_recommendations. rewrite Hmodel.
  unfold resolve_gameweek. destruct (Z.leb_spec gameweek 0); [lia|].
  destruct (declared_tier_limit tier) as (config & Hconfig & Hlimit).
  fold tier. rewrite Hconfig, Hlimit. fold limit.
  fold asked. destruct asked as [ranked w2]. cbn [fst snd].
  destruct ranked as [ranked|e]; cbn [bind].
  2:{ exists []. repeat split; [cbn; lia | constructor | now left]. }
  rewrite slice_to_int. cbn [bind]. fold limit.
  destruct (format_picks _ _ _ _) as [recs|e] eqn:Hfmt.
  2:{ exists []. repeat split; [cbn; lia | constructor | now left]. }
  exists recs. apply format_picks_players in Hfmt.
  split; [reflexivity|]. split; [|split].
  - rewrite <- (length_map player), Hfmt.
    etransitivity; [apply omap_length_bound|]. rewrite length_take. lia.
  - apply Forall_forall. intros pick Hpick.
    assert (Hin : player pick ∈ map player recs) by now apply list_elem_of_fmap_2.
    rewrite Hfmt in Hin. apply list_elem_of_omap in Hin as (pd & _ & Hnamed).
    now apply named_player_in_team in Hnamed as [Hteam _].
  - right. exists ranked. split; [reflexivity|exact Hfmt].
Qed.

End CaptainLimits.

Example captain_picks_limit_cuts_before_names :
  let ann := TeamRating.mkPlayer 1 "Ann" "A" "MID" 7.5 80 None in
  let bob := TeamRating.mkPlayer 2 "Bob" "B" "FWD" 9.5 95 None in
  let team := TeamRating.mkTeam [ann; bob] 17 1 in
  let ranking :=
    [ VDict [("player", VStr "Zed")]; VDict [("player", VStr "Yan")];
      VDict [("player", VStr "Bob")] ]%string in
  let py_text v := match v with VStr s => Ok s | _ => Raise ValueError end in
  let run tier :=
    (CaptainService.get_custom_captain_recommendations
       (fun _ => Ok tt) (fun _ _ _ w => (Ok ranking, w)) py_text py_float
       CaptainService.SUBSCRIPTION_TIERS team 3 tier
       (FplData.mkCall 0 (Raise (RequestError "timed out")) 0)
       (FplData.mkWorld FplData.empty_cache [])).1 in
  run (Some "basic"%string) = Ok []
  /\ run (Some "gold"%string) = Ok []
  /\ run (Some "premium"%string)
     = Ok [CaptainService.mkCaptainPick bob "Strong candidate for returns." 0].
Proof. vm_compute. repeat split; reflexivity. Qed.

Lemma captain_picks_respect_the_tier_witness :
  let ann := TeamRating.mkPlayer 1 "Ann" "A" "MID" 7.5 80 None in
  let bob := TeamRating.mkPlayer 2 "Bob" "B" "FWD" 9.5 95 None in
  let team := TeamRating.mkTeam [ann; bob] 17 1 in
  let ranking :=
    [ VDict [("player", VStr "Bob")]; VDict [("player", VStr "Zed")];
      VDict [("player", VStr "Ann")]; VDict [("player", VStr "Ann")] ]%string in
  let py_text v := match v with VStr s => Ok s | _ => Raise ValueError end in
  exists recommendations : list CaptainService.CaptainPick,
    (CaptainService.get_custom_captain_recommendations
       (fun _ => Ok tt) (fun _ _ _ w => (Ok ranking, w)) py_text py_float
       CaptainService.SUBSCRIPTION_TIERS team 3 (Some "premium"%string)
       (FplData.mkCall 0 (Raise (RequestError "timed out")) 0)
       (FplData.mkWorld FplData.empty_cache [])).1 = Ok recommendations
    /\ (length recommendations <= 3)%nat
    /\ map CaptainService.player recommendations = [bob; ann].
Proof.
  intros ann bob team ranking py_text.
  destruct (captain_picks_respect_the_tier (fun _ => Ok tt)
              (fun _ _ _ w => (Ok ranking, w)) py_text py_float team 3
              (Some "premium"%string) (FplData.mkCall 0 (Raise (RequestError "timed out")) 0)
              (FplData.mkWorld FplData.empty_cache []) tt ltac:(lia) eq_refl)
    as (recs & Hout & Hlen & _ & Hnames).
  exists recs. split; [now rewrite Hout|]. split; [exact Hlen|].
  destruct Hnames as [-> | (ranked & Hranked & ->)].
  - vm_compute in Hout. discriminate.
  - cbn in Hranked. injection Hranked as <-. reflexivity.
Defined.

(** ** Mock transfer suggestions *)

Section MockTransferFacts.

Import TeamRating MockTransfers.

Variable get_players_by_form : Z -> Z -> result (list pyval).
Variable player_dict : Player -> dict pyval.
Variable py_str : pyval -> string.
Variable uniform : nat -> float.

Lemma min_by_total_points_spec (ps : list Player) (best : Player) :
  let m := min_by_total_points best ps in
  m ∈ best :: ps
  /\ total_points m <= total_points best
  /\ Forall (fun q => total_points m <= total_points q) ps.
Proof using Type.
  revert best. induction ps as [|p ps IH]; intros best; cbn [min_by_total_points].
  { split; [apply list_elem_of_here|]. split; [lia|constructor]. }
  destruct (IH (if total_points p <? total_points best then p else best))
    as (Hin & Hle & Hall).
  destruct (Z.ltb_spec (total_points p) (total_points best)) as [Hlt|Hge].
  - split; [|split; [lia|constructor; [lia|exact Hall]]].
    apply list_elem_of_further. exact Hin.
  - split; [|split; [lia|constructor; [lia|exact Hall]]].
    apply elem_of_cons in Hin as [-> | Hin];
      [apply list_elem_of_here | do 2 apply list_elem_of_further; exact Hin].
Qed.

Lemma slice_upto_take {A : Type} (k : Z) (l : list A) :
  exists n : nat, slice_upto k l = take n l /\ (0 <= k -> Z.of_nat n = k).
Proof using Type.
  unfold slice_upto. destruct (Z.leb_spec 0 k).
  - exists (Z.to_nat k). split; [reflexivity|lia].
  - eexists. split; [reflexivity|lia].
Qed.

Lemma is_candidate_spec (current_ids : list Z) (budget : float) (player_data : pyval) :
  is_candidate current_ids budget player_data = Ok true ->
  exists (player_id now_cost : pyval) (cost : PyNum.num) (price : float),
    FplQueries.py_item player_data "id" = Ok player_id
    /\ Forall (fun n => FplQueries.eq_int player_id n = false) current_ids
    /\ FplQueries.py_item player_data "now_cost" = Ok now_cost
    /\ PyNum.as_num now_cost = Ok cost
    /\ PyNum.truediv cost (PyNum.NFloat 10) = Ok price
    /\ PrimFloat.leb price budget = true.
Proof using Type.
  unfold is_candidate. intros H. do 2 bind_inv H.
  destruct a0; [discriminate|]. do 3 bind_inv H. injection H as H.
  exists a, a0, a1, a2. repeat split; try assumption.
  unfold in_ids in E0.
  assert (Hnone : existsb (FplQueries.eq_int a) current_ids = false)
    by (destruct a; try discriminate; now injection E0).
  apply Forall_forall. intros n Hn.
  destruct (FplQueries.eq_int a n) eqn:En; [|reflexivity].
  rewrite <- Hnone. symmetry. apply existsb_exists. exists n.
  split; [now apply list_elem_of_In|exact En].
Qed.

Lemma first_suggestion_spec (t : Team) (budget : float) (pos : string) (draw : nat)
    (candidates top_players : list pyval) (suggestion : dict pyval) :
  get_players_by_form (position_id pos) 5 = Ok candidates ->
  top_players ⊆ candidates ->
  first_suggestion player_dict py_str uniform t budget pos draw top_players
  = Ok (Some suggestion) ->
  made_for get_players_by_form player_dict t budget suggestion pos.
Proof using Type.
  intros Hasked. induction top_players as [|player_data rest IH]; intros Hsub H;
    cbn [first_suggestion] in H; [discriminate|].
  assert (Hrest : rest ⊆ candidates)
    by (intros x Hx; apply Hsub; now apply list_elem_of_further).
  bind_inv H. destruct a; [|now apply IH].
  destruct (filter _ (players t)) as [|p ps] eqn:Hsame; [now apply IH|].
  bind_inv H. injection H as <-.
  apply is_candidate_spec in E as (pid & now_cost & cost & price & Hid & Hnew & Hcost & Hnum & Hprice & Hle).
  unfold new_suggestion in E0. rewrite Hid, Hcost in E0. cbn [bind] in E0.
  do 2 bind_inv E0. cbn [bind] in E0. rewrite Hnum in E0. cbn [bind] in E0.
  rewrite Hprice in E0. cbn [bind] in E0.
  do 3 bind_inv E0. injection E0 as <-.
  destruct (min_by_total_points_spec ps p) as (Hin & Hbest & Hall).
  assert (Hteam : forall q, q ∈ p :: ps -> q ∈ players t /\ position q = pos).
  { intros q Hq. rewrite <- Hsame in Hq. apply list_elem_of_filter in Hq as [Hq ?].
    split; [assumption|]. now apply String.eqb_eq. }
  exists (min_by_total_points p ps), candidates, player_data, pid, price.
  eexists. split; [exact Hasked|].
  split; [apply Hsub, list_elem_of_here|].
  split; [exact Hid|].
  split; [now apply Hteam|]. split; [now apply Hteam|].
  split.
  { intros q Hq Hpos.
    assert (Hq' : q ∈ p :: ps).
    { rewrite <- Hsame. apply list_elem_of_filter. split; [|exact Hq].
      now apply String.eqb_eq. }
    apply elem_of_cons in Hq' as [-> | Hq']; [exact Hbest|].
    rewrite Forall_forall in Hall. now apply Hall. }
  split; [reflexivity|]. split; [reflexivity|]. split; [reflexivity|].
  split.
  { intros q Hq. rewrite Forall_forall in Hnew. apply Hnew.
    now apply list_elem_of_fmap_2. }
  split; [reflexivity|exact Hle].
Qed.

Lemma suggest_loop_spec (t : Team) (budget : float) (todo : list string)
    (suggestions out : list (dict pyval)) :
  suggest_loop get_players_by_form player_dict py_str uniform t budget todo suggestions
  = Ok out ->
  exists (new : list (dict pyval)) (sold : list string),
    out = suggestions ++ new
    /\ sublist sold todo
    /\ Forall2 (made_for get_players_by_form player_dict t budget) new sold.
Proof using Type.
  revert suggestions. induction todo as [|pos todo IH]; intros suggestions H;
    cbn [suggest_loop] in H.
  { injection H as <-. exists [], []. rewrite app_nil_r. repeat split; constructor. }
  do 2 bind_inv H. apply IH in H as (new & sold & -> & Hsub & Hall).
  destruct a0 as [suggestion|].
  - exists (suggestion :: new), (pos :: sold). rewrite <- app_assoc.
    split; [reflexivity|]. split; [now constructor|].
    constructor; [|exact Hall].
    eapply first_suggestion_spec; [exact E | reflexivity | exact E0].
  - exists new, sold. split; [reflexivity|]. split; [now constructor|exact Hall].
Qed.

(** X26. [mock_transfer_suggestions] never raises, and each suggestion it
    returns is sound: the player leaving is a player of the team with the
    fewest total points at his position, the player coming in is a
    candidate for that position whose [id] no player of the team has and
    whose price is within the budget.  There is at most one suggestion for
    each of DEF, MID and FWD, in that order (never one for a goalkeeper),
    and at most [max_suggestions] of them. *)
Theorem mock_transfers_are_new_and_affordable (t : Team) (budget : float)
    (gameweek : Z) (subscription_tier : string) (max_suggestions : Z) :
  let out := mock_transfer_suggestions get_players_by_form player_dict py_str uniform
               t budget gameweek subscription_tier max_suggestions in
  (0 <= max_suggestions -> Z.of_nat (length out) <= max_suggestions)
  /\ exists sold : list string,
       sublist sold ["DEF"; "MID"; "FWD"]%string
       /\ Forall2
            (fun suggestion pos =>
               exists (player_out : Player) (candidates : list pyval)
                      (player_data player_id : pyval) (price : float)
                      (player_in : dict pyval),
                 get_players_by_form (position_id pos) 5 = Ok candidates
                 /\ player_data ∈ candidates
                 /\ FplQueries.py_item player_data "id" = Ok player_id
                 /\ player_out ∈ players t
                 /\ position player_out = pos
                 /\ (forall q : Player,
                       q ∈ players t -> position q = pos ->
                       total_points player_out <= total_points q)
                 /\ dict_get suggestion "player_out"
                    = Some (VDict (player_dict player_out))
                 /\ dict_get suggestion "player_in" = Some (VDict player_in)
                 /\ dict_get player_in "id" = Some player_id
                 /\ (forall q : Player,
                       q ∈ players t -> FplQueries.eq_int player_id (id q) = false)
                 /\ dict_get player_in "price" = Some (VFloat price)
                 /\ PrimFloat.leb price budget = true)
            out sold.
Proof using Type.
  intros out. unfold out, mock_transfer_suggestions.
  destruct (suggest_loop _ _ _ _ _ _ _ _) as [suggestions|e] eqn:Hloop.
  2:{ split; [cbn; lia|]. exists []. split; [apply sublist_nil_l|constructor]. }
  apply suggest_loop_spec in Hloop as (new & sold & -> & Hsub & Hall).
  cbn [app].
  destruct (slice_upto_take max_suggestions new) as (n & -> & Hn).
  split.
  - intros Hk. rewrite length_take. specialize (Hn Hk). lia.
  - exists (take n sold). split.
    + etransitivity; [apply sublist_take|].
      etransitivity; [exact Hsub|].
      destruct (slice_upto_take max_suggestions positions) as (m & -> & _).
      apply sublist_take.
    + apply Forall2_take. exact Hall.
Qed.

End MockTransferFacts.

Example mock_transfer_suggestions_example :
  let p := fun (i : Z) (n pos : string) (pts : Z) =>
    TeamRating.mkPlayer i n "club" pos 5 pts None in
  let team := TeamRating.mkTeam
                [p 1 "Raya" "GK" 90; p 2 "Gabriel" "DEF" 80; p 3 "Saliba" "DEF" 70;
                 p 4 "Saka" "MID" 120]%string 25 2 in
  let candidate (i cost : Z) (n : string) :=
    VDict [ ("id", VInt i); ("first_name", VStr n); ("second_name", VStr "X");
            ("now_cost", VInt cost); ("form", VStr "6.5"); ("total_points", VInt 50)
          ]%string in
  let by_form (position_id limit : Z) :=
    if position_id =? 2
    then Ok [candidate 3 40 "In team"; candidate 9 90 "Dear"; candidate 10 45 "Fine"]
    else Ok [candidate 11 50 "Other"] in
  let out := MockTransfers.mock_transfer_suggestions by_form
               (fun q => [("name", VStr (TeamRating.name q))]%string)
               (fun v => match v with VStr s => s | _ => EmptyString end)
               (fun _ => 2.5%float) team 5 7 "basic" 2 in
  map (fun s => (dict_get s "player_out", dict_get s "reasoning")) out
  = [ (Some (VDict [("name", VStr "Saliba")]),
       Some (VStr "Better form and fixtures for Fine X"));
      (Some (VDict [("name", VStr "Saka")]),
       Some (VStr "Better form and fixtures for Other X")) ]%string.
Proof. vm_compute. reflexivity. Qed.
